(** * Medical report scanner backend (backend/server.py): model and properties

    The FastAPI handlers of [backend/server.py] are embedded as functions in
    a reader/state/exception monad.  What the handlers only call (the LLM
    provider, [json.loads], [uuid4], [utcnow], the availability of the
    MongoDB server) is an input of the model; the handlers themselves are
    transcribed statement by statement. *)

From Stdlib Require Import Bool Arith ZArith QArith Lia List.
From Stdlib Require Import Ascii String DecimalString DecimalNat.
From Stdlib Require Import Sorted Permutation.
Import ListNotations.

Local Close Scope Q_scope.
Local Open Scope nat_scope.
Local Open Scope string_scope.
Local Open Scope list_scope.

(** ** Python [str] operations used by the server

    A [string] is read as a sequence of characters, one [ascii] per
    character (code points below 256). *)

Module PyStr.

(** [str.isspace] on one character: TAB..CR, FS..US, space, NEL and NBSP. *)
Definition isspace (c : ascii) : bool :=
  let n := nat_of_ascii c in
  (((9 <=? n) && (n <=? 13)) || ((28 <=? n) && (n <=? 32))
   || (n =? 133) || (n =? 160))%nat.

Fixpoint lstrip (s : string) : string :=
  match s with
  | String c s' => if isspace c then lstrip s' else s
  | EmptyString => EmptyString
  end.

Fixpoint rstrip (s : string) : string :=
  match s with
  | String c s' =>
      match rstrip s' with
      | EmptyString => if isspace c then EmptyString else String c EmptyString
      | r => String c r
      end
  | EmptyString => EmptyString
  end.

(** [s.strip()] *)
Definition strip (s : string) : string := rstrip (lstrip s).

(** [s.startswith(p)] *)
Definition startswith (s p : string) : bool := String.prefix p s.

(** [s[n:]] *)
Fixpoint slice_from (n : nat) (s : string) : string :=
  match n, s with
  | S n', String _ s' => slice_from n' s'
  | _, _ => s
  end.

(** [s[:n]] *)
Definition slice_to (n : nat) (s : string) : string := String.substring 0 n s.

(** [s[:-n]] for [n > 0] *)
Definition drop_last (n : nat) (s : string) : string :=
  slice_to (String.length s - n) s.

(** [s.endswith(p)] *)
Definition endswith (s p : string) : bool :=
  (String.length p <=? String.length s)%nat
  && (slice_from (String.length s - String.length p) s =? p).

End PyStr.

(** ** Cleaning of the completion text (analyze_medical_report, lines 154-163) *)

Definition nl : string := String (ascii_of_nat 10) EmptyString.

Definition fence : string := "```".
Definition fence_json : string := "```json".

Definition clean_response (response : string) : string :=
  let cleaned_response := PyStr.strip response in
  let cleaned_response :=
    if PyStr.startswith cleaned_response fence_json
    then PyStr.slice_from 7 cleaned_response else cleaned_response in
  let cleaned_response :=
    if PyStr.startswith cleaned_response fence
    then PyStr.slice_from 3 cleaned_response else cleaned_response in
  let cleaned_response :=
    if PyStr.endswith cleaned_response fence
    then PyStr.drop_last 3 cleaned_response else cleaned_response in
  PyStr.strip cleaned_response.

(** ** Timestamps

    [datetime.utcnow()] yields naive datetimes; a value is the tuple of its
    calendar fields, which is also how Python orders them. *)

Record datetime : Type := mk_datetime {
  year : Z; month : Z; day : Z;
  hour : Z; minute : Z; second : Z; microsecond : Z
}.

Definition is_leap (y : Z) : bool :=
  ((y mod 4 =? 0) && (negb (y mod 100 =? 0) || (y mod 400 =? 0)))%Z.

Definition days_in_month (y m : Z) : Z :=
  (if m =? 2 then (if is_leap y then 29 else 28)
   else if (m =? 4) || (m =? 6) || (m =? 9) || (m =? 11) then 30
   else 31)%Z.

(** The range checks of the [datetime] constructor. *)
Definition valid_datetime (d : datetime) : bool :=
  ((1 <=? year d) && (year d <=? 9999)
   && (1 <=? month d) && (month d <=? 12)
   && (1 <=? day d) && (day d <=? days_in_month (year d) (month d))
   && (0 <=? hour d) && (hour d <? 24)
   && (0 <=? minute d) && (minute d <? 60)
   && (0 <=? second d) && (second d <? 60)
   && (0 <=? microsecond d) && (microsecond d <? 1000000))%Z.

Definition lex (c : comparison) (k : comparison) : comparison :=
  match c with Eq => k | _ => c end.

Definition dt_compare (a b : datetime) : comparison :=
  lex (Z.compare (year a) (year b))
  (lex (Z.compare (month a) (month b))
  (lex (Z.compare (day a) (day b))
  (lex (Z.compare (hour a) (hour b))
  (lex (Z.compare (minute a) (minute b))
  (lex (Z.compare (second a) (second b))
       (Z.compare (microsecond a) (microsecond b))))))).

Definition dt_ltb (a b : datetime) : bool :=
  match dt_compare a b with Lt => true | _ => false end.

Definition dt_leb (a b : datetime) : bool :=
  match dt_compare a b with Gt => false | _ => true end.

Definition digit (d : Z) : ascii := ascii_of_N (Z.to_N (48 + d)).

(** [w] decimal digits of [n], zero padded (the [%0wd] of [isoformat]). *)
Fixpoint pad (w : nat) (n : Z) : string :=
  match w with
  | 0 => EmptyString
  | S w' => String (digit (n / 10 ^ Z.of_nat w'))
                   (pad w' (n mod 10 ^ Z.of_nat w'))
  end.

(** The fractional part of [isoformat]: empty when the microsecond field is
    zero. *)
Definition fraction (us : Z) : string :=
  if (us =? 0)%Z then "" else ("." ++ pad 6 us)%string.

(** [d.isoformat()] on a naive datetime: [YYYY-MM-DDTHH:MM:SS], followed by
    [.ffffff] when the microsecond field is not zero. *)
Definition isoformat (d : datetime) : string :=
  (pad 4 (year d) ++ "-" ++ pad 2 (month d) ++ "-" ++ pad 2 (day d) ++ "T"
   ++ pad 2 (hour d) ++ ":" ++ pad 2 (minute d) ++ ":" ++ pad 2 (second d)
   ++ fraction (microsecond d))%string.

Definition digit_val (c : ascii) : option Z :=
  let n := Z.of_N (N_of_ascii c) in
  if ((48 <=? n) && (n <=? 57))%Z then Some (n - 48)%Z else None.

(** Reads exactly [w] decimal digits. *)
Fixpoint take_digits (w : nat) (acc : Z) (s : string) : option (Z * string) :=
  match w with
  | 0 => Some (acc, s)
  | S w' =>
      match s with
      | String c s' =>
          match digit_val c with
          | Some v => take_digits w' (10 * acc + v)%Z s'
          | None => None
          end
      | EmptyString => None
      end
  end.

Definition expect (c : ascii) (s : string) : option string :=
  match s with
  | String c' s' => if Ascii.eqb c c' then Some s' else None
  | EmptyString => None
  end.

Definition any_char (s : string) : option string :=
  match s with String _ s' => Some s' | EmptyString => None end.

Definition obind {A B} (o : option A) (f : A -> option B) : option B :=
  match o with Some a => f a | None => None end.

(** [datetime.fromisoformat] on the two layouts that [isoformat] emits for
    naive datetimes (the date/time separator may be any character); [None]
    is [ValueError].  Other ISO 8601 spellings, which recent Python versions
    also read, are outside this model: the server only reads back what it
    wrote with [isoformat]. *)
Definition fromisoformat (s : string) : option datetime :=
  obind (take_digits 4 0%Z s) (fun '(Y, s) =>
  obind (expect "-" s) (fun s =>
  obind (take_digits 2 0%Z s) (fun '(M, s) =>
  obind (expect "-" s) (fun s =>
  obind (take_digits 2 0%Z s) (fun '(D, s) =>
  obind (any_char s) (fun s =>
  obind (take_digits 2 0%Z s) (fun '(h, s) =>
  obind (expect ":" s) (fun s =>
  obind (take_digits 2 0%Z s) (fun '(m, s) =>
  obind (expect ":" s) (fun s =>
  obind (take_digits 2 0%Z s) (fun '(sec, s) =>
  obind (match s with
         | EmptyString => Some 0%Z
         | _ => obind (expect "." s) (fun s =>
                obind (take_digits 6 0%Z s) (fun '(us, s) =>
                match s with EmptyString => Some us | _ => None end))
         end) (fun us =>
  let d := mk_datetime Y M D h m sec us in
  if valid_datetime d then Some d else None)))))))))))).

(** ** Python and BSON values

    What [json.loads] returns and what a MongoDB document holds.  A [dict]
    keeps its insertion order; its keys are strings (JSON and BSON object
    keys always are) and are pairwise distinct.  [PFloat] carries the value
    of a finite float. *)

#[warnings="-register-all"]
Inductive pyval : Type :=
| PNone
| PBool (b : bool)
| PInt (z : Z)
| PFloat (q : Q)
| PStr (s : string)
| PDatetime (d : datetime)
| PObjectId (n : nat)
| PList (l : list pyval)
| PDict (d : list (string * pyval)).

Definition pydict : Type := list (string * pyval).

Fixpoint dict_get (k : string) (d : pydict) : option pyval :=
  match d with
  | [] => None
  | (k', v) :: d' => if (k =? k')%string then Some v else dict_get k d'
  end.

(** [d[k] = v]: an existing key keeps its position, a new one goes last. *)
Fixpoint dict_set (k : string) (v : pyval) (d : pydict) : pydict :=
  match d with
  | [] => [(k, v)]
  | (k', v') :: d' =>
      if (k =? k')%string then (k, v) :: d' else (k', v') :: dict_set k v d'
  end.

(** [d.pop(k, None)], keeping the dict only. *)
Fixpoint dict_pop (k : string) (d : pydict) : pydict :=
  match d with
  | [] => []
  | (k', v') :: d' =>
      if (k =? k')%string then d' else (k', v') :: dict_pop k d'
  end.

(** Truth value of an object ([if report:], [if not report:]). *)
Definition py_truthy (v : pyval) : bool :=
  match v with
  | PNone => false
  | PBool b => b
  | PInt z => negb (z =? 0)%Z
  | PFloat q => negb (Qeq_bool q 0)
  | PStr s => negb (s =? "")%string
  | PList l => match l with [] => false | _ => true end
  | PDict d => match d with [] => false | _ => true end
  | PDatetime _ | PObjectId _ => true
  end.

(** ** Exceptions and the handler monad *)

Inductive exn : Type :=
| HTTPException (status_code : nat) (detail : string)
| JSONDecodeError (msg : string)
| PyError (cls : string) (msg : string).

(** [str(e)] *)
Definition str_exn (e : exn) : string :=
  match e with
  | HTTPException c d =>
      (NilEmpty.string_of_uint (Nat.to_uint c) ++ ": " ++ d)%string
  | JSONDecodeError m => m
  | PyError _ m => m
  end.

Inductive Result (A : Type) : Type :=
| Ok (a : A)
| Raise (e : exn).
Arguments Ok {A} a.
Arguments Raise {A} e.

Definition AttributeError (ty attr : string) : exn :=
  PyError "AttributeError"
    ("'" ++ ty ++ "' object has no attribute '" ++ attr ++ "'")%string.

Definition type_name (v : pyval) : string :=
  match v with
  | PNone => "NoneType" | PBool _ => "bool" | PInt _ => "int"
  | PFloat _ => "float" | PStr _ => "str"
  | PDatetime _ => "datetime.datetime" | PObjectId _ => "ObjectId"
  | PList _ => "list" | PDict _ => "dict"
  end.

(** pydantic's [ValidationError]; of its message only the model and the
    field are kept. *)
Definition ValidationError (model field : string) : exn :=
  PyError "ValidationError"
    ("1 validation error for " ++ model ++ ": " ++ field)%string.

(** ** The pydantic models (lines 61-94) *)

Module ReportAnalysisRequest.
Record t : Type := mk {
  image_base64 : string;
  language : string
}.
End ReportAnalysisRequest.

Module HealthParameter.
Record t : Type := mk {
  name : string;
  value : string;
  unit : string;
  normal_range : string;
  status : string;
  explanation : string;
  hindi_explanation : option string
}.
End HealthParameter.

Module AnalyzedReport.
Record t : Type := mk {
  id : string;
  report_type : string;
  title : string;
  summary : string;
  hindi_summary : option string;
  parameters : list HealthParameter.t;
  health_tips : list string;
  hindi_health_tips : option (list string);
  overall_status : string;
  created_at : datetime;
  image_base64 : option string
}.
End AnalyzedReport.

Module SavedReport.
Record t : Type := mk {
  id : string;
  report_data : AnalyzedReport.t;
  saved_at : datetime
}.
End SavedReport.

Module CompareReportsRequest.
Record t : Type := mk {
  report_ids : list string
}.
End CompareReportsRequest.

(** ** The MongoDB collection [db.reports]

    The part of the driver's behaviour that the handlers rely on: documents
    are kept in insertion order, [insert_one] adds an [_id], a query
    [{"id": x}] selects the documents whose [id] field is [x] (or a list that
    contains [x]), [sort("saved_at", -1)] orders by the BSON comparison of the
    field, missing fields counting as null. *)

Module Mongo.

Record t : Type := mk {
  reports : list pydict;
  next_oid : nat
}.

Definition insert_one (doc : pydict) (m : t) : t :=
  let doc' :=
    match dict_get "_id" doc with
    | Some _ => doc
    | None => dict_set "_id" (PObjectId (next_oid m)) doc
    end in
  mk (reports m ++ [doc']) (S (next_oid m)).

Definition matches_id (report_id : string) (doc : pydict) : bool :=
  match dict_get "id" doc with
  | Some (PStr s) => (s =? report_id)%string
  | Some (PList l) =>
      existsb (fun v => match v with
                        | PStr s => (s =? report_id)%string
                        | _ => false
                        end) l
  | _ => false
  end.

Definition find_one (report_id : string) (m : t) : option pydict :=
  find (matches_id report_id) (reports m).

Fixpoint remove_first (f : pydict -> bool) (l : list pydict)
  : list pydict * nat :=
  match l with
  | [] => ([], 0)
  | d :: l' =>
      if f d then (l', 1)
      else let '(r, n) := remove_first f l' in (d :: r, n)
  end.

(** [delete_one({"id": report_id})]: the new collection and [deleted_count]. *)
Definition delete_one (report_id : string) (m : t) : t * nat :=
  let '(r, n) := remove_first (matches_id report_id) (reports m) in
  (mk r (next_oid m), n).

(** BSON comparison order of the value classes. *)
Definition bson_rank (v : pyval) : nat :=
  match v with
  | PNone => 1
  | PInt _ | PFloat _ => 2
  | PStr _ => 3
  | PDict _ => 4
  | PList _ => 5
  | PObjectId _ => 7
  | PBool _ => 8
  | PDatetime _ => 9
  end.

Definition bson_number (v : pyval) : Q :=
  match v with
  | PInt z => inject_Z z
  | PFloat q => q
  | _ => 0%Q
  end.

(** Values of one class: numbers by value, strings by their bytes.  Embedded
    documents and arrays are not ordered among themselves here. *)
Definition bson_compare (a b : pyval) : comparison :=
  match Nat.compare (bson_rank a) (bson_rank b) with
  | Eq =>
      match a, b with
      | PStr x, PStr y => String.compare x y
      | PBool x, PBool y => Bool.compare x y
      | PDatetime x, PDatetime y => dt_compare x y
      | PObjectId x, PObjectId y => Nat.compare x y
      | (PInt _ | PFloat _), (PInt _ | PFloat _) =>
          Qcompare (bson_number a) (bson_number b)
      | _, _ => Eq
      end
  | c => c
  end.

Definition sort_key (field : string) (doc : pydict) : pyval :=
  match dict_get field doc with Some v => v | None => PNone end.

Fixpoint insert_desc (field : string) (x : pydict) (l : list pydict)
  : list pydict :=
  match l with
  | [] => [x]
  | y :: l' =>
      match bson_compare (sort_key field x) (sort_key field y) with
      | Lt => y :: insert_desc field x l'
      | _ => x :: l
      end
  end.

(** [find().sort(field, -1).to_list(n)] *)
Definition find_sort_desc (field : string) (n : nat) (m : t) : list pydict :=
  firstn n (fold_right (insert_desc field) [] (reports m)).

End Mongo.

(** ** Environment and state of the process *)

Record LlmCall : Type := mk_call {
  call_system_message : string;
  call_session_id : string;
  call_provider : string;
  call_model : string;
  call_text : string;
  call_images : list string
}.

(** What the process reads from outside.  [uuid4], [utcnow] and [db_fault]
    are tapes: entry [n] is the outcome of the [n]-th draw, clock reading or
    database round trip ([Some e]: the round trip raises [e]).
    [system_message] is the prompt constant of lines 103-134. *)
Record Env : Type := mk_env {
  EMERGENT_LLM_KEY : option string;
  system_message : string;
  llm_reply : LlmCall -> Result string;
  json_loads : string -> option pyval;
  uuid4 : nat -> string;
  utcnow : nat -> datetime;
  db_fault : nat -> option exn
}.

(** The module globals of lines 26-30, the outbound LLM requests made so
    far, and the positions on the tapes. *)
Record World : Type := mk_world {
  USE_MONGODB : bool;
  db : option Mongo.t;
  MEMORY_REPORTS : list SavedReport.t;
  llm_calls : list LlmCall;
  uuid_draws : nat;
  clock_reads : nat;
  db_ops : nat
}.

Definition set_db (m : Mongo.t) (w : World) : World :=
  mk_world (USE_MONGODB w) (Some m) (MEMORY_REPORTS w) (llm_calls w)
           (uuid_draws w) (clock_reads w) (db_ops w).

Definition set_memory (l : list SavedReport.t) (w : World) : World :=
  mk_world (USE_MONGODB w) (db w) l (llm_calls w)
           (uuid_draws w) (clock_reads w) (db_ops w).

(** Module initialisation, lines 26-44: [server] is what the client
    constructor yields for a non-empty [MONGO_URL]. *)
Definition startup (MONGO_URL : option string) (server : Result Mongo.t)
  : World :=
  match MONGO_URL with
  | Some url =>
      if (url =? "")%string then mk_world false None [] [] 0 0 0
      else match server with
           | Ok m => mk_world true (Some m) [] [] 0 0 0
           | Raise _ => mk_world false None [] [] 0 0 0
           end
  | None => mk_world false None [] [] 0 0 0
  end.

Definition M (A : Type) : Type := Env -> World -> Result A * World.

Definition ret {A} (a : A) : M A := fun _ w => (Ok a, w).

Definition raise {A} (e : exn) : M A := fun _ w => (Raise e, w).

Definition bind {A B} (m : M A) (k : A -> M B) : M B :=
  fun env w =>
    match m env w with
    | (Ok a, w') => k a env w'
    | (Raise e, w') => (Raise e, w')
    end.

Declare Scope handler_scope.
Delimit Scope handler_scope with handler.
Notation "x <- m ;; k" := (bind m (fun x => k))
  (at level 100, m at next level, right associativity) : handler_scope.
Notation "m ;;; k" := (bind m (fun _ => k))
  (at level 100, right associativity) : handler_scope.
Local Open Scope handler_scope.

(** [try: body except Exception as e: handler e] *)
Definition try_except {A} (body : M A) (handler : exn -> M A) : M A :=
  fun env w =>
    match body env w with
    | (Ok a, w') => (Ok a, w')
    | (Raise e, w') => handler e env w'
    end.

Definition lift {A} (r : Result A) : M A := fun _ w => (r, w).

Definition ask : M Env := fun env w => (Ok env, w).
Definition get_world : M World := fun _ w => (Ok w, w).
Definition modify (f : World -> World) : M unit := fun _ w => (Ok tt, f w).

Fixpoint mapM {A B} (f : A -> M B) (l : list A) : M (list B) :=
  match l with
  | [] => ret []
  | x :: l' => y <- f x ;; ys <- mapM f l' ;; ret (y :: ys)
  end.

Definition draw_uuid4 : M string :=
  fun env w =>
    (Ok (uuid4 env (uuid_draws w)),
     mk_world (USE_MONGODB w) (db w) (MEMORY_REPORTS w) (llm_calls w)
              (S (uuid_draws w)) (clock_reads w) (db_ops w)).

Definition read_utcnow : M datetime :=
  fun env w =>
    (Ok (utcnow env (clock_reads w)),
     mk_world (USE_MONGODB w) (db w) (MEMORY_REPORTS w) (llm_calls w)
              (uuid_draws w) (S (clock_reads w)) (db_ops w)).

(** [await chat.send_message(...)]: one outbound request. *)
Definition send_message (c : LlmCall) : M string :=
  fun env w =>
    (llm_reply env c,
     mk_world (USE_MONGODB w) (db w) (MEMORY_REPORTS w) (llm_calls w ++ [c])
              (uuid_draws w) (clock_reads w) (db_ops w)).

(** [db.reports]: the attribute access on the module global. *)
Definition db_reports : M Mongo.t :=
  fun _ w =>
    match db w with
    | Some m => (Ok m, w)
    | None => (Raise (AttributeError "NoneType" "reports"), w)
    end.

(** One awaited round trip to the database server. *)
Definition db_await : M unit :=
  fun env w =>
    let w' := mk_world (USE_MONGODB w) (db w) (MEMORY_REPORTS w) (llm_calls w)
                       (uuid_draws w) (clock_reads w) (S (db_ops w)) in
    match db_fault env (db_ops w) with
    | Some e => (Raise e, w')
    | None => (Ok tt, w')
    end.

(** The HTTP status a client sees. *)
Definition status_of {A} (r : Result A) : nat :=
  match r with
  | Ok _ => 200
  | Raise (HTTPException c _) => c
  | Raise _ => 500
  end.

(** ** Attribute and item access on Python values *)

Definition get_default (k : string) (default : pyval) (d : pydict) : pyval :=
  match dict_get k d with Some v => v | None => default end.

(** [v.get(k, default)] *)
Definition py_get (v : pyval) (k : string) (default : pyval) : Result pyval :=
  match v with
  | PDict d => Ok (get_default k default d)
  | _ => Raise (AttributeError (type_name v) "get")
  end.

(** [for x in v] *)
Definition py_iter (v : pyval) : Result (list pyval) :=
  match v with
  | PList l => Ok l
  | PDict d => Ok (map (fun kv => PStr (fst kv)) d)
  | PStr s =>
      Ok (map (fun c => PStr (String c EmptyString)) (list_ascii_of_string s))
  | _ => Raise (PyError "TypeError"
                  ("'" ++ type_name v ++ "' object is not iterable")%string)
  end.

(** [v.isoformat()] *)
Definition py_isoformat (v : pyval) : Result pyval :=
  match v with
  | PDatetime d => Ok (PStr (isoformat d))
  | _ => Raise (AttributeError (type_name v) "isoformat")
  end.

(** ** pydantic validation of the model fields

    A [str] field takes a string only, an [Optional] field also [None], a
    [datetime] field a datetime or its ISO text. *)

Definition validate_str (model field : string) (v : pyval) : Result string :=
  match v with
  | PStr s => Ok s
  | _ => Raise (ValidationError model field)
  end.

Definition validate_opt_str (model field : string) (v : pyval)
  : Result (option string) :=
  match v with
  | PNone => Ok None
  | PStr s => Ok (Some s)
  | _ => Raise (ValidationError model field)
  end.

Fixpoint all_str (l : list pyval) : option (list string) :=
  match l with
  | [] => Some []
  | PStr s :: l' =>
      match all_str l' with Some r => Some (s :: r) | None => None end
  | _ :: _ => None
  end.

Definition validate_list_str (model field : string) (v : pyval)
  : Result (list string) :=
  match v with
  | PList l =>
      match all_str l with
      | Some r => Ok r
      | None => Raise (ValidationError model field)
      end
  | _ => Raise (ValidationError model field)
  end.

Definition validate_opt_list_str (model field : string) (v : pyval)
  : Result (option (list string)) :=
  match v with
  | PNone => Ok None
  | _ =>
      match validate_list_str model field v with
      | Ok r => Ok (Some r)
      | Raise e => Raise e
      end
  end.

(** A [datetime] field: a datetime, or the ISO text of one.  A number,
    which pydantic reads as a Unix timestamp, is outside this model: no
    document that the server writes carries one. *)
Definition validate_datetime (model field : string) (v : pyval)
  : Result datetime :=
  match v with
  | PDatetime d => Ok d
  | PStr s =>
      match fromisoformat s with
      | Some d => Ok d
      | None => Raise (ValidationError model field)
      end
  | _ => Raise (ValidationError model field)
  end.

(** [HealthParameter(name=..., ...)] *)
Definition HealthParameter_init
  (name value unit normal_range status explanation hindi_explanation : pyval)
  : M HealthParameter.t :=
  name <- lift (validate_str "HealthParameter" "name" name) ;;
  value <- lift (validate_str "HealthParameter" "value" value) ;;
  unit <- lift (validate_str "HealthParameter" "unit" unit) ;;
  normal_range <-
    lift (validate_str "HealthParameter" "normal_range" normal_range) ;;
  status <- lift (validate_str "HealthParameter" "status" status) ;;
  explanation <-
    lift (validate_str "HealthParameter" "explanation" explanation) ;;
  hindi_explanation <-
    lift (validate_opt_str "HealthParameter" "hindi_explanation"
            hindi_explanation) ;;
  ret (HealthParameter.mk name value unit normal_range status explanation
         hindi_explanation).

(** A field without default that the input does not have. *)
Definition required (model field : string) (d : pydict) : M pyval :=
  match dict_get field d with
  | Some v => ret v
  | None => raise (ValidationError model field)
  end.

(** Validation of a [HealthParameter] given as a dict. *)
Definition HealthParameter_validate (v : pyval) : M HealthParameter.t :=
  match v with
  | PDict d =>
      name <- required "HealthParameter" "name" d ;;
      value <- required "HealthParameter" "value" d ;;
      unit <- required "HealthParameter" "unit" d ;;
      normal_range <- required "HealthParameter" "normal_range" d ;;
      status <- required "HealthParameter" "status" d ;;
      explanation <- required "HealthParameter" "explanation" d ;;
      HealthParameter_init name value unit normal_range status explanation
        (get_default "hindi_explanation" PNone d)
  | _ => raise (ValidationError "AnalyzedReport" "parameters")
  end.

(** [AnalyzedReport(...)]: [id] and [created_at] are [None] when the caller
    leaves them to their default factories.  A valid input gives the model
    and the two draws that pydantic makes.  On an invalid input the class of
    the exception, and so the status, is pydantic's; validation stops here at
    the first invalid field, where pydantic goes through every field and
    names all invalid ones in one message, so the text of the error and the
    positions on the tapes after it are not modelled. *)
Definition AnalyzedReport_init
  (id : option pyval) (report_type title summary hindi_summary : pyval)
  (parameters : list HealthParameter.t)
  (health_tips hindi_health_tips overall_status : pyval)
  (created_at : option pyval) (image_base64 : pyval)
  : M AnalyzedReport.t :=
  id <- match id with
        | Some v => lift (validate_str "AnalyzedReport" "id" v)
        | None => draw_uuid4
        end ;;
  report_type <-
    lift (validate_str "AnalyzedReport" "report_type" report_type) ;;
  title <- lift (validate_str "AnalyzedReport" "title" title) ;;
  summary <- lift (validate_str "AnalyzedReport" "summary" summary) ;;
  hindi_summary <-
    lift (validate_opt_str "AnalyzedReport" "hindi_summary" hindi_summary) ;;
  health_tips <-
    lift (validate_list_str "AnalyzedReport" "health_tips" health_tips) ;;
  hindi_health_tips <-
    lift (validate_opt_list_str "AnalyzedReport" "hindi_health_tips"
            hindi_health_tips) ;;
  overall_status <-
    lift (validate_str "AnalyzedReport" "overall_status" overall_status) ;;
  created_at <- match created_at with
                | Some v =>
                    lift (validate_datetime "AnalyzedReport" "created_at" v)
                | None => read_utcnow
                end ;;
  image_base64 <-
    lift (validate_opt_str "AnalyzedReport" "image_base64" image_base64) ;;
  ret (AnalyzedReport.mk id report_type title summary hindi_summary
         parameters health_tips hindi_health_tips overall_status created_at
         image_base64).

(** Validation of an [AnalyzedReport] given as a dict. *)
Definition AnalyzedReport_validate (v : pyval) : M AnalyzedReport.t :=
  match v with
  | PDict d =>
      report_type <- required "AnalyzedReport" "report_type" d ;;
      title <- required "AnalyzedReport" "title" d ;;
      summary <- required "AnalyzedReport" "summary" d ;;
      ps <- required "AnalyzedReport" "parameters" d ;;
      items <- match ps with
               | PList l => ret l
               | _ => raise (ValidationError "AnalyzedReport" "parameters")
               end ;;
      parameters <- mapM HealthParameter_validate items ;;
      health_tips <- required "AnalyzedReport" "health_tips" d ;;
      overall_status <- required "AnalyzedReport" "overall_status" d ;;
      AnalyzedReport_init (dict_get "id" d) report_type title summary
        (get_default "hindi_summary" PNone d) parameters health_tips
        (get_default "hindi_health_tips" PNone d) overall_status
        (dict_get "created_at" d) (get_default "image_base64" PNone d)
  | _ => raise (ValidationError "SavedReport" "report_data")
  end.

(** [SavedReport(report_data=report)] *)
Definition SavedReport_init (report : AnalyzedReport.t) : M SavedReport.t :=
  id <- draw_uuid4 ;;
  saved_at <- read_utcnow ;;
  ret (SavedReport.mk id report saved_at).

(** [SavedReport( **r )] *)
Definition SavedReport_validate (r : pydict) : M SavedReport.t :=
  id <- match dict_get "id" r with
        | Some v => lift (validate_str "SavedReport" "id" v)
        | None => draw_uuid4
        end ;;
  rd <- required "SavedReport" "report_data" r ;;
  report_data <- AnalyzedReport_validate rd ;;
  saved_at <- match dict_get "saved_at" r with
              | Some v => lift (validate_datetime "SavedReport" "saved_at" v)
              | None => read_utcnow
              end ;;
  ret (SavedReport.mk id report_data saved_at).

(** [model_dump()] *)
Definition dump_opt_str (o : option string) : pyval :=
  match o with Some s => PStr s | None => PNone end.

Definition HealthParameter_model_dump (p : HealthParameter.t) : pyval :=
  PDict [("name", PStr (HealthParameter.name p));
         ("value", PStr (HealthParameter.value p));
         ("unit", PStr (HealthParameter.unit p));
         ("normal_range", PStr (HealthParameter.normal_range p));
         ("status", PStr (HealthParameter.status p));
         ("explanation", PStr (HealthParameter.explanation p));
         ("hindi_explanation",
          dump_opt_str (HealthParameter.hindi_explanation p))].

Definition AnalyzedReport_model_dump (r : AnalyzedReport.t) : pydict :=
  [("id", PStr (AnalyzedReport.id r));
   ("report_type", PStr (AnalyzedReport.report_type r));
   ("title", PStr (AnalyzedReport.title r));
   ("summary", PStr (AnalyzedReport.summary r));
   ("hindi_summary", dump_opt_str (AnalyzedReport.hindi_summary r));
   ("parameters",
    PList (map HealthParameter_model_dump (AnalyzedReport.parameters r)));
   ("health_tips", PList (map PStr (AnalyzedReport.health_tips r)));
   ("hindi_health_tips",
    match AnalyzedReport.hindi_health_tips r with
    | Some l => PList (map PStr l)
    | None => PNone
    end);
   ("overall_status", PStr (AnalyzedReport.overall_status r));
   ("created_at", PDatetime (AnalyzedReport.created_at r));
   ("image_base64", dump_opt_str (AnalyzedReport.image_base64 r))].

Definition SavedReport_model_dump (s : SavedReport.t) : pydict :=
  [("id", PStr (SavedReport.id s));
   ("report_data",
    PDict (AnalyzedReport_model_dump (SavedReport.report_data s)));
   ("saved_at", PDatetime (SavedReport.saved_at s))].

(** ** analyze_medical_report (lines 97-174) *)

(** Runs [body] and hands back its outcome instead of raising. *)
Definition attempt {A} (body : M A) : M (Result A) :=
  fun env w => let '(r, w') := body env w in (Ok r, w').

Definition user_text (language : string) : string :=
  ("Please analyze this medical report and provide the analysis in JSON format. Language preference: "
   ++ language)%string.

(** The [try] block of lines 136-174.  An exception of the provider call is
    handled while [response] is still unbound: the [JSONDecodeError] clause
    then fails on its own log line, every other exception becomes the 500 of
    line 174. *)
Definition analyze_medical_report (image_base64 language : string) : M pyval :=
  env <- ask ;;
  match EMERGENT_LLM_KEY env with
  | None => raise (HTTPException 500 "LLM API key not configured")
  | Some api_key =>
      if (api_key =? "")%string
      then raise (HTTPException 500 "LLM API key not configured")
      else
        sent <- attempt
                  (session_id <- draw_uuid4 ;;
                   send_message
                     (mk_call (system_message env) session_id
                        "openai" "gpt-4.1-mini" (user_text language)
                        [image_base64])) ;;
        match sent with
        | Ok response =>
            match json_loads env (clean_response response) with
            | Some result => ret result
            | None =>
                raise (HTTPException 500 "Failed to parse AI response")
            end
        | Raise (JSONDecodeError _) =>
            raise (PyError "UnboundLocalError"
                     "cannot access local variable 'response' where it is not associated with a value")
        | Raise e =>
            raise (HTTPException 500
                     ("Error analyzing report: " ++ str_exn e)%string)
        end
  end.

(** [except HTTPException: raise / except Exception as e: raise
    HTTPException(500, str(e))] *)
Definition http_guard {A} (body : M A) : M A :=
  try_except body
    (fun e => match e with
              | HTTPException _ _ => raise e
              | _ => raise (HTTPException 500 (str_exn e))
              end).

(** [except Exception as e: raise HTTPException(500, str(e))] *)
Definition guard_500 {A} (body : M A) : M A :=
  try_except body (fun e => raise (HTTPException 500 (str_exn e))).

(** ** POST /analyze-report (lines 206-249) *)

Definition parameter_of (p : pyval) : M HealthParameter.t :=
  name <- lift (py_get p "name" (PStr "Unknown")) ;;
  value <- lift (py_get p "value" (PStr "N/A")) ;;
  unit <- lift (py_get p "unit" (PStr "")) ;;
  normal_range <- lift (py_get p "normal_range" (PStr "N/A")) ;;
  status <- lift (py_get p "status" (PStr "normal")) ;;
  explanation <- lift (py_get p "explanation" (PStr "")) ;;
  hindi_explanation <- lift (py_get p "hindi_explanation" PNone) ;;
  HealthParameter_init name value unit normal_range status explanation
    hindi_explanation.

Definition analyze_report (request : ReportAnalysisRequest.t)
  : M AnalyzedReport.t :=
  http_guard
    (if (ReportAnalysisRequest.image_base64 request =? "")%string
     then raise (HTTPException 400 "No image provided")
     else
       analysis <- analyze_medical_report
                     (ReportAnalysisRequest.image_base64 request)
                     (ReportAnalysisRequest.language request) ;;
       ps <- lift (py_get analysis "parameters" (PList [])) ;;
       items <- lift (py_iter ps) ;;
       parameters <- mapM parameter_of items ;;
       report_type <- lift (py_get analysis "report_type" (PStr "blood_test")) ;;
       title <- lift (py_get analysis "title" (PStr "Medical Report")) ;;
       summary <- lift (py_get analysis "summary"
                          (PStr "Report analyzed successfully")) ;;
       hindi_summary <- lift (py_get analysis "hindi_summary" PNone) ;;
       health_tips <- lift (py_get analysis "health_tips" (PList [])) ;;
       hindi_health_tips <- lift (py_get analysis "hindi_health_tips" PNone) ;;
       overall_status <- lift (py_get analysis "overall_status"
                                 (PStr "moderate")) ;;
       AnalyzedReport_init None report_type title summary hindi_summary
         parameters health_tips hindi_health_tips overall_status None
         (PStr (PyStr.slice_to 100 (ReportAnalysisRequest.image_base64 request)
                ++ "...")%string)).

(** ** POST /save-report (lines 251-274) *)

Definition is_some {A} (o : option A) : bool :=
  match o with Some _ => true | None => false end.

(** [d[k]] *)
Definition py_getitem (k : string) (d : pydict) : Result pyval :=
  match dict_get k d with
  | Some v => Ok v
  | None => Raise (PyError "KeyError" ("'" ++ k ++ "'")%string)
  end.

Definition memory_append (s : SavedReport.t) : M unit :=
  modify (fun w => set_memory (MEMORY_REPORTS w ++ [s]) w).

(** Lines 259-262: the dump with both timestamps as ISO text, inserted.  A
    round trip that raises leaves the collection as it was. *)
Definition mongo_save (saved_report : SavedReport.t) : M unit :=
  let report_dict := SavedReport_model_dump saved_report in
  saved_at <- lift (py_getitem "saved_at" report_dict) ;;
  saved_at <- lift (py_isoformat saved_at) ;;
  let report_dict := dict_set "saved_at" saved_at report_dict in
  report_data <- lift (py_getitem "report_data" report_dict) ;;
  created_at <- lift (match report_data with
                      | PDict rd => py_getitem "created_at" rd
                      | _ => Raise (PyError "TypeError" "not subscriptable")
                      end) ;;
  created_at <- lift (py_isoformat created_at) ;;
  let report_dict :=
    match report_data with
    | PDict rd =>
        dict_set "report_data" (PDict (dict_set "created_at" created_at rd))
          report_dict
    | _ => report_dict
    end in
  m <- db_reports ;;
  db_await ;;;
  modify (set_db (Mongo.insert_one report_dict m)).

Definition save_report (report : AnalyzedReport.t) : M SavedReport.t :=
  guard_500
    (saved_report <- SavedReport_init report ;;
     w <- get_world ;;
     (if USE_MONGODB w && is_some (db w)
      then try_except (mongo_save saved_report)
             (fun db_error => memory_append saved_report)
      else memory_append saved_report) ;;;
     ret saved_report).

(** ** GET /reports (lines 276-302) *)

Fixpoint insert_by_saved_at (x : SavedReport.t) (l : list SavedReport.t)
  : list SavedReport.t :=
  match l with
  | [] => [x]
  | y :: l' =>
      if dt_ltb (SavedReport.saved_at x) (SavedReport.saved_at y)
      then y :: insert_by_saved_at x l'
      else x :: l
  end.

(** [sorted(l, key=lambda x: x.saved_at, reverse=True)]: descending, equal
    keys in their original order. *)
Definition sorted_by_saved_at_desc (l : list SavedReport.t)
  : list SavedReport.t :=
  fold_right insert_by_saved_at [] l.

Definition parse_iso (s : string) : M pyval :=
  match fromisoformat s with
  | Some d => ret (PDatetime d)
  | None => raise (PyError "ValueError"
                     ("Invalid isoformat string: '" ++ s ++ "'")%string)
  end.

(** The body of the loop of lines 284-291 (and lines 312-317 of
    [get_report]): one document to one [SavedReport]. *)
Definition load_report (r : pydict) : M SavedReport.t :=
  let r := dict_pop "_id" r in
  r <- match get_default "saved_at" PNone r with
       | PStr s => d <- parse_iso s ;; ret (dict_set "saved_at" d r)
       | _ => ret r
       end ;;
  created_at <- lift (py_get (get_default "report_data" (PDict []) r)
                        "created_at" PNone) ;;
  r <- match created_at, get_default "report_data" (PDict []) r with
       | PStr s, PDict rd =>
           d <- parse_iso s ;;
           ret (dict_set "report_data" (PDict (dict_set "created_at" d rd)) r)
       | _, _ => ret r
       end ;;
  SavedReport_validate r.

Definition memory_sorted : M (list SavedReport.t) :=
  w <- get_world ;; ret (sorted_by_saved_at_desc (MEMORY_REPORTS w)).

(** The [try] block of lines 282-293. *)
Definition durable_list : M (list SavedReport.t) :=
  m <- db_reports ;;
  db_await ;;;
  mapM load_report (Mongo.find_sort_desc "saved_at" 100 m).

Definition get_reports : M (list SavedReport.t) :=
  guard_500
    (w <- get_world ;;
     if USE_MONGODB w && is_some (db w)
     then try_except durable_list (fun db_error => memory_sorted)
     else memory_sorted).

(** ** GET /reports/{report_id} (lines 304-327) *)

Definition not_found {A} : M A := raise (HTTPException 404 "Report not found").

Definition get_report (report_id : string) : M SavedReport.t :=
  http_guard
    (w <- get_world ;;
     if USE_MONGODB w
     then
       m <- db_reports ;;
       db_await ;;;
       match Mongo.find_one report_id m with
       | Some report =>
           if py_truthy (PDict report) then load_report report else not_found
       | None => not_found
       end
     else
       match find (fun report => (SavedReport.id report =? report_id)%string)
                  (MEMORY_REPORTS w) with
       | Some report => ret report
       | None => not_found
       end).

(** ** DELETE /reports/{report_id} (lines 329-348) *)

(** The loop of lines 338-341: the first report with that id is popped. *)
Fixpoint memory_pop (report_id : string) (l : list SavedReport.t)
  : option (list SavedReport.t) :=
  match l with
  | [] => None
  | report :: l' =>
      if (SavedReport.id report =? report_id)%string then Some l'
      else match memory_pop report_id l' with
           | Some r => Some (report :: r)
           | None => None
           end
  end.

Definition deleted_message : pyval :=
  PDict [("message", PStr "Report deleted successfully")].

Definition delete_report (report_id : string) : M pyval :=
  http_guard
    (w <- get_world ;;
     if USE_MONGODB w
     then
       m <- db_reports ;;
       db_await ;;;
       let '(m', deleted_count) := Mongo.delete_one report_id m in
       modify (set_db m') ;;;
       if (deleted_count =? 0)%nat then not_found else ret deleted_message
     else
       match memory_pop report_id (MEMORY_REPORTS w) with
       | Some l => modify (set_memory l) ;;; ret deleted_message
       | None => not_found
       end).

(** ** POST /compare-reports (lines 350-394) *)

Module TrendEntry.
Record t : Type := mk {
  date : pyval;
  value : pyval;
  status : pyval
}.
End TrendEntry.

(** The dict [all_params]: keys in first-insertion order. *)
Definition trends : Type := list (pyval * list TrendEntry.t).

Module Comparison.
Record t : Type := mk {
  reports : list pydict;
  parameter_trends : trends
}.
End Comparison.

Definition py_hashable (v : pyval) : bool :=
  match v with
  | PList _ | PDict _ => false
  | _ => true
  end.

Definition key_number (v : pyval) : option Q :=
  match v with
  | PBool b => Some (if b then 1%Q else 0%Q)
  | PInt z => Some (inject_Z z)
  | PFloat q => Some q
  | _ => None
  end.

(** [==] on dict keys: numbers by value, the rest by type and content. *)
Definition py_key_eqb (a b : pyval) : bool :=
  match key_number a, key_number b with
  | Some x, Some y => Qeq_bool x y
  | None, None =>
      match a, b with
      | PNone, PNone => true
      | PStr x, PStr y => (x =? y)%string
      | PDatetime x, PDatetime y =>
          match dt_compare x y with Eq => true | _ => false end
      | PObjectId x, PObjectId y => (x =? y)%nat
      | _, _ => false
      end
  | _, _ => false
  end.

(** Lines 379-385: [all_params[k]] is created empty when [k] is new, then
    the entry is appended to it. *)
Fixpoint trends_append (k : pyval) (e : TrendEntry.t) (all_params : trends)
  : trends :=
  match all_params with
  | [] => [(k, [e])]
  | (k', l) :: rest =>
      if py_key_eqb k k' then (k', l ++ [e]) :: rest
      else (k', l) :: trends_append k e rest
  end.

Fixpoint foldM {A B} (f : B -> A -> M B) (l : list A) (acc : B) : M B :=
  match l with
  | [] => ret acc
  | x :: l' => acc' <- f acc x ;; foldM f l' acc'
  end.

Definition add_param (report_date : pyval) (all_params : trends)
  (param : pyval) : M trends :=
  param_name <- lift (py_get param "name" PNone) ;;
  if py_hashable param_name
  then
    value <- lift (py_get param "value" PNone) ;;
    status <- lift (py_get param "status" PNone) ;;
    ret (trends_append param_name
           (TrendEntry.mk report_date value status) all_params)
  else raise (PyError "TypeError"
                ("unhashable type: '" ++ type_name param_name ++ "'")%string).

Definition add_report (all_params : trends) (report : pydict) : M trends :=
  let report_date := get_default "saved_at" (PStr "Unknown") report in
  ps <- lift (py_get (get_default "report_data" (PDict []) report)
                "parameters" (PList [])) ;;
  items <- lift (py_iter ps) ;;
  foldM (add_param report_date) items all_params.

(** Lines 358-362, one identifier. *)
Definition fetch_report (reports : list pydict) (report_id : string)
  : M (list pydict) :=
  m <- db_reports ;;
  db_await ;;;
  match Mongo.find_one report_id m with
  | Some report =>
      if py_truthy (PDict report)
      then ret (reports ++ [dict_pop "_id" report])
      else ret reports
  | None => ret reports
  end.

Definition compare_reports (request : CompareReportsRequest.t)
  : M Comparison.t :=
  http_guard
    (if (List.length (CompareReportsRequest.report_ids request) <? 2)%nat
     then raise (HTTPException 400 "Need at least 2 reports to compare")
     else
       reports <- foldM fetch_report
                    (CompareReportsRequest.report_ids request) [] ;;
       if (List.length reports <? 2)%nat
       then raise (HTTPException 404 "Not enough reports found")
       else
         all_params <- foldM add_report reports [] ;;
         ret (Comparison.mk reports all_params)).

(** The stored collections: what [create], [list], [get] and [delete] act
    on. *)
Definition same_store (w w' : World) : Prop :=
  USE_MONGODB w' = USE_MONGODB w /\ db w' = db w
  /\ MEMORY_REPORTS w' = MEMORY_REPORTS w.


(** The request that [analyze_medical_report] sends from state [w]. *)
Definition outbound_call (env : Env) (w : World)
  (request : ReportAnalysisRequest.t) : LlmCall :=
  mk_call (system_message env) (uuid4 env (uuid_draws w))
    "openai" "gpt-4.1-mini"
    (user_text (ReportAnalysisRequest.language request))
    [ReportAnalysisRequest.image_base64 request].

(** [EMERGENT_LLM_KEY] is set and not empty. *)
Definition key_configured (env : Env) : bool :=
  match EMERGENT_LLM_KEY env with
  | Some k => negb (k =? "")%string
  | None => false
  end.

(** The state once the provider has been called. *)
Definition after_call (w : World) (c : LlmCall) : World :=
  mk_world (USE_MONGODB w) (db w) (MEMORY_REPORTS w) (llm_calls w ++ [c])
           (S (uuid_draws w)) (clock_reads w) (db_ops w).

(** The entity that [save_report] builds from state [w]. *)
Definition new_saved_report (env : Env) (w : World) (report : AnalyzedReport.t)
  : SavedReport.t :=
  SavedReport.mk (uuid4 env (uuid_draws w)) report (utcnow env (clock_reads w)).

(** [get_reports] is about to read the in-memory list: the database was not
    selected, or its [try] block raises. *)
Definition memory_sourced (env : Env) (w : World) : Prop :=
  USE_MONGODB w && is_some (db w) = false
  \/ exists e, fst (durable_list env w) = Raise e.

(** [get_reports] is about to answer from the database. *)
Definition durable_sourced (env : Env) (w : World) : Prop :=
  USE_MONGODB w && is_some (db w) = true
  /\ exists l, fst (durable_list env w) = Ok l.

(** A handler step that leaves the stored collections alone. *)
Definition preserves {A} (m : M A) : Prop :=
  forall env w, same_store w (snd (m env w)).

(** Most recent first. *)
Definition newer_first (a b : SavedReport.t) : Prop :=
  dt_leb (SavedReport.saved_at b) (SavedReport.saved_at a) = true.

(** The state once [SavedReport(report_data=report)] has drawn its
    identifier and read the clock. *)
Definition after_init (w : World) : World :=
  mk_world (USE_MONGODB w) (db w) (MEMORY_REPORTS w) (llm_calls w)
           (S (uuid_draws w)) (S (clock_reads w)) (db_ops w).

(** How many stored reports answer to [report_id] in the collection that
    [get_report] and [delete_report] consult: the database when
    [USE_MONGODB] is set, [MEMORY_REPORTS] otherwise. *)
Definition stored_count (report_id : string) (w : World) : nat :=
  if USE_MONGODB w
  then match db w with
       | Some m =>
           List.length (filter (Mongo.matches_id report_id) (Mongo.reports m))
       | None => 0
       end
  else List.length
         (filter (fun report => (SavedReport.id report =? report_id)%string)
                 (MEMORY_REPORTS w)).

(** ** Shapes of the parsed completion

    What pydantic accepts for the fields that [analyze_report] reads: a key
    may be absent; when present, a [str] field holds a string, an optional
    field a string or [None], a list field a list of strings. *)







Definition dump_opt_list (o : option (list string)) : pyval :=
  match o with Some l => PList (map PStr l) | None => PNone end.

(** The parameter [hp] is the element [p] of the parsed list, each absent
    field replaced by its default. *)
Definition parameter_filled (p : pyval) (hp : HealthParameter.t) : Prop :=
  exists pd,
    p = PDict pd
    /\ PStr (HealthParameter.name hp) = get_default "name" (PStr "Unknown") pd
    /\ PStr (HealthParameter.value hp) = get_default "value" (PStr "N/A") pd
    /\ PStr (HealthParameter.unit hp) = get_default "unit" (PStr "") pd
    /\ PStr (HealthParameter.normal_range hp)
       = get_default "normal_range" (PStr "N/A") pd
    /\ PStr (HealthParameter.status hp)
       = get_default "status" (PStr "normal") pd
    /\ PStr (HealthParameter.explanation hp)
       = get_default "explanation" (PStr "") pd
    /\ dump_opt_str (HealthParameter.hindi_explanation hp)
       = get_default "hindi_explanation" PNone pd.

(** The report [r] carries the top-level fields of the parsed object [d],
    each absent field replaced by its default; the two secondary-language
    fields have none and stay [None]. *)
Definition report_filled (d : pydict) (r : AnalyzedReport.t) : Prop :=
  PStr (AnalyzedReport.report_type r)
    = get_default "report_type" (PStr "blood_test") d
  /\ PStr (AnalyzedReport.title r)
     = get_default "title" (PStr "Medical Report") d
  /\ PStr (AnalyzedReport.summary r)
     = get_default "summary" (PStr "Report analyzed successfully") d
  /\ dump_opt_str (AnalyzedReport.hindi_summary r)
     = get_default "hindi_summary" PNone d
  /\ PList (map PStr (AnalyzedReport.health_tips r))
     = get_default "health_tips" (PList []) d
  /\ dump_opt_list (AnalyzedReport.hindi_health_tips r)
     = get_default "hindi_health_tips" PNone d
  /\ PStr (AnalyzedReport.overall_status r)
     = get_default "overall_status" (PStr "moderate") d
  /\ exists items,
       py_iter (get_default "parameters" (PList []) d) = Ok items
       /\ Forall2 parameter_filled items (AnalyzedReport.parameters r).

(** Lines 217-241 of [analyze_report]: from the parsed completion to the
    report. *)
Definition build_report (request : ReportAnalysisRequest.t) (analysis : pyval)
  : M AnalyzedReport.t :=
  ps <- lift (py_get analysis "parameters" (PList [])) ;;
  items <- lift (py_iter ps) ;;
  parameters <- mapM parameter_of items ;;
  report_type <- lift (py_get analysis "report_type" (PStr "blood_test")) ;;
  title <- lift (py_get analysis "title" (PStr "Medical Report")) ;;
  summary <- lift (py_get analysis "summary"
                     (PStr "Report analyzed successfully")) ;;
  hindi_summary <- lift (py_get analysis "hindi_summary" PNone) ;;
  health_tips <- lift (py_get analysis "health_tips" (PList [])) ;;
  hindi_health_tips <- lift (py_get analysis "hindi_health_tips" PNone) ;;
  overall_status <- lift (py_get analysis "overall_status"
                            (PStr "moderate")) ;;
  AnalyzedReport_init None report_type title summary hindi_summary
    parameters health_tips hindi_health_tips overall_status None
    (PStr (PyStr.slice_to 100 (ReportAnalysisRequest.image_base64 request)
           ++ "...")%string).

(** The stored reference copy of the image: its first 100 characters and
    the marker. *)
Definition image_reference (image_base64 : string) : string :=
  (PyStr.slice_to 100 image_base64 ++ "...")%string.

(** ** The normalizer: cleaning and parsing of the completion *)

(** Lines 154-165: what [json.loads] makes of the cleaned text. *)
Definition parse_response (env : Env) (response : string) : option pyval :=
  json_loads env (clean_response response).

(** One removal attempt of a leading or of a trailing marker. *)
Definition drop_prefix (p s : string) : string :=
  if PyStr.startswith s p then PyStr.slice_from (String.length p) s else s.

Definition drop_suffix (p s : string) : string :=
  if PyStr.endswith s p then PyStr.drop_last (String.length p) s else s.

(** A completion [body] inside a fenced block, tagged or not. *)
Definition fenced_json (body : string) : string :=
  (fence_json ++ body ++ fence)%string.

Definition fenced (body : string) : string :=
  (fence ++ body ++ fence)%string.

(** The cleaning as the specification words it: one leading marker, tagged
    or not, and one trailing marker, one attempt on each side. *)
Definition drop_leading_marker (s : string) : string :=
  if PyStr.startswith s fence_json then PyStr.slice_from 7 s
  else if PyStr.startswith s fence then PyStr.slice_from 3 s
  else s.

Definition clean_single_marker (response : string) : string :=
  PyStr.strip (drop_suffix fence (drop_leading_marker (PyStr.strip response))).

(** A parser that reads the empty object and nothing else. *)
Definition only_empty_object (s : string) : option pyval :=
  if (s =? "{}")%string then Some (PDict []) else None.

(** ** Sample environments and states *)

Definition sample_time (n : nat) : datetime :=
  mk_datetime 2024 3 15 9 30 (Z.of_nat n) 0.

Definition sample_uuid (n : nat) : string :=
  ("uuid-" ++ NilEmpty.string_of_uint (Nat.to_uint n))%string.

(** A provider that answers every request with [reply], a parser that reads
    only the empty object, a database that answers every round trip. *)
Definition sample_env (reply : string) : Env :=
  mk_env (Some "sk-test") "You are an expert medical report analyzer"
    (fun _ => Ok reply) only_empty_object sample_uuid sample_time
    (fun _ => None).

(** The same with a parser that reads [text] as [parsed]. *)
Definition parsing_env (reply text : string) (parsed : pyval) : Env :=
  mk_env (Some "sk-test") "You are an expert medical report analyzer"
    (fun _ => Ok reply)
    (fun s => if (s =? text)%string then Some parsed else None)
    sample_uuid sample_time (fun _ => None).

(** The same as [sample_env] with a database that raises on every round
    trip. *)
Definition outage_env : Env :=
  mk_env (Some "sk-test") "You are an expert medical report analyzer"
    (fun _ => Ok "{}") only_empty_object sample_uuid sample_time
    (fun _ => Some (PyError "ServerSelectionTimeoutError" "No servers found")).

Definition memory_world : World := startup None (Ok (Mongo.mk [] 0)).

Definition mongo_world : World :=
  startup (Some "mongodb://localhost:27017") (Ok (Mongo.mk [] 0)).

(** An image encoding of 120 characters. *)
Definition sample_image : string :=
  "iVBORw0KGgoAAAANSUhEUgAAAAEAAAABCAYAAAAfFcSJAAAADUlEQVR42mP8/5+hHgAHggJ/PchI7wAAAABJRU5ErkJggg==iVBORw0KGgoAAAANSUhEUgAA".

Definition sample_request : ReportAnalysisRequest.t :=
  ReportAnalysisRequest.mk sample_image "english".

Definition blood_report (value status : string) : AnalyzedReport.t :=
  AnalyzedReport.mk "report-1" "blood_test" "Complete Blood Count Report"
    "Blood test results" None
    [HealthParameter.mk "Hemoglobin" value "g/dL" "12-16 g/dL" status
       "Oxygen-carrying capacity" None;
     HealthParameter.mk "Platelets" "285" "x10^3/uL" "150-450" "normal"
       "Clotting function" None]
    ["Stay well hydrated"] None "moderate" (sample_time 0) None.

(** [doc] carries, under [saved_at], the ISO text of a timestamp: what
    [mongo_save] writes. *)
Definition iso_stamped (doc : pydict) : bool :=
  match dict_get "saved_at" doc with
  | Some (PStr s) =>
      match fromisoformat s with
      | Some t => (isoformat t =? s)%string
      | None => false
      end
  | _ => false
  end.

(** Every document of the collection is stamped that way. *)
Definition stamped (w : World) : bool :=
  match db w with
  | Some m => forallb iso_stamped (Mongo.reports m)
  | None => true
  end.

(** Descending BSON order of the sort key. *)
Definition key_desc (field : string) (a b : pydict) : Prop :=
  Mongo.bson_compare (Mongo.sort_key field a) (Mongo.sort_key field b) <> Lt.

(** The sort key of [doc] is a string. *)
Definition string_key (field : string) (doc : pydict) : Prop :=
  exists s, Mongo.sort_key field doc = PStr s.

(** ** What a comparison is expected to return *)





(** [all_params.get(k, [])] *)
Definition trend_lookup (k : pyval) (t : trends) : list TrendEntry.t :=
  match find (fun kv => py_key_eqb k (fst kv)) t with
  | Some (_, l) => l
  | None => []
  end.



(** A completion in a tagged fence, the text inside, and what a JSON parser
    makes of it: one field and one parameter field are missing, two fields
    are not part of the schema. *)
Definition sample_json : string := "{title: CBC, parameters: [...]}".




(** Two reports saved, to the database and to memory. *)
Definition two_saved (env : Env) (w : World) : World :=
  snd (save_report (blood_report "11.0" "low") env
         (snd (save_report (blood_report "14.5" "normal") env w))).

Definition mongo_two : World := two_saved (sample_env "{}") mongo_world.

Definition memory_two : World := two_saved (sample_env "{}") memory_world.

Definition sample_compare : CompareReportsRequest.t :=
  CompareReportsRequest.mk ["uuid-0"; "uuid-1"].

Definition mongo_one : World :=
  snd (save_report (blood_report "14.5" "normal") (sample_env "{}")
         mongo_world).



Definition empty_request : ReportAnalysisRequest.t :=
  ReportAnalysisRequest.mk "" "english".

Definition outage : exn :=
  PyError "ServerSelectionTimeoutError" "No servers found".

(** A completion between blank lines. *)
Definition sample_body : string := (nl ++ "{}" ++ nl)%string.


(** A database that raises on its first round trip only. *)
Definition flaky_env : Env :=
  mk_env (Some "sk-test") "You are an expert medical report analyzer"
    (fun _ => Ok "{}") only_empty_object sample_uuid sample_time
    (fun n => if (n =? 0)%nat then Some outage else None).

(** A completion whose parameter value is a number. *)
Definition numeric_env : Env :=
  parsing_env sample_json sample_json
    (PDict [("parameters",
             PList [PDict [("name", PStr "Hemoglobin");
                           ("value", PFloat (29 # 2))]])]).

Definition short_request : ReportAnalysisRequest.t :=
  ReportAnalysisRequest.mk "aGVsbG8=" "english".

(** The same two identifiers, the later report first. *)
Definition reversed_compare : CompareReportsRequest.t :=
  CompareReportsRequest.mk ["uuid-1"; "uuid-0"].

(** ** Runs of the server *)

Inductive request : Type :=
| AnalyzeReport (r : ReportAnalysisRequest.t)
| SaveReport (r : AnalyzedReport.t)
| GetReports
| GetReport (report_id : string)
| DeleteReport (report_id : string)
| CompareReports (r : CompareReportsRequest.t).

(** The state after one request. *)
Definition handle (q : request) (env : Env) (w : World) : World :=
  match q with
  | AnalyzeReport r => snd (analyze_report r env w)
  | SaveReport r => snd (save_report r env w)
  | GetReports => snd (get_reports env w)
  | GetReport report_id => snd (get_report report_id env w)
  | DeleteReport report_id => snd (delete_report report_id env w)
  | CompareReports r => snd (compare_reports r env w)
  end.

(** The states that a sequence of requests leads to from [w0]. *)
Inductive reachable (env : Env) (w0 : World) : World -> Prop :=
| reach_start : reachable env w0 w0
| reach_step w q :
    reachable env w0 w -> reachable env w0 (handle q env w).

(** ** GET /api/ and GET /api/health (lines 177-204) *)

Definition root : M pyval :=
  w <- get_world ;;
  ret (PDict [("message", PStr "Medical Report Scanner API");
              ("version", PStr "1.0");
              ("mongodb_connected", PBool (USE_MONGODB w))]).

Definition health_status : pydict :=
  [("status", PStr "healthy");
   ("mongodb", PStr "disconnected");
   ("storage", PStr "memory")].

(** [await db.command("ping")] is one round trip. *)
Definition health_check : M pyval :=
  w <- get_world ;;
  if USE_MONGODB w && is_some (db w)
  then try_except
         (db_await ;;;
          ret (PDict (dict_set "storage" (PStr "mongodb")
                        (dict_set "mongodb" (PStr "connected")
                           health_status))))
         (fun e =>
            ret (PDict (dict_set "mongodb"
                          (PStr ("error: " ++ str_exn e)%string)
                          health_status)))
  else ret (PDict health_status).

(** ** The chat wrapper (emergentintegrations/llm/chat.py) *)

Module Chat.

Record ImageContent : Type := mk_image {
  image_base64 : string
}.

(** [file_contents or []]: [None] and the empty list are the same. *)
Record UserMessage : Type := mk_message {
  text : string;
  file_contents : list ImageContent
}.

Record LlmChat : Type := mk_chat {
  api_key : string;
  session_id : string;
  system_message : string;
  model : string;
  provider : string
}.

(** [LlmChat(api_key, session_id, system_message)] *)
Definition init (api_key session_id system_message : string) : LlmChat :=
  mk_chat api_key session_id system_message "gpt-4o" "openai".

Definition with_model (provider model : string) (chat : LlmChat) : LlmChat :=
  mk_chat (api_key chat) (session_id chat) (system_message chat) model
    provider.

Definition image_part (image_content : ImageContent) : pyval :=
  PDict [("type", PStr "image_url");
         ("image_url",
          PDict [("url",
                  PStr ("data:image/jpeg;base64,"
                        ++ image_base64 image_content)%string)])].

(** Lines 42-63 of [send_message]: the [messages] argument. *)
Definition messages (chat : LlmChat) (message : UserMessage) : list pyval :=
  [PDict [("role", PStr "system");
          ("content", PStr (system_message chat))]]
  ++ match file_contents message with
     | [] => [PDict [("role", PStr "user");
                     ("content", PStr (text message))]]
     | images =>
         [PDict [("role", PStr "user");
                 ("content",
                  PList (PDict [("type", PStr "text");
                                ("text", PStr (text message))]
                         :: map image_part images))]]
     end.

(** Lines 66-70: the keyword arguments of [chat.completions.create]. *)
Definition completion_request (chat : LlmChat) (message : UserMessage)
  : pydict :=
  [("model", PStr (model chat));
   ("messages", PList (messages chat message));
   ("max_tokens", PInt 4096)].

End Chat.

(** The chat object and the message that lines 137-149 of
    [analyze_medical_report] build for a logged call. *)
Definition chat_of (api_key : string) (c : LlmCall) : Chat.LlmChat :=
  Chat.with_model (call_provider c) (call_model c)
    (Chat.init api_key (call_session_id c) (call_system_message c)).

Definition message_of (c : LlmCall) : Chat.UserMessage :=
  Chat.mk_message (call_text c) (map Chat.mk_image (call_images c)).

(** ** What a handler can answer *)

(** The database driver raises errors of its own, never an
    [HTTPException]. *)
Definition driver_errors (env : Env) : Prop :=
  forall n c d, db_fault env n <> Some (HTTPException c d).

(** Whatever [HTTPException] the step [m] raises carries one of [codes]. *)
Definition http_codes {A} (env : Env) (codes : list nat) (m : M A) : Prop :=
  forall w,
    match fst (m env w) with
    | Raise (HTTPException c _) => In c codes
    | _ => True
    end.

(** The handler [m] returns, or raises an [HTTPException] with one of
    [codes]: no other exception leaves it. *)
Definition answers {A} (env : Env) (codes : list nat) (m : M A) : Prop :=
  forall w,
    match fst (m env w) with
    | Ok _ => True
    | Raise (HTTPException c _) => In c codes
    | Raise _ => False
    end.

Definition no_http {A} (r : Result A) : Prop :=
  match r with
  | Raise (HTTPException _ _) => False
  | _ => True
  end.

(** ** Stored documents *)

(** The document that [mongo_save] hands to [insert_one] for [s]: the dump
    with both timestamps as ISO text. *)
Definition stored_doc (s : SavedReport.t) : pydict :=
  [("id", PStr (SavedReport.id s));
   ("report_data",
    PDict (dict_set "created_at"
             (PStr (isoformat
                      (AnalyzedReport.created_at (SavedReport.report_data s))))
             (AnalyzedReport_model_dump (SavedReport.report_data s))));
   ("saved_at", PStr (isoformat (SavedReport.saved_at s)))].

(** Both timestamps of [s] are valid datetimes. *)
Definition valid_saved (s : SavedReport.t) : bool :=
  valid_datetime (SavedReport.saved_at s)
  && valid_datetime (AnalyzedReport.created_at (SavedReport.report_data s)).

(** ** Environments without a usable provider *)

(** [EMERGENT_LLM_KEY] set to the empty text. *)
Definition keyless_env : Env :=
  mk_env (Some "") "You are an expert medical report analyzer"
    (fun _ => Ok "{}") only_empty_object sample_uuid sample_time
    (fun _ => None).

Definition rate_limit : exn := PyError "RateLimitError" "quota exceeded".

(** The provider refuses every request. *)
Definition rate_limited_env : Env :=
  mk_env (Some "sk-test") "You are an expert medical report analyzer"
    (fun _ => Raise rate_limit) only_empty_object sample_uuid sample_time
    (fun _ => None).

(** ** The storage mode *)

(** The mode chosen at import: [USE_MONGODB] and the presence of [db]. *)
Definition same_mode (w w' : World) : Prop :=
  USE_MONGODB w' = USE_MONGODB w /\ is_some (db w') = is_some (db w).

(** [MONGO_URL] is set, not empty, and the client could be built. *)
Definition database_configured (MONGO_URL : option string)
  (server : Result Mongo.t) : bool :=
  match MONGO_URL, server with
  | Some url, Ok _ => negb (url =? "")%string
  | _, _ => false
  end.

(** ** Pieces of a text *)

(** [a] occurs in [s] as a contiguous piece. *)
Definition piece (a s : string) : Prop :=
  exists before after, s = (before ++ a ++ after)%string.

(** The keyword arguments that reach [chat.completions.create] for a call
    made with [image] and [language] under system message [system]. *)
Definition analysis_payload (system language image : string) : pydict :=
  [("model", PStr "gpt-4.1-mini");
   ("messages",
    PList [PDict [("role", PStr "system"); ("content", PStr system)];
           PDict [("role", PStr "user");
                  ("content",
                   PList [PDict [("type", PStr "text");
                                 ("text", PStr (user_text language))];
                          PDict [("type", PStr "image_url");
                                 ("image_url",
                                  PDict [("url",
                                          PStr ("data:image/jpeg;base64,"
                                                ++ image)%string)])]])]]);
   ("max_tokens", PInt 4096)].

(** ** Identifiers of stored reports *)

(** The handler never moves the tape of identifiers backwards. *)
Definition draws_grow {A} (m : M A) : Prop :=
  forall env w, (uuid_draws w <= uuid_draws (snd (m env w)))%nat.

(** [uuid.uuid4] never returns the same identifier twice. *)
Definition never_repeats (env : Env) : Prop :=
  forall i j, uuid4 env i = uuid4 env j -> i = j.

(** [s] is one of the identifiers drawn so far. *)
Definition drawn (env : Env) (w : World) (s : string) : Prop :=
  exists n, (n < uuid_draws w)%nat /\ s = uuid4 env n.

Definition doc_drawn (env : Env) (w : World) (d : pydict) : Prop :=
  exists s, dict_get "id" d = Some (PStr s) /\ drawn env w s.

(** Every stored report carries an identifier that was drawn, and no two
    reports of one collection carry the same. *)
Definition ids_unique (env : Env) (w : World) : Prop :=
  NoDup (map SavedReport.id (MEMORY_REPORTS w))
  /\ Forall (fun r => drawn env w (SavedReport.id r)) (MEMORY_REPORTS w)
  /\ forall m, db w = Some m ->
       NoDup (map (dict_get "id") (Mongo.reports m))
       /\ Forall (doc_drawn env w) (Mongo.reports m).

(** The reports of [MEMORY_REPORTS] that answer to [report_id]. *)
Definition memory_count (report_id : string) (w : World) : nat :=
  List.length
    (filter (fun report => (SavedReport.id report =? report_id)%string)
            (MEMORY_REPORTS w)).

(** ** The image of the repository's own test *)

(** The encoding that analyze_test.py sends (line 17): a 1x1 PNG, 96
    characters. *)
Definition minimal_png : string :=
  "iVBORw0KGgoAAAANSUhEUgAAAAEAAAABCAYAAAAfFcSJAAAADUlEQVR42mP8/5+hHgAHggJ/PchI7wAAAABJRU5ErkJggg==".

Definition minimal_png_request : ReportAnalysisRequest.t :=
  ReportAnalysisRequest.mk minimal_png "english".

(** ** Documents written by [save_report] *)

(** [doc] is the document that [save_report] inserted for [s]: the dump
    with both timestamps as ISO text, under the [_id] that the database
    gave it. *)
Definition written_doc (doc : pydict) (s : SavedReport.t) : Prop :=
  valid_saved s = true
  /\ exists oid, doc = dict_set "_id" (PObjectId oid) (stored_doc s).

(** The collection of [w] holds, in insertion order, the documents of the
    entities [saved], and no other document. *)
Definition written (w : World) (saved : list SavedReport.t) : Prop :=
  match db w with
  | Some m => Forall2 written_doc (Mongo.reports m) saved
  | None => saved = []
  end.

(** A request as the framework hands it over: pydantic has parsed the
    [created_at] of a report to save, which is therefore a real datetime. *)
Definition valid_request (q : request) : bool :=
  match q with
  | SaveReport r => valid_datetime (AnalyzedReport.created_at r)
  | _ => true
  end.

(** The states that a sequence of such requests leads to from [w0]. *)
Inductive served (env : Env) (w0 : World) : World -> Prop :=
| served_start : served env w0 w0
| served_step w q :
    served env w0 w -> valid_request q = true ->
    served env w0 (handle q env w).

(** ** A collection with a document of another origin *)



(** * Properties *)

(** ** Running handlers *)

Arguments isoformat : simpl never.
Arguments fromisoformat : simpl never.
Arguments clean_response : simpl never.
Arguments mongo_save : simpl never.
Arguments load_report : simpl never.
Arguments durable_list : simpl never.
Arguments analyze_medical_report : simpl never.

Ltac run :=
  unfold http_guard, guard_500, try_except, attempt, bind, ret, raise, lift,
    ask, get_world, modify, not_found in *; cbn beta iota in *.


Lemma bind_raise {A B} (m : M A) (k : A -> M B) env w e w' :
  m env w = (Raise e, w') -> bind m k env w = (Raise e, w').
Proof. intros H. unfold bind. now rewrite H. Qed.

(** A successful [bind] splits into two successful runs. *)
Lemma bind_ok_inv {A B} (m : M A) (k : A -> M B) env w b w2 :
  bind m k env w = (Ok b, w2) ->
  exists a w1, m env w = (Ok a, w1) /\ k a env w1 = (Ok b, w2).
Proof.
  unfold bind. destruct (m env w) as [[a|e] w1]; intros H.
  - now exists a, w1.
  - discriminate.
Qed.

Lemma http_guard_http {A} (body : M A) env w c d w' :
  body env w = (Raise (HTTPException c d), w') ->
  http_guard body env w = (Raise (HTTPException c d), w').
Proof. intros H. unfold http_guard, try_except. now rewrite H. Qed.

Lemma http_guard_ok {A} (body : M A) env w a w' :
  body env w = (Ok a, w') -> http_guard body env w = (Ok a, w').
Proof. intros H. unfold http_guard, try_except. now rewrite H. Qed.

Lemma http_guard_ok_inv {A} (body : M A) env w a w' :
  http_guard body env w = (Ok a, w') -> body env w = (Ok a, w').
Proof.
  unfold http_guard, try_except.
  destruct (body env w) as [[x|e] w1]; [easy|].
  destruct e; unfold raise; discriminate.
Qed.

(** ** C7: the empty image is refused before the provider is called *)

(** C7.  A request whose [image_base64] is the empty string gets 400 with
    detail "No image provided", and the state is untouched: in particular
    the log of outbound LLM requests has not grown. *)
Theorem analyze_report_empty_image :
  forall env w request,
    ReportAnalysisRequest.image_base64 request = "" ->
    analyze_report request env w
      = (Raise (HTTPException 400 "No image provided"), w)
    /\ status_of (fst (analyze_report request env w)) = 400
    /\ llm_calls (snd (analyze_report request env w)) = llm_calls w.
Proof.
  intros env w request Himg.
  assert (H : analyze_report request env w
              = (Raise (HTTPException 400 "No image provided"), w)).
  { unfold analyze_report. apply http_guard_http. now rewrite Himg. }
  rewrite H. auto.
Qed.

(** ** analyze_medical_report, step by step *)

Lemma analyze_medical_report_run env w request :
  key_configured env = true ->
  analyze_medical_report (ReportAnalysisRequest.image_base64 request)
    (ReportAnalysisRequest.language request) env w
  = (match llm_reply env (outbound_call env w request) with
     | Ok response =>
         match json_loads env (clean_response response) with
         | Some result => Ok result
         | None => Raise (HTTPException 500 "Failed to parse AI response")
         end
     | Raise (JSONDecodeError _) =>
         Raise (PyError "UnboundLocalError"
                  "cannot access local variable 'response' where it is not associated with a value")
     | Raise e =>
         Raise (HTTPException 500
                  ("Error analyzing report: " ++ str_exn e)%string)
     end,
     after_call w (outbound_call env w request)).
Proof.
  unfold key_configured, analyze_medical_report, outbound_call, after_call.
  intros Hkey. run.
  destruct (EMERGENT_LLM_KEY env) as [k|]; [|discriminate].
  destruct (k =? "")%string; [discriminate|].
  unfold draw_uuid4, send_message; cbn.
  destruct (llm_reply env _) as [response|e]; cbn.
  - now destruct (json_loads env (clean_response response)).
  - now destruct e.
Qed.

Lemma analyze_medical_report_no_key env w image language :
  key_configured env = false ->
  analyze_medical_report image language env w
  = (Raise (HTTPException 500 "LLM API key not configured"), w).
Proof.
  unfold key_configured, analyze_medical_report. intros Hkey. run.
  destruct (EMERGENT_LLM_KEY env) as [k|]; [|reflexivity].
  destruct (k =? "")%string; [reflexivity|discriminate].
Qed.

Lemma after_call_same_store w c : same_store w (after_call w c).
Proof. now unfold same_store. Qed.

(** ** C6: comparison without a database handle *)

Lemma foldM_fetch_no_db env w ids acc :
  db w = None -> ids <> [] ->
  foldM fetch_report ids acc env w
  = (Raise (AttributeError "NoneType" "reports"), w).
Proof.
  intros Hdb Hne. destruct ids as [|i ids]; [easy|].
  cbn. unfold fetch_report. run. unfold db_reports. now rewrite Hdb.
Qed.

(** C6.  With no database handle ([db] is [None], as after a start without
    [MONGO_URL]), a comparison request with two or more identifiers fails
    with 500, whatever [MEMORY_REPORTS] holds: the first lookup dereferences
    the absent handle and the generic clause turns the [AttributeError] into
    the response.  The state is left as it was. *)
Theorem compare_reports_without_db :
  forall env w request,
    db w = None ->
    2 <= List.length (CompareReportsRequest.report_ids request) ->
    compare_reports request env w
      = (Raise (HTTPException 500
                  "'NoneType' object has no attribute 'reports'"), w)
    /\ status_of (fst (compare_reports request env w)) = 500.
Proof.
  intros env w request Hdb Hlen.
  assert (H : compare_reports request env w
              = (Raise (HTTPException 500
                          "'NoneType' object has no attribute 'reports'"), w)).
  { unfold compare_reports, http_guard, try_except.
    destruct (Nat.ltb_spec (List.length (CompareReportsRequest.report_ids request)) 2);
      [lia|].
    unfold bind at 1.
    rewrite foldM_fetch_no_db; [reflexivity|assumption|].
    intros E. rewrite E in Hlen. cbn in Hlen. lia. }
  rewrite H. split; reflexivity.
Qed.

Lemma startup_without_url server :
  db (startup None server) = None /\ USE_MONGODB (startup None server) = false.
Proof. split; reflexivity. Qed.

(** ** Steps that do not touch the stored collections *)

Lemma same_store_refl w : same_store w w.
Proof. now unfold same_store. Qed.

Lemma same_store_trans w1 w2 w3 :
  same_store w1 w2 -> same_store w2 w3 -> same_store w1 w3.
Proof. unfold same_store. intuition congruence. Qed.

Lemma preserves_ret {A} (a : A) : preserves (ret a).
Proof. intros env w. apply same_store_refl. Qed.

Lemma preserves_raise {A} e : preserves (@raise A e).
Proof. intros env w. apply same_store_refl. Qed.

Lemma preserves_lift {A} (r : Result A) : preserves (lift r).
Proof. intros env w. apply same_store_refl. Qed.

Lemma preserves_bind {A B} (m : M A) (k : A -> M B) :
  preserves m -> (forall a, preserves (k a)) -> preserves (bind m k).
Proof.
  intros Hm Hk env w. unfold bind. specialize (Hm env w).
  destruct (m env w) as [[a|e] w1]; cbn in *; [|assumption].
  eapply same_store_trans; [eassumption|apply Hk].
Qed.

Lemma preserves_draw_uuid4 : preserves draw_uuid4.
Proof. intros env w. now unfold same_store. Qed.

Lemma preserves_read_utcnow : preserves read_utcnow.
Proof. intros env w. now unfold same_store. Qed.

Lemma preserves_db_reports : preserves db_reports.
Proof.
  intros env w. unfold db_reports. destruct (db w); apply same_store_refl.
Qed.

Lemma preserves_db_await : preserves db_await.
Proof.
  intros env w. unfold db_await. now destruct (db_fault env (db_ops w)).
Qed.

Lemma preserves_mapM {A B} (f : A -> M B) l :
  (forall a, preserves (f a)) -> preserves (mapM f l).
Proof.
  intros Hf. induction l as [|x l IH]; cbn.
  - apply preserves_ret.
  - apply preserves_bind; [apply Hf|]. intros y.
    apply preserves_bind; [apply IH|]. intros ys. apply preserves_ret.
Qed.

Lemma preserves_foldM {A B} (f : B -> A -> M B) l :
  (forall b a, preserves (f b a)) -> forall acc, preserves (foldM f l acc).
Proof.
  intros Hf. induction l as [|x l IH]; intros acc; cbn.
  - apply preserves_ret.
  - apply preserves_bind; [apply Hf|]. intros b. apply IH.
Qed.

Create HintDb store.

#[local] Hint Resolve preserves_ret preserves_raise preserves_lift
  preserves_draw_uuid4 preserves_read_utcnow preserves_db_reports
  preserves_db_await : store.

Ltac preserve :=
  repeat first
    [ solve [auto with store]
    | apply preserves_mapM; intros ?
    | apply preserves_foldM; intros ? ?
    | apply preserves_bind; [|intros ?]
    | match goal with
      | |- preserves (match ?x with _ => _ end) => destruct x
      | |- preserves (if ?x then _ else _) => destruct x
      end ].

Lemma preserves_HealthParameter_init a b c d e f g :
  preserves (HealthParameter_init a b c d e f g).
Proof. unfold HealthParameter_init. preserve. Qed.

Lemma preserves_AnalyzedReport_init a b c d e f g h i j k :
  preserves (AnalyzedReport_init a b c d e f g h i j k).
Proof. unfold AnalyzedReport_init. preserve. Qed.

Lemma preserves_required model field d : preserves (required model field d).
Proof. unfold required. preserve. Qed.

Lemma preserves_parse_iso s : preserves (parse_iso s).
Proof. unfold parse_iso. preserve. Qed.

#[local] Hint Resolve preserves_HealthParameter_init
  preserves_AnalyzedReport_init preserves_required preserves_parse_iso : store.

Lemma preserves_HealthParameter_validate v :
  preserves (HealthParameter_validate v).
Proof. unfold HealthParameter_validate. preserve. Qed.

#[local] Hint Resolve preserves_HealthParameter_validate : store.

Lemma preserves_AnalyzedReport_validate v :
  preserves (AnalyzedReport_validate v).
Proof. unfold AnalyzedReport_validate. preserve. Qed.

#[local] Hint Resolve preserves_AnalyzedReport_validate : store.

Lemma preserves_load_report r : preserves (load_report r).
Proof. unfold load_report, SavedReport_validate. preserve. Qed.

#[local] Hint Resolve preserves_load_report : store.

Lemma preserves_durable_list : preserves durable_list.
Proof. unfold durable_list. preserve. Qed.

(** ** The order on timestamps *)

Lemma lex_opp c k : lex (CompOpp c) (CompOpp k) = CompOpp (lex c k).
Proof. now destruct c. Qed.

Lemma dt_compare_antisym a b : dt_compare b a = CompOpp (dt_compare a b).
Proof.
  unfold dt_compare.
  repeat rewrite <- lex_opp. now rewrite <- !Z.compare_antisym.
Qed.

Lemma dt_ltb_leb a b : dt_ltb a b = true -> dt_leb a b = true.
Proof. unfold dt_ltb, dt_leb. now destruct (dt_compare a b). Qed.

Lemma dt_ltb_false_leb a b : dt_ltb a b = false -> dt_leb b a = true.
Proof.
  unfold dt_ltb, dt_leb. rewrite (dt_compare_antisym a b).
  now destruct (dt_compare a b).
Qed.

(** ** [sorted(..., reverse=True)] *)

Lemma insert_by_saved_at_perm x l :
  Permutation (insert_by_saved_at x l) (x :: l).
Proof.
  induction l as [|y l IH]; cbn; [reflexivity|].
  destruct (dt_ltb _ _); [|reflexivity].
  rewrite IH. apply perm_swap.
Qed.

Lemma sorted_by_saved_at_desc_perm l :
  Permutation (sorted_by_saved_at_desc l) l.
Proof.
  induction l as [|x l IH]; cbn; [constructor|].
  rewrite insert_by_saved_at_perm. now constructor.
Qed.

Lemma insert_by_saved_at_hd z x l :
  newer_first z x -> HdRel newer_first z l ->
  HdRel newer_first z (insert_by_saved_at x l).
Proof.
  intros Hzx Hzl. destruct l as [|y l]; cbn.
  - now constructor.
  - destruct (dt_ltb _ _); constructor; [now inversion Hzl|assumption].
Qed.

Lemma insert_by_saved_at_sorted x l :
  Sorted newer_first l -> Sorted newer_first (insert_by_saved_at x l).
Proof.
  induction 1 as [|y l Hs IH Hhd]; cbn.
  - repeat constructor.
  - destruct (dt_ltb _ _) eqn:E.
    + constructor; [assumption|].
      apply insert_by_saved_at_hd; [|assumption].
      now apply dt_ltb_leb.
    + constructor; [now constructor|].
      constructor. now apply dt_ltb_false_leb.
Qed.

Lemma sorted_by_saved_at_desc_sorted l :
  Sorted newer_first (sorted_by_saved_at_desc l).
Proof.
  induction l as [|x l IH]; cbn; [constructor|].
  now apply insert_by_saved_at_sorted.
Qed.

(** ** GET /reports, unfolded *)

Lemma get_reports_run env w :
  get_reports env w
  = if USE_MONGODB w && is_some (db w)
    then match durable_list env w with
         | (Ok l, w') => (Ok l, w')
         | (Raise _, w') =>
             (Ok (sorted_by_saved_at_desc (MEMORY_REPORTS w)), w')
         end
    else (Ok (sorted_by_saved_at_desc (MEMORY_REPORTS w)), w).
Proof.
  unfold get_reports, guard_500, memory_sorted. run.
  destruct (USE_MONGODB w && is_some (db w)); [|reflexivity].
  pose proof (preserves_durable_list env w) as (_ & _ & Hmem).
  destruct (durable_list env w) as [[l|e] w']; cbn in *; [reflexivity|].
  now rewrite Hmem.
Qed.

Lemma get_reports_from_memory env w :
  memory_sourced env w ->
  fst (get_reports env w) = Ok (sorted_by_saved_at_desc (MEMORY_REPORTS w)).
Proof.
  intros Hsrc. rewrite get_reports_run.
  destruct (USE_MONGODB w && is_some (db w)) eqn:Hsel; [|reflexivity].
  destruct Hsrc as [Hoff|[e He]]; [congruence|].
  destruct (durable_list env w) as [[l|e'] w']; cbn in *;
    [discriminate|reflexivity].
Qed.

Lemma get_reports_from_durable env w l :
  USE_MONGODB w && is_some (db w) = true ->
  fst (durable_list env w) = Ok l ->
  fst (get_reports env w) = Ok l.
Proof.
  intros Hsel Hl. rewrite get_reports_run, Hsel.
  destruct (durable_list env w) as [[l'|e'] w']; cbn in *; congruence.
Qed.

(** ** C1: a failing insert falls back to the in-memory list *)

Lemma mongo_save_fault env w s m e :
  db w = Some m -> db_fault env (db_ops w) = Some e ->
  exists w', mongo_save s env w = (Raise e, w') /\ same_store w w'.
Proof.
  intros Hdb Hf. unfold mongo_save. cbn. run. unfold db_reports, db_await.
  rewrite Hdb, Hf. eexists. split; [reflexivity|]. now unfold same_store.
Qed.

Lemma save_report_run env w report :
  save_report report env w
  = let saved := new_saved_report env w report in
    if USE_MONGODB w && is_some (db w)
    then match mongo_save saved env (after_init w) with
         | (Ok _, w2) => (Ok saved, w2)
         | (Raise _, w2) =>
             (Ok saved, set_memory (MEMORY_REPORTS w2 ++ [saved]) w2)
         end
    else (Ok saved, set_memory (MEMORY_REPORTS w ++ [saved]) (after_init w)).
Proof.
  unfold save_report, guard_500, try_except, SavedReport_init, memory_append.
  unfold bind, draw_uuid4, read_utcnow, get_world, ret, modify; cbn.
  fold (after_init w). fold (new_saved_report env w report).
  destruct (USE_MONGODB w && is_some (db w)); [|reflexivity].
  now destruct (mongo_save _ env (after_init w)) as [[[]|e] w2].
Qed.

(** C1.  With the database selected and its insert raising (any exception
    [e]), [save_report] appends the [SavedReport] it built to
    [MEMORY_REPORTS], leaves the database as it was and still answers 200
    with that entity; and in every later state that still holds the entity
    in memory, a listing that is answered from the in-memory list contains
    it. *)
Theorem save_report_falls_back_to_memory :
  forall env w report e,
    USE_MONGODB w = true ->
    db w <> None ->
    db_fault env (db_ops w) = Some e ->
    let saved := new_saved_report env w report in
    let w' := snd (save_report report env w) in
    fst (save_report report env w) = Ok saved
    /\ status_of (fst (save_report report env w)) = 200
    /\ MEMORY_REPORTS w' = MEMORY_REPORTS w ++ [saved]
    /\ db w' = db w
    /\ forall env2 w2,
         In saved (MEMORY_REPORTS w2) ->
         memory_sourced env2 w2 ->
         exists l, fst (get_reports env2 w2) = Ok l /\ In saved l.
Proof.
  intros env w report e Huse Hdb Hfault saved w'.
  destruct (db w) as [m|] eqn:Hm; [clear Hdb|congruence].
  destruct (mongo_save_fault env (after_init w) saved m e)
    as (w2 & Hsave & Hst); [exact Hm|exact Hfault|].
  assert (Hrun : save_report report env w
                 = (Ok saved, set_memory (MEMORY_REPORTS w2 ++ [saved]) w2)).
  { rewrite save_report_run. cbv zeta. fold saved.
    rewrite Huse, Hm, Hsave. reflexivity. }
  subst w'. rewrite Hrun. cbn.
  destruct Hst as (_ & Hdb2 & Hmem2). cbn in Hdb2, Hmem2.
  repeat split.
  - now rewrite Hmem2.
  - now rewrite Hdb2.
  - intros env2 w3 Hin Hsrc.
    exists (sorted_by_saved_at_desc (MEMORY_REPORTS w3)). split.
    + now apply get_reports_from_memory.
    + eapply Permutation_in; [|exact Hin].
      symmetry. apply sorted_by_saved_at_desc_perm.
Qed.

(** ** C9: deleting twice *)

Lemma memory_pop_some report_id l :
  List.length (filter (fun r => (SavedReport.id r =? report_id)%string) l) <> 0 ->
  exists l',
    memory_pop report_id l = Some l'
    /\ S (List.length
            (filter (fun r => (SavedReport.id r =? report_id)%string) l'))
       = List.length
           (filter (fun r => (SavedReport.id r =? report_id)%string) l).
Proof.
  induction l as [|r l IH]; cbn; [easy|].
  destruct (SavedReport.id r =? report_id)%string eqn:E; cbn; intros Hc.
  - now exists l.
  - destruct (IH Hc) as (l' & Hpop & Hlen). rewrite Hpop.
    exists (r :: l'). cbn. now rewrite E.
Qed.

Lemma memory_pop_none report_id l :
  List.length (filter (fun r => (SavedReport.id r =? report_id)%string) l) = 0 ->
  memory_pop report_id l = None.
Proof.
  induction l as [|r l IH]; cbn; [easy|].
  destruct (SavedReport.id r =? report_id)%string; cbn; [easy|].
  intros Hc. now rewrite IH.
Qed.

Lemma remove_first_some f l :
  List.length (filter f l) <> 0 ->
  exists l',
    Mongo.remove_first f l = (l', 1)
    /\ S (List.length (filter f l')) = List.length (filter f l).
Proof.
  induction l as [|d l IH]; cbn; [easy|].
  destruct (f d) eqn:E; cbn; intros Hc.
  - now exists l.
  - destruct (IH Hc) as (l' & Hrm & Hlen). rewrite Hrm.
    exists (d :: l'). cbn. now rewrite E.
Qed.

Lemma remove_first_none f l :
  List.length (filter f l) = 0 -> Mongo.remove_first f l = (l, 0).
Proof.
  induction l as [|d l IH]; cbn; [easy|].
  destruct (f d); cbn; [easy|]. intros Hc. now rewrite IH.
Qed.

(** The state once one database round trip has been awaited. *)
Lemma db_await_ok env w :
  db_fault env (db_ops w) = None ->
  db_await env w
  = (Ok tt, mk_world (USE_MONGODB w) (db w) (MEMORY_REPORTS w) (llm_calls w)
                     (uuid_draws w) (clock_reads w) (S (db_ops w))).
Proof. intros H. unfold db_await. now rewrite H. Qed.

Lemma delete_report_present env w report_id :
  stored_count report_id w <> 0 ->
  (USE_MONGODB w = true -> db_fault env (db_ops w) = None) ->
  exists w',
    delete_report report_id env w = (Ok deleted_message, w')
    /\ S (stored_count report_id w') = stored_count report_id w
    /\ USE_MONGODB w' = USE_MONGODB w
    /\ db_ops w' = (if USE_MONGODB w then S (db_ops w) else db_ops w).
Proof.
  unfold stored_count. intros Hc Hf.
  destruct (USE_MONGODB w) eqn:Huse.
  - destruct (db w) as [m|] eqn:Hdb; [|easy].
    destruct (remove_first_some _ _ Hc) as (l' & Hrm & Hlen).
    eexists. split; [|split; [|split]].
    + unfold delete_report. apply http_guard_ok.
      unfold bind, get_world, db_reports, modify, ret. rewrite Huse, Hdb.
      rewrite db_await_ok by auto. unfold Mongo.delete_one. rewrite Hrm.
      cbn. reflexivity.
    + cbn. rewrite Huse. exact Hlen.
    + cbn. exact Huse.
    + reflexivity.
  - destruct (memory_pop_some _ _ Hc) as (l' & Hpop & Hlen).
    eexists. split; [|split; [|split]].
    + unfold delete_report. apply http_guard_ok.
      unfold bind, get_world, modify, ret. rewrite Huse, Hpop. reflexivity.
    + cbn. rewrite Huse. exact Hlen.
    + cbn. exact Huse.
    + reflexivity.
Qed.

Lemma delete_report_absent env w report_id :
  stored_count report_id w = 0 ->
  (USE_MONGODB w = true -> db w <> None /\ db_fault env (db_ops w) = None) ->
  fst (delete_report report_id env w)
  = Raise (HTTPException 404 "Report not found").
Proof.
  unfold stored_count. intros Hc Hf.
  destruct (USE_MONGODB w) eqn:Huse.
  - destruct Hf as [Hdb Hf]; [reflexivity|].
    destruct (db w) as [m|] eqn:Hm; [|easy].
    unfold delete_report, http_guard, try_except.
    unfold bind, get_world, db_reports, modify, ret, not_found, raise.
    rewrite Huse, Hm. rewrite db_await_ok by auto.
    unfold Mongo.delete_one. rewrite (remove_first_none _ _ Hc). reflexivity.
  - unfold delete_report, http_guard, try_except.
    unfold bind, get_world, modify, ret, not_found, raise.
    rewrite Huse, (memory_pop_none _ _ Hc). reflexivity.
Qed.

(** C9, as stated: deleting a stored report succeeds the first time.  It
    does not when the report was stored by the fallback of [save_report]:
    the save answered 200 and the entity is in [MEMORY_REPORTS], but with
    the database selected [delete_report] looks in the database only and
    the first delete answers 404. *)
Lemma delete_report_misses_fallback_save :
  fst (save_report (blood_report "14.5" "normal") flaky_env mongo_world)
    = Ok (new_saved_report flaky_env mongo_world
            (blood_report "14.5" "normal"))
  /\ SavedReport.id (new_saved_report flaky_env mongo_world
                       (blood_report "14.5" "normal")) = "uuid-0"
  /\ In (new_saved_report flaky_env mongo_world
           (blood_report "14.5" "normal"))
        (MEMORY_REPORTS
           (snd (save_report (blood_report "14.5" "normal") flaky_env
                   mongo_world)))
  /\ fst (delete_report "uuid-0" flaky_env
            (snd (save_report (blood_report "14.5" "normal") flaky_env
                    mongo_world)))
     = Raise (HTTPException 404 "Report not found").
Proof.
  split; [reflexivity|]. split; [reflexivity|].
  split; [now left|reflexivity].
Qed.

(** C9, amended.  Let [report_id] identify exactly one report of the
    collection that deletion consults (the database when it is selected,
    [MEMORY_REPORTS] otherwise; identifiers are unique), and let the
    database, when it is that collection, answer both round trips.  Then
    the first delete answers 200 with the success message and the report is
    gone from the collection, and the second delete answers 404. *)
Theorem delete_report_twice :
  forall env w report_id,
    stored_count report_id w = 1 ->
    (USE_MONGODB w = true ->
     db_fault env (db_ops w) = None /\ db_fault env (S (db_ops w)) = None) ->
    let first := delete_report report_id env w in
    let second := delete_report report_id env (snd first) in
    fst first = Ok deleted_message
    /\ status_of (fst first) = 200
    /\ stored_count report_id (snd first) = 0
    /\ fst second = Raise (HTTPException 404 "Report not found")
    /\ status_of (fst second) = 404.
Proof.
  intros env w report_id Hone Hf first second.
  destruct (delete_report_present env w report_id)
    as (w' & Hrun & Hcount & Huse & Hops).
  { now rewrite Hone. }
  { intros H. now apply Hf. }
  assert (Hzero : stored_count report_id w' = 0) by lia.
  assert (Hsecond : fst (delete_report report_id env w')
                    = Raise (HTTPException 404 "Report not found")).
  { apply delete_report_absent; [exact Hzero|].
    rewrite Huse. intros Hu. rewrite Hu in Hops. rewrite Hops.
    split; [|now apply Hf].
    pose proof Hrun as Hdb. unfold delete_report in Hdb.
    apply http_guard_ok_inv in Hdb.
    unfold bind, get_world, db_reports in Hdb. rewrite Hu in Hdb.
    destruct (db w) as [m|] eqn:Hm; [|discriminate].
    rewrite db_await_ok in Hdb by now apply Hf.
    unfold modify in Hdb.
    destruct (Mongo.delete_one report_id m) as [m' n].
    destruct (n =? 0)%nat; [discriminate|].
    unfold ret in Hdb. inversion Hdb. discriminate. }
  subst first second. rewrite Hrun. cbn [fst snd]. rewrite Hsecond.
  repeat split; assumption.
Qed.

(** ** POST /analyze-report: from the parsed completion to the report *)

Lemma analyze_report_unfold request env w :
  analyze_report request env w
  = http_guard
      (if (ReportAnalysisRequest.image_base64 request =? "")%string
       then raise (HTTPException 400 "No image provided")
       else
         bind (analyze_medical_report
                 (ReportAnalysisRequest.image_base64 request)
                 (ReportAnalysisRequest.language request))
              (build_report request)) env w.
Proof. reflexivity. Qed.

Lemma lift_ok_inv {A} (r : Result A) env w a w' :
  lift r env w = (Ok a, w') -> r = Ok a /\ w' = w.
Proof. unfold lift. intros H. now inversion H. Qed.

Lemma validate_str_inv model field v s :
  validate_str model field v = Ok s -> v = PStr s.
Proof. destruct v; cbn; intros H; now inversion H. Qed.

Lemma validate_opt_str_inv model field v o :
  validate_opt_str model field v = Ok o -> v = dump_opt_str o.
Proof. destruct v; cbn; intros H; now inversion H. Qed.

Lemma all_str_inv l r : all_str l = Some r -> l = map PStr r.
Proof.
  revert r. induction l as [|v l IH]; cbn; intros r H.
  - now inversion H.
  - destruct v; try discriminate.
    destruct (all_str l) as [r'|]; [|discriminate].
    inversion H. cbn. now rewrite (IH r').
Qed.

Lemma all_str_map l : all_str (map PStr l) = Some l.
Proof. induction l as [|s l IH]; cbn; [reflexivity|now rewrite IH]. Qed.

Lemma validate_list_str_inv model field v l :
  validate_list_str model field v = Ok l -> v = PList (map PStr l).
Proof.
  destruct v; cbn; try discriminate.
  destruct (all_str l0) eqn:E; intros H; inversion H; subst.
  now rewrite (all_str_inv _ _ E).
Qed.

Lemma validate_opt_list_str_inv model field v o :
  validate_opt_list_str model field v = Ok o -> v = dump_opt_list o.
Proof.
  unfold validate_opt_list_str.
  destruct v; try (cbn; discriminate).
  - intros H. now inversion H.
  - destruct (validate_list_str model field (PList l)) eqn:E;
      intros H; inversion H; subst.
    now apply validate_list_str_inv in E.
Qed.

(** What a successful construction says about the arguments. *)
Lemma AnalyzedReport_init_ok_inv
  rt ti su hs ps ht hht os img env w r w' :
  AnalyzedReport_init None rt ti su hs ps ht hht os None img env w
    = (Ok r, w') ->
  rt = PStr (AnalyzedReport.report_type r)
  /\ ti = PStr (AnalyzedReport.title r)
  /\ su = PStr (AnalyzedReport.summary r)
  /\ hs = dump_opt_str (AnalyzedReport.hindi_summary r)
  /\ ps = AnalyzedReport.parameters r
  /\ ht = PList (map PStr (AnalyzedReport.health_tips r))
  /\ hht = dump_opt_list (AnalyzedReport.hindi_health_tips r)
  /\ os = PStr (AnalyzedReport.overall_status r)
  /\ img = dump_opt_str (AnalyzedReport.image_base64 r)
  /\ AnalyzedReport.id r = uuid4 env (uuid_draws w)
  /\ AnalyzedReport.created_at r = utcnow env (clock_reads w)
  /\ same_store w w'.
Proof.
  unfold AnalyzedReport_init, bind, lift, draw_uuid4, read_utcnow, ret.
  destruct (validate_str _ _ rt) as [x1|] eqn:E1; [|discriminate].
  destruct (validate_str _ _ ti) as [x2|] eqn:E2; [|discriminate].
  destruct (validate_str _ _ su) as [x3|] eqn:E3; [|discriminate].
  destruct (validate_opt_str _ _ hs) as [x4|] eqn:E4; [|discriminate].
  destruct (validate_list_str _ _ ht) as [x5|] eqn:E5; [|discriminate].
  destruct (validate_opt_list_str _ _ hht) as [x6|] eqn:E6; [|discriminate].
  destruct (validate_str _ _ os) as [x7|] eqn:E7; [|discriminate].
  destruct (validate_opt_str _ _ img) as [x8|] eqn:E8; [|discriminate].
  intros H. inversion H; subst; clear H. cbn.
  apply validate_str_inv in E1, E2, E3, E7.
  apply validate_opt_str_inv in E4, E8.
  apply validate_list_str_inv in E5. apply validate_opt_list_str_inv in E6.
  unfold same_store. cbn. repeat split; assumption.
Qed.

Lemma HealthParameter_init_ok_inv a b c d e f g env w hp w' :
  HealthParameter_init a b c d e f g env w = (Ok hp, w') ->
  a = PStr (HealthParameter.name hp)
  /\ b = PStr (HealthParameter.value hp)
  /\ c = PStr (HealthParameter.unit hp)
  /\ d = PStr (HealthParameter.normal_range hp)
  /\ e = PStr (HealthParameter.status hp)
  /\ f = PStr (HealthParameter.explanation hp)
  /\ g = dump_opt_str (HealthParameter.hindi_explanation hp)
  /\ w' = w.
Proof.
  unfold HealthParameter_init, bind, lift, ret.
  destruct (validate_str _ _ a) as [x1|] eqn:E1; [|discriminate].
  destruct (validate_str _ _ b) as [x2|] eqn:E2; [|discriminate].
  destruct (validate_str _ _ c) as [x3|] eqn:E3; [|discriminate].
  destruct (validate_str _ _ d) as [x4|] eqn:E4; [|discriminate].
  destruct (validate_str _ _ e) as [x5|] eqn:E5; [|discriminate].
  destruct (validate_str _ _ f) as [x6|] eqn:E6; [|discriminate].
  destruct (validate_opt_str _ _ g) as [x7|] eqn:E7; [|discriminate].
  intros H. inversion H; subst; clear H. cbn.
  apply validate_str_inv in E1, E2, E3, E4, E5, E6.
  apply validate_opt_str_inv in E7.
  repeat split; assumption.
Qed.

Lemma parameter_of_ok_inv p env w hp w' :
  parameter_of p env w = (Ok hp, w') -> parameter_filled p hp /\ w' = w.
Proof.
  unfold parameter_of. destruct p; try (unfold bind, lift; cbn; discriminate).
  unfold bind at 1 2 3 4 5 6 7. unfold lift, py_get.
  intros H. apply HealthParameter_init_ok_inv in H.
  destruct H as (H1 & H2 & H3 & H4 & H5 & H6 & H7 & Hw).
  split; [|assumption]. exists d. repeat split; congruence.
Qed.

Lemma mapM_parameter_of_ok_inv items env w ps w' :
  mapM parameter_of items env w = (Ok ps, w') ->
  Forall2 parameter_filled items ps /\ w' = w.
Proof.
  revert ps w'. induction items as [|p items IH]; cbn; intros ps w' H.
  - unfold ret in H. inversion H. split; [constructor|reflexivity].
  - apply bind_ok_inv in H. destruct H as (hp & w1 & Hp & H).
    apply bind_ok_inv in H. destruct H as (hps & w2 & Hps & H).
    unfold ret in H. inversion H; subst; clear H.
    apply parameter_of_ok_inv in Hp. destruct Hp as [Hp ->].
    apply IH in Hps. destruct Hps as [Hps ->].
    split; [now constructor|reflexivity].
Qed.

(** A built report carries the defaulted fields and the image reference. *)
Lemma build_report_ok_inv request analysis env w r w' :
  build_report request analysis env w = (Ok r, w') ->
  exists d,
    analysis = PDict d
    /\ report_filled d r
    /\ AnalyzedReport.image_base64 r
       = Some (image_reference (ReportAnalysisRequest.image_base64 request))
    /\ same_store w w'.
Proof.
  unfold build_report. intros H.
  destruct analysis; try (unfold bind, lift in H; cbn in H; discriminate).
  exists d. split; [reflexivity|].
  apply bind_ok_inv in H. destruct H as (ps & w1 & Hps & H).
  apply lift_ok_inv in Hps. destruct Hps as [Hps ->].
  apply bind_ok_inv in H. destruct H as (items & w1 & Hit & H).
  apply lift_ok_inv in Hit. destruct Hit as [Hit ->].
  apply bind_ok_inv in H. destruct H as (params & w1 & Hpar & H).
  apply mapM_parameter_of_ok_inv in Hpar. destruct Hpar as [Hpar ->].
  unfold bind at 1 2 3 4 5 6 7 in H. unfold lift, py_get in H.
  apply AnalyzedReport_init_ok_inv in H.
  destruct H as (H1 & H2 & H3 & H4 & H5 & H6 & H7 & H8 & H9 & _ & _ & Hst).
  cbn in Hps. inversion Hps; subst ps; clear Hps.
  split; [|split].
  - unfold report_filled. repeat split; try congruence.
    exists items. split; [assumption|]. now rewrite <- H5.
  - unfold image_reference.
    destruct (AnalyzedReport.image_base64 r); cbn in H9; congruence.
  - exact Hst.
Qed.








(** ** C4: an unparseable completion *)



(** ** C3: defaults for absent fields *)


(** An unexpected field changes nothing: a dict that agrees with [d] on the
    keys that are read builds the same report. *)
Lemma get_default_extra k k' v dflt d :
  k <> k' -> get_default k dflt ((k', v) :: d) = get_default k dflt d.
Proof.
  unfold get_default. cbn. intros H. apply String.eqb_neq in H.
  now rewrite H.
Qed.

Lemma parameter_of_ignores_extra k v pd :
  ~ In k ["name"; "value"; "unit"; "normal_range"; "status"; "explanation";
          "hindi_explanation"] ->
  parameter_of (PDict ((k, v) :: pd)) = parameter_of (PDict pd).
Proof.
  cbn. intros H. unfold parameter_of, py_get.
  rewrite !get_default_extra by intuition congruence. reflexivity.
Qed.


(** ** C10: the stored image reference *)

Lemma slice_to_length n s :
  String.length (PyStr.slice_to n s) = Nat.min n (String.length s).
Proof.
  unfold PyStr.slice_to. revert n.
  induction s as [|c s IH]; intros [|n]; cbn; auto.
Qed.

Lemma slice_to_prefix n s : String.prefix (PyStr.slice_to n s) s = true.
Proof.
  unfold PyStr.slice_to. revert n.
  induction s as [|c s IH]; intros [|n]; cbn; auto.
  rewrite IH. now destruct (ascii_dec c c).
Qed.

Lemma append_length a b :
  String.length (a ++ b)%string = String.length a + String.length b.
Proof. induction a as [|c a IH]; cbn; auto. Qed.

Lemma analyze_report_ok_inv request env w r w' :
  analyze_report request env w = (Ok r, w') ->
  exists analysis w1,
    analyze_medical_report (ReportAnalysisRequest.image_base64 request)
      (ReportAnalysisRequest.language request) env w = (Ok analysis, w1)
    /\ build_report request analysis env w1 = (Ok r, w').
Proof.
  rewrite analyze_report_unfold. intros H. apply http_guard_ok_inv in H.
  destruct (_ =? "")%string; [discriminate|].
  now apply bind_ok_inv in H.
Qed.

Lemma slice_to_all n s :
  String.length s <= n -> PyStr.slice_to n s = s.
Proof.
  unfold PyStr.slice_to. revert n.
  induction s as [|c s IH]; intros [|n] H; cbn in *; try reflexivity;
    [lia|].
  rewrite IH by lia. reflexivity.
Qed.

(** C10, as stated: the field holds a prefix only, not the full image.  For
    an image of at most 100 characters it holds the full image: the
    analysis of the 96-character encoding of the repository's test stores
    all 96 characters, followed by the marker. *)
Lemma image_reference_keeps_short_image :
  String.length (ReportAnalysisRequest.image_base64 minimal_png_request) = 96
  /\ (exists r,
        fst (analyze_report minimal_png_request (sample_env "{}")
               memory_world) = Ok r
        /\ AnalyzedReport.image_base64 r
           = Some (ReportAnalysisRequest.image_base64 minimal_png_request
                   ++ "...")%string)
  /\ PyStr.slice_to 100
       (ReportAnalysisRequest.image_base64 minimal_png_request)
     = ReportAnalysisRequest.image_base64 minimal_png_request.
Proof.
  split; [reflexivity|]. split; [|reflexivity].
  eexists. split; [vm_compute; reflexivity|reflexivity].
Qed.

(** C10, amended.  Every report that [analyze_report] returns carries, as
    its [image_base64], the first 100 characters of the submitted encoding
    followed by "...".  The kept part is a prefix of the image: a proper
    one, shorter than the image, exactly when the image has more than 100
    characters, and the whole image when it has at most 100.  Whatever the
    length of the image, the stored text has at most 103 characters. *)
Theorem analyze_report_image_reference :
  forall env w request r w',
    analyze_report request env w = (Ok r, w') ->
    let image := ReportAnalysisRequest.image_base64 request in
    AnalyzedReport.image_base64 r
      = Some (PyStr.slice_to 100 image ++ "...")%string
    /\ String.prefix (PyStr.slice_to 100 image) image = true
    /\ String.length (PyStr.slice_to 100 image)
       = Nat.min 100 (String.length image)
    /\ (100 < String.length image ->
        String.length (PyStr.slice_to 100 image) < String.length image
        /\ PyStr.slice_to 100 image <> image)
    /\ (String.length image <= 100 -> PyStr.slice_to 100 image = image)
    /\ String.length (image_reference image) <= 103.
Proof.
  intros env w request r w' H image.
  apply analyze_report_ok_inv in H.
  destruct H as (analysis & w1 & _ & Hbuild).
  apply build_report_ok_inv in Hbuild.
  destruct Hbuild as (d & _ & _ & Himg & _).
  split; [exact Himg|]. split; [apply slice_to_prefix|].
  split; [apply slice_to_length|]. split; [|split].
  - intros Hlong.
    assert (Hlen : String.length (PyStr.slice_to 100 image)
                   < String.length image)
      by (rewrite slice_to_length; lia).
    split; [exact Hlen|]. intros E. rewrite E in Hlen. lia.
  - apply slice_to_all.
  - unfold image_reference. rewrite append_length, slice_to_length.
    change (String.length "...") with 3.
    pose proof (Nat.le_min_l 100 (String.length image)). lia.
Qed.

(** ** Strings *)

Lemma append_assoc a b c : ((a ++ b) ++ c = a ++ (b ++ c))%string.
Proof. induction a as [|x a IH]; cbn; [reflexivity|now rewrite IH]. Qed.

Lemma append_empty_r a : (a ++ "")%string = a.
Proof. induction a as [|x a IH]; cbn; [reflexivity|now rewrite IH]. Qed.

Lemma prefix_refl_app p s : String.prefix p (p ++ s) = true.
Proof.
  induction p as [|c p IH]; cbn; [now destruct s|].
  now destruct (ascii_dec c c).
Qed.

Lemma prefix_empty s : String.prefix "" s = true.
Proof. now destruct s. Qed.

(** A prefix of [a ++ b] is a prefix of [a], or covers [a] and goes on with
    a non-empty prefix of [b]. *)
Lemma prefix_app_split p a b :
  String.prefix p (a ++ b) = true ->
  String.prefix p a = true
  \/ exists p2, p = (a ++ p2)%string /\ p2 <> "" /\ String.prefix p2 b = true.
Proof.
  revert a. induction p as [|c p IH]; intros a H.
  - left. apply prefix_empty.
  - destruct a as [|x a]; cbn in H.
    + right. exists (String c p). now repeat split.
    + cbn. destruct (ascii_dec c x) as [->|]; [|discriminate].
      destruct (IH a H) as [Hp|(p2 & -> & Hne & Hp2)]; [now left|].
      right. exists p2. now repeat split.
Qed.

Lemma prefix_weaken p q s :
  String.prefix (p ++ q) s = true -> String.prefix p s = true.
Proof.
  revert s. induction p as [|c p IH]; intros s H; [apply prefix_empty|].
  destruct s as [|x s]; cbn in *; [discriminate|].
  destruct (ascii_dec c x); [now apply IH|discriminate].
Qed.

Lemma slice_from_app a b : PyStr.slice_from (String.length a) (a ++ b) = b.
Proof. induction a as [|c a IH]; cbn; [now destruct b|exact IH]. Qed.

Lemma slice_to_app a b : PyStr.slice_to (String.length a) (a ++ b) = a.
Proof.
  unfold PyStr.slice_to.
  induction a as [|c a IH]; cbn; [now destruct b|now rewrite IH].
Qed.

Lemma endswith_app a p : PyStr.endswith (a ++ p) p = true.
Proof.
  unfold PyStr.endswith. rewrite append_length.
  replace (String.length a + String.length p - String.length p)
    with (String.length a) by lia.
  rewrite slice_from_app, String.eqb_refl, andb_true_r.
  apply Nat.leb_le. lia.
Qed.

Lemma drop_last_app a p : PyStr.drop_last (String.length p) (a ++ p) = a.
Proof.
  unfold PyStr.drop_last. rewrite append_length.
  replace (String.length a + String.length p - String.length p)
    with (String.length a) by lia.
  apply slice_to_app.
Qed.

(** ** [strip] *)

Lemma rstrip_cons_nonspace c s :
  PyStr.isspace c = false ->
  PyStr.rstrip (String c s) = String c (PyStr.rstrip s).
Proof. intros H. cbn. rewrite H. now destruct (PyStr.rstrip s). Qed.

Lemma rstrip_app_keep s t :
  t <> "" -> PyStr.rstrip t = t -> PyStr.rstrip (s ++ t) = (s ++ t)%string.
Proof.
  intros Hne Ht. induction s as [|c s IH]; cbn [append]; [exact Ht|].
  cbn. rewrite IH. destruct (s ++ t)%string eqn:E; [|reflexivity].
  destruct s; cbn in E; [congruence|discriminate].
Qed.

Lemma rstrip_idem s : PyStr.rstrip (PyStr.rstrip s) = PyStr.rstrip s.
Proof.
  induction s as [|c s IH]; [reflexivity|]. cbn.
  destruct (PyStr.rstrip s) as [|x r] eqn:E.
  - destruct (PyStr.isspace c) eqn:Ec; cbn; [reflexivity|now rewrite Ec].
  - cbn in IH |- *. cbn. rewrite IH. reflexivity.
Qed.

Lemma lstrip_head s :
  PyStr.lstrip s = ""
  \/ exists c r, PyStr.lstrip s = String c r /\ PyStr.isspace c = false.
Proof.
  induction s as [|c s IH]; cbn; [now left|].
  destruct (PyStr.isspace c) eqn:E; [exact IH|].
  right. now exists c, s.
Qed.

Lemma strip_idem s : PyStr.strip (PyStr.strip s) = PyStr.strip s.
Proof.
  unfold PyStr.strip.
  destruct (lstrip_head s) as [->|(c & r & -> & Hc)]; [reflexivity|].
  rewrite (rstrip_cons_nonspace _ _ Hc). cbn [PyStr.lstrip]. rewrite Hc.
  rewrite <- (rstrip_cons_nonspace _ _ Hc). apply rstrip_idem.
Qed.

(** A text that starts and ends with a backquote is not trimmed. *)
Lemma strip_between_fences s :
  PyStr.strip (fence ++ s ++ fence) = (fence ++ s ++ fence)%string.
Proof.
  unfold PyStr.strip, fence. cbn [append PyStr.lstrip].
  change (PyStr.isspace "`") with false. cbv iota.
  change (String "`" (String "`" (String "`" (s ++ "```"))))%string
    with (("```" ++ s) ++ "```")%string.
  now apply rstrip_app_keep.
Qed.

Lemma strip_fenced body : PyStr.strip (fenced body) = fenced body.
Proof. apply strip_between_fences. Qed.

Lemma strip_fenced_json body : PyStr.strip (fenced_json body) = fenced_json body.
Proof.
  unfold fenced_json, fence_json.
  change ("```json" ++ body ++ fence)%string
    with (fence ++ ("json" ++ body) ++ fence)%string.
  apply strip_between_fences.
Qed.

(** ** C2: fences around the completion *)

Lemma prefix_inv p s : String.prefix p s = true -> exists r, s = (p ++ r)%string.
Proof.
  revert s. induction p as [|c p IH]; intros s H; [now exists s|].
  destruct s as [|x s]; cbn in H; [discriminate|].
  destruct (ascii_dec c x) as [->|]; [|discriminate].
  destruct (IH s H) as [r ->]. now exists r.
Qed.

Lemma startswith_fence_strip body :
  PyStr.startswith body fence = true ->
  PyStr.startswith (PyStr.strip body) fence = true.
Proof.
  unfold PyStr.startswith. intros H.
  destruct (prefix_inv _ _ H) as [r ->].
  unfold PyStr.strip, fence. cbn [append PyStr.lstrip].
  change (PyStr.isspace "`") with false. cbv iota.
  rewrite !rstrip_cons_nonspace by reflexivity.
  apply (prefix_refl_app "```").
Qed.

Lemma short_of_fence body :
  PyStr.startswith (body ++ fence) fence = true ->
  PyStr.startswith body fence = false ->
  body = "" \/ body = "`" \/ body = "``".
Proof.
  unfold PyStr.startswith. intros H Hn.
  destruct (prefix_app_split _ _ _ H) as [Hp|(p2 & E & Hne & _)];
    [congruence|].
  unfold fence in E.
  destruct body as [|c1 [|c2 [|c3 r]]]; cbn in E; auto.
  - inversion E. auto.
  - inversion E. auto.
  - inversion E as [[E1 E2 E3 E4]].
    destruct r; cbn in E4; [|discriminate]. now subst p2.
Qed.

Lemma json_tag_not_split body :
  PyStr.startswith body "json" = false ->
  String.prefix "json" (body ++ fence) = false.
Proof.
  unfold PyStr.startswith. intros Hn.
  destruct (String.prefix "json" (body ++ fence)) eqn:H; [|reflexivity].
  destruct (prefix_app_split _ _ _ H) as [Hp|(p2 & E & Hne & Hp2)];
    [congruence|].
  destruct body as [|c1 [|c2 [|c3 [|c4 r]]]]; cbn in E; inversion E; subst;
    try (cbn in Hp2; discriminate).
  destruct r; cbn in *; [congruence|discriminate].
Qed.

Lemma slice_from_fence_json s : PyStr.slice_from 7 (fence_json ++ s) = s.
Proof. exact (slice_from_app fence_json s). Qed.

Lemma slice_from_fence s : PyStr.slice_from 3 (fence ++ s) = s.
Proof. exact (slice_from_app fence s). Qed.

Lemma drop_last_fence a : PyStr.drop_last 3 (a ++ fence) = a.
Proof. exact (drop_last_app a fence). Qed.

Lemma clean_response_unfenced body :
  PyStr.startswith (PyStr.strip body) fence = false ->
  PyStr.endswith (PyStr.strip body) fence = false ->
  clean_response body = PyStr.strip body.
Proof.
  intros H1 H2. unfold clean_response. cbv zeta.
  assert (Hj : PyStr.startswith (PyStr.strip body) fence_json = false).
  { destruct (PyStr.startswith (PyStr.strip body) fence_json) eqn:E;
      [|reflexivity].
    unfold PyStr.startswith, fence_json in E.
    apply (prefix_weaken "```" "json") in E.
    unfold PyStr.startswith, fence in H1. congruence. }
  rewrite Hj, H1, H2. apply strip_idem.
Qed.

Lemma clean_response_fenced_json body :
  PyStr.startswith (PyStr.strip body) fence = false ->
  clean_response (fenced_json body) = PyStr.strip body.
Proof.
  intros H1.
  assert (Hb : PyStr.startswith body fence = false).
  { destruct (PyStr.startswith body fence) eqn:E; [|reflexivity].
    apply startswith_fence_strip in E. congruence. }
  destruct (PyStr.startswith (body ++ fence) fence) eqn:Hs.
  - destruct (short_of_fence _ Hs Hb) as [->|[->| ->]]; reflexivity.
  - unfold clean_response. cbv zeta. rewrite strip_fenced_json.
    unfold fenced_json.
    assert (Hp : PyStr.startswith (fence_json ++ body ++ fence) fence_json
                 = true) by apply prefix_refl_app.
    rewrite Hp.
    rewrite slice_from_fence_json.
    rewrite Hs, endswith_app.
    now rewrite drop_last_fence.
Qed.

Lemma clean_response_fenced body :
  PyStr.startswith body "json" = false ->
  clean_response (fenced body) = PyStr.strip body.
Proof.
  intros Hj. unfold clean_response. cbv zeta. rewrite strip_fenced.
  unfold fenced.
  assert (Hp : PyStr.startswith (fence ++ body ++ fence) fence_json = false).
  { unfold PyStr.startswith, fence_json. cbn [append fence].
    change (String.prefix "```json"
              (String "`" (String "`" (String "`" (body ++ "```")))))%string
      with (String.prefix "json" (body ++ fence)).
    now apply json_tag_not_split. }
  rewrite Hp.
  assert (Hf : PyStr.startswith (fence ++ body ++ fence) fence = true)
    by apply prefix_refl_app.
  rewrite Hf.
  rewrite slice_from_fence.
  rewrite endswith_app.
  now rewrite drop_last_fence.
Qed.

(** C2, as stated: a single leading marker is removed, and a fenced text
    parses like the text inside.  Neither holds: after "```json" a second
    leading "```"  is removed as well, and a text that carries a fence of its
    own parses differently once it is wrapped. *)
Lemma clean_response_not_single_marker :
  clean_response "```json```{}" = "{}"
  /\ clean_single_marker "```json```{}" = "```{}"
  /\ parse_response (sample_env "") (fenced_json "```json{}") = None
  /\ parse_response (sample_env "") "```json{}" = Some (PDict []).
Proof. repeat split. Qed.

(** C2, amended.  [clean_response] trims the text, makes one attempt to
    remove a leading "```json", then one attempt to remove a leading "```"
    (so up to two leading markers go, and "json" is the only tag that is
    recognised), then one attempt to remove a trailing "```", and trims
    again.  For a text whose trimmed form neither starts nor ends with
    "```", the text wrapped in "```json" ... "```" cleans to the trimmed
    text and parses to the same result as the text itself; so does the text
    wrapped in "```" ... "```" when it does not start with "json". *)
Theorem clean_response_fenced_block :
  forall env body,
    PyStr.startswith (PyStr.strip body) fence = false ->
    PyStr.endswith (PyStr.strip body) fence = false ->
    (forall response,
        clean_response response
        = PyStr.strip
            (drop_suffix fence
               (drop_prefix fence
                  (drop_prefix fence_json (PyStr.strip response)))))
    /\ clean_response (fenced_json body) = PyStr.strip body
    /\ parse_response env (fenced_json body) = parse_response env body
    /\ (PyStr.startswith body "json" = false ->
        clean_response (fenced body) = PyStr.strip body
        /\ parse_response env (fenced body) = parse_response env body).
Proof.
  intros env body H1 H2.
  pose proof (clean_response_unfenced body H1 H2) as Hu.
  pose proof (clean_response_fenced_json body H1) as Hj.
  split; [reflexivity|]. split; [exact Hj|]. split.
  - unfold parse_response. now rewrite Hj, Hu.
  - intros Hn. pose proof (clean_response_fenced body Hn) as Hf.
    split; [exact Hf|]. unfold parse_response. now rewrite Hf, Hu.
Qed.

(** ** ISO timestamps: order and round trip *)

Lemma valid_datetime_ranges d :
  valid_datetime d = true ->
  (1 <= year d <= 9999 /\ 1 <= month d <= 12 /\ 1 <= day d <= 31
   /\ 0 <= hour d < 24 /\ 0 <= minute d < 60 /\ 0 <= second d < 60
   /\ 0 <= microsecond d < 1000000)%Z.
Proof.
  unfold valid_datetime. rewrite !andb_true_iff.
  rewrite !Z.leb_le, !Z.ltb_lt.
  assert (Hdim : (days_in_month (year d) (month d) <= 31)%Z).
  { unfold days_in_month.
    repeat match goal with |- context [if ?b then _ else _] => destruct b end;
      lia. }
  lia.
Qed.

Lemma N_of_digit a :
  (0 <= a < 10)%Z -> N_of_ascii (digit a) = Z.to_N (48 + a).
Proof.
  intros H. unfold digit. apply N_ascii_embedding.
  apply N2Z.inj_lt. rewrite Z2N.id by lia.
  change (Z.of_N 256) with 256%Z. lia.
Qed.

Lemma digit_compare a b :
  (0 <= a < 10)%Z -> (0 <= b < 10)%Z ->
  Ascii.compare (digit a) (digit b) = Z.compare a b.
Proof.
  intros Ha Hb. unfold Ascii.compare. rewrite !N_of_digit by assumption.
  rewrite Z2N.inj_compare by lia. apply Z.add_compare_mono_l.
Qed.

Lemma digit_val_digit a : (0 <= a < 10)%Z -> digit_val (digit a) = Some a.
Proof.
  intros H. unfold digit_val. rewrite N_of_digit by assumption.
  rewrite Z2N.id by lia.
  destruct (Z.leb_spec 48 (48 + a)); [|lia].
  destruct (Z.leb_spec (48 + a) 57); [|lia].
  change (true && true) with true. cbv iota. f_equal. lia.
Qed.

Lemma compare_app_same_length a b x y :
  String.length a = String.length b ->
  String.compare (a ++ x) (b ++ y)
  = lex (String.compare a b) (String.compare x y).
Proof.
  revert b. induction a as [|c a IH]; intros [|c' b] H; cbn in H;
    try discriminate; [reflexivity|].
  cbn. destruct (Ascii.compare c c'); auto.
Qed.

Lemma pad_length w n : String.length (pad w n) = w.
Proof. revert n. induction w as [|w IH]; intros n; cbn; auto. Qed.

Lemma pow10_pos w : (0 < 10 ^ Z.of_nat w)%Z.
Proof. apply Z.pow_pos_nonneg; lia. Qed.

(** Comparing quotient and remainder compares the numbers. *)
Lemma lex_divmod p n m :
  (0 < p)%Z ->
  lex (Z.compare (n / p) (m / p)) (Z.compare (n mod p) (m mod p))
  = Z.compare n m.
Proof.
  intros Hp.
  pose proof (Z.div_mod n p ltac:(lia)) as Hn.
  pose proof (Z.div_mod m p ltac:(lia)) as Hm.
  pose proof (Z.mod_pos_bound n p Hp) as Hrn.
  pose proof (Z.mod_pos_bound m p Hp) as Hrm.
  destruct (Z.compare_spec (n / p) (m / p)) as [E|L|G]; cbn.
  - destruct (Z.compare_spec (n mod p) (m mod p));
      symmetry; [apply Z.compare_eq_iff|apply Z.compare_lt_iff
                |apply Z.compare_gt_iff]; nia.
  - symmetry. apply Z.compare_lt_iff. nia.
  - symmetry. apply Z.compare_gt_iff. nia.
Qed.

Lemma div_pow10_digit w n :
  (0 <= n < 10 ^ Z.of_nat (S w))%Z -> (0 <= n / 10 ^ Z.of_nat w < 10)%Z.
Proof.
  intros H. pose proof (pow10_pos w) as Hp.
  rewrite Nat2Z.inj_succ, Z.pow_succ_r in H by lia.
  split.
  - apply Z.div_pos; lia.
  - apply Z.div_lt_upper_bound; lia.
Qed.

Lemma pad_compare w n m :
  (0 <= n < 10 ^ Z.of_nat w)%Z -> (0 <= m < 10 ^ Z.of_nat w)%Z ->
  String.compare (pad w n) (pad w m) = Z.compare n m.
Proof.
  revert n m. induction w as [|w IH]; intros n m Hn Hm.
  - cbn in *. assert (n = 0 /\ m = 0)%Z as [-> ->] by lia. reflexivity.
  - pose proof (pow10_pos w) as Hp.
    cbn [pad String.compare].
    rewrite digit_compare by now apply div_pow10_digit.
    rewrite IH by (apply Z.mod_pos_bound; assumption).
    rewrite <- (lex_divmod (10 ^ Z.of_nat w) n m Hp).
    now destruct (n / 10 ^ Z.of_nat w ?= m / 10 ^ Z.of_nat w)%Z.
Qed.

Lemma take_digits_pad w acc n rest :
  (0 <= n < 10 ^ Z.of_nat w)%Z ->
  take_digits w acc (pad w n ++ rest)
  = Some ((acc * 10 ^ Z.of_nat w + n)%Z, rest).
Proof.
  revert acc n. induction w as [|w IH]; intros acc n Hn.
  - cbn in *. do 2 f_equal. lia.
  - pose proof (pow10_pos w) as Hp.
    cbn [pad take_digits append].
    rewrite digit_val_digit by now apply div_pow10_digit.
    rewrite IH by (apply Z.mod_pos_bound; assumption).
    do 2 f_equal.
    rewrite Nat2Z.inj_succ, Z.pow_succ_r by lia.
    pose proof (Z.div_mod n (10 ^ Z.of_nat w) ltac:(lia)). nia.
Qed.

Lemma fraction_compare a b :
  (0 <= a < 1000000)%Z -> (0 <= b < 1000000)%Z ->
  String.compare (fraction a) (fraction b) = Z.compare a b.
Proof.
  intros Ha Hb. unfold fraction.
  destruct (Z.eqb_spec a 0) as [->|Na], (Z.eqb_spec b 0) as [->|Nb].
  - reflexivity.
  - cbn [append String.compare]. symmetry. apply Z.compare_lt_iff. lia.
  - cbn [append String.compare]. symmetry. apply Z.compare_gt_iff. lia.
  - cbn [append String.compare].
    change (Ascii.compare "." ".") with Eq. cbv iota.
    apply pad_compare; cbn; lia.
Qed.

Lemma isoformat_pieces d :
  isoformat d
  = (pad 4 (year d) ++ "-" ++ pad 2 (month d) ++ "-" ++ pad 2 (day d) ++ "T"
     ++ pad 2 (hour d) ++ ":" ++ pad 2 (minute d) ++ ":" ++ pad 2 (second d)
     ++ fraction (microsecond d))%string.
Proof. reflexivity. Qed.

(** On valid datetimes the byte order of the ISO text is the order of the
    datetimes. *)
Lemma isoformat_compare a b :
  valid_datetime a = true -> valid_datetime b = true ->
  String.compare (isoformat a) (isoformat b) = dt_compare a b.
Proof.
  intros Ha Hb.
  apply valid_datetime_ranges in Ha, Hb.
  rewrite !isoformat_pieces. unfold dt_compare.
  repeat (rewrite compare_app_same_length
            by (rewrite ?pad_length; reflexivity);
          first [ rewrite pad_compare by (cbn; lia)
                | change (String.compare "-" "-") with Eq
                | change (String.compare "T" "T") with Eq
                | change (String.compare ":" ":") with Eq ];
          cbn [lex]);
    f_equal.
  rewrite fraction_compare by lia. reflexivity.
Qed.

Lemma take_digits_pad_end w n :
  (0 <= n < 10 ^ Z.of_nat w)%Z ->
  take_digits w 0 (pad w n) = Some (n, "").
Proof.
  intros H. rewrite <- (append_empty_r (pad w n)).
  rewrite take_digits_pad by assumption. do 2 f_equal.
Qed.

Lemma take_digits_pad0 w n rest :
  (0 <= n < 10 ^ Z.of_nat w)%Z ->
  take_digits w 0 (pad w n ++ rest) = Some (n, rest).
Proof. intros H. rewrite take_digits_pad by assumption. do 2 f_equal. Qed.

(** [fromisoformat] reads back what [isoformat] wrote. *)
Lemma fromisoformat_isoformat d :
  valid_datetime d = true -> fromisoformat (isoformat d) = Some d.
Proof.
  intros Hv. pose proof (valid_datetime_ranges d Hv) as R.
  unfold fromisoformat. rewrite isoformat_pieces.
  repeat (rewrite take_digits_pad0 by (cbn; lia);
          cbn [obind expect any_char append];
          rewrite ?Ascii.eqb_refl;
          cbn [obind]).
  assert (Hfrac :
    match fraction (microsecond d) with
    | "" => Some 0%Z
    | String _ _ =>
        obind (expect "." (fraction (microsecond d)))
          (fun s => obind (take_digits 6 0 s)
             (fun '(us, s0) =>
                match s0 with "" => Some us | String _ _ => None end))
    end = Some (microsecond d)).
  { unfold fraction. destruct (Z.eqb_spec (microsecond d) 0) as [E|N].
    - now rewrite E.
    - cbn [append expect obind]. rewrite Ascii.eqb_refl. cbn [obind].
      rewrite take_digits_pad_end by (cbn; lia). reflexivity. }
  rewrite Hfrac. cbn [obind].
  destruct d; cbn in *. now rewrite Hv.
Qed.

(** What [fromisoformat] accepts is a valid datetime. *)
Lemma fromisoformat_valid s d :
  fromisoformat s = Some d -> valid_datetime d = true.
Proof.
  unfold fromisoformat.
  repeat match goal with
         | |- obind ?x _ = Some _ -> _ =>
             destruct x as [?|]; cbn [obind]; [|discriminate]
         | |- (let '(_, _) := ?p in _) = Some _ -> _ => destruct p
         end.
  match goal with
  | |- (if ?b then _ else _) = _ -> _ => destruct b eqn:E; [|discriminate]
  end.
  intros H. inversion H; subst. exact E.
Qed.

Lemma iso_stamped_inv doc :
  iso_stamped doc = true ->
  exists t,
    dict_get "saved_at" doc = Some (PStr (isoformat t))
    /\ fromisoformat (isoformat t) = Some t
    /\ valid_datetime t = true.
Proof.
  unfold iso_stamped.
  destruct (dict_get "saved_at" doc) as [[]|]; try discriminate.
  destruct (fromisoformat s) as [t|] eqn:E; [|discriminate].
  intros H. apply String.eqb_eq in H. subst s.
  exists t. repeat split; [assumption|]. now apply fromisoformat_valid in E.
Qed.

(** ** Dicts *)

Lemma dict_get_pop_other k k' d :
  k <> k' -> dict_get k (dict_pop k' d) = dict_get k d.
Proof.
  intros Hne. induction d as [|[k0 v0] d IH]; cbn; [reflexivity|].
  destruct (String.eqb_spec k' k0) as [->|N].
  - apply String.eqb_neq in Hne. now rewrite Hne.
  - cbn. now rewrite IH.
Qed.

Lemma dict_get_set_same k v d : dict_get k (dict_set k v d) = Some v.
Proof.
  induction d as [|[k0 v0] d IH]; cbn.
  - now rewrite String.eqb_refl.
  - destruct (String.eqb_spec k k0) as [->|N]; cbn.
    + now rewrite String.eqb_refl.
    + apply String.eqb_neq in N. now rewrite N.
Qed.

Lemma dict_get_set_other k k' v d :
  k <> k' -> dict_get k (dict_set k' v d) = dict_get k d.
Proof.
  intros Hne. apply String.eqb_neq in Hne.
  induction d as [|[k0 v0] d IH]; cbn.
  - now rewrite Hne.
  - destruct (String.eqb_spec k' k0) as [->|N]; cbn.
    + now rewrite Hne.
    + now rewrite IH.
Qed.

(** ** Loading a stored document *)

Lemma SavedReport_validate_saved_at r t env w sr w' :
  dict_get "saved_at" r = Some (PDatetime t) ->
  SavedReport_validate r env w = (Ok sr, w') ->
  SavedReport.saved_at sr = t.
Proof.
  intros Hget H. unfold SavedReport_validate in H. rewrite Hget in H.
  apply bind_ok_inv in H. destruct H as (id & w1 & _ & H).
  apply bind_ok_inv in H. destruct H as (rd & w2 & _ & H).
  apply bind_ok_inv in H. destruct H as (report & w3 & _ & H).
  unfold bind, lift, ret, validate_datetime in H. now inversion H.
Qed.

Lemma load_report_saved_at doc t env w sr w' :
  dict_get "saved_at" doc = Some (PStr (isoformat t)) ->
  fromisoformat (isoformat t) = Some t ->
  load_report doc env w = (Ok sr, w') ->
  SavedReport.saved_at sr = t.
Proof.
  intros Hget Hparse H. unfold load_report in H.
  assert (Hpop : get_default "saved_at" PNone (dict_pop "_id" doc)
                 = PStr (isoformat t)).
  { unfold get_default. rewrite dict_get_pop_other by discriminate.
    now rewrite Hget. }
  rewrite Hpop in H. unfold parse_iso in H. rewrite Hparse in H.
  apply bind_ok_inv in H. destruct H as (r1 & w1 & Hr1 & H).
  unfold bind, ret in Hr1. inversion Hr1; subst r1 w1; clear Hr1.
  apply bind_ok_inv in H. destruct H as (created_at & w1 & _ & H).
  apply bind_ok_inv in H. destruct H as (r2 & w2 & Hr2 & H).
  eapply SavedReport_validate_saved_at; [|exact H].
  assert (Hset : dict_get "saved_at"
                   (dict_set "saved_at" (PDatetime t) (dict_pop "_id" doc))
                 = Some (PDatetime t)) by apply dict_get_set_same.
  destruct created_at;
    try (unfold ret in Hr2; inversion Hr2; subst; exact Hset).
  destruct (get_default "report_data" _ _);
    try (unfold ret in Hr2; inversion Hr2; subst; exact Hset).
  destruct (fromisoformat s) as [t'|];
    unfold bind, ret, raise in Hr2; inversion Hr2; subst.
  rewrite dict_get_set_other by discriminate. exact Hset.
Qed.

Lemma mapM_ok_inv {A B} (f : A -> M B) l env w r w' :
  mapM f l env w = (Ok r, w') ->
  Forall2 (fun a b => exists w1 w2, f a env w1 = (Ok b, w2)) l r.
Proof.
  revert r w. induction l as [|x l IH]; cbn; intros r w H.
  - unfold ret in H. inversion H. constructor.
  - apply bind_ok_inv in H. destruct H as (y & w1 & Hy & H).
    apply bind_ok_inv in H. destruct H as (ys & w2 & Hys & H).
    unfold ret in H. inversion H; subst.
    constructor; [now exists w, w1|]. eapply IH; eassumption.
Qed.

(** ** The database's [sort("saved_at", -1)] *)

Lemma insert_desc_length field x l :
  List.length (Mongo.insert_desc field x l) = S (List.length l).
Proof.
  induction l as [|y l IH]; cbn; [reflexivity|].
  destruct (Mongo.bson_compare _ _); cbn; auto.
Qed.

Lemma sort_desc_length field l :
  List.length (fold_right (Mongo.insert_desc field) [] l) = List.length l.
Proof.
  induction l as [|x l IH]; cbn; [reflexivity|].
  now rewrite insert_desc_length, IH.
Qed.

Lemma insert_desc_Forall (P : pydict -> Prop) field x l :
  P x -> Forall P l -> Forall P (Mongo.insert_desc field x l).
Proof.
  intros Hx Hl. induction Hl as [|y l Hy Hl IH]; cbn.
  - now constructor.
  - destruct (Mongo.bson_compare _ _); repeat constructor; assumption.
Qed.

Lemma sort_desc_Forall (P : pydict -> Prop) field l :
  Forall P l -> Forall P (fold_right (Mongo.insert_desc field) [] l).
Proof.
  induction 1 as [|x l Hx Hl IH]; cbn; [constructor|].
  now apply insert_desc_Forall.
Qed.

Lemma key_desc_of_lt field x y :
  string_key field x -> string_key field y ->
  Mongo.bson_compare (Mongo.sort_key field x) (Mongo.sort_key field y) = Lt ->
  key_desc field y x.
Proof.
  unfold key_desc. intros [sx Hx] [sy Hy]. rewrite Hx, Hy. cbn.
  rewrite (String.compare_antisym sy sx).
  destruct (String.compare sx sy); cbn; congruence.
Qed.

Lemma insert_desc_hd field z x l :
  key_desc field z x -> HdRel (key_desc field) z l ->
  HdRel (key_desc field) z (Mongo.insert_desc field x l).
Proof.
  intros Hzx Hzl. destruct l as [|y l]; cbn.
  - now constructor.
  - destruct (Mongo.bson_compare _ _); constructor;
      solve [assumption | now inversion Hzl].
Qed.

Lemma insert_desc_sorted field x l :
  string_key field x -> Forall (string_key field) l ->
  Sorted (key_desc field) l ->
  Sorted (key_desc field) (Mongo.insert_desc field x l).
Proof.
  intros Hx Hl Hs. induction Hs as [|y l Hs IH Hhd]; cbn.
  - repeat constructor.
  - inversion Hl as [|? ? Hy Hl']; subst.
    destruct (Mongo.bson_compare _ _) eqn:E.
    + constructor; [now constructor|]. constructor.
      unfold key_desc. now rewrite E.
    + constructor; [now apply IH|].
      apply insert_desc_hd; [|assumption]. now apply key_desc_of_lt.
    + constructor; [now constructor|]. constructor.
      unfold key_desc. now rewrite E.
Qed.

Lemma sort_desc_sorted field l :
  Forall (string_key field) l ->
  Sorted (key_desc field) (fold_right (Mongo.insert_desc field) [] l).
Proof.
  induction 1 as [|x l Hx Hl IH]; cbn; [constructor|].
  apply insert_desc_sorted; [assumption| |assumption].
  now apply sort_desc_Forall.
Qed.

Lemma firstn_sorted {A} (R : A -> A -> Prop) n l :
  Sorted R l -> Sorted R (firstn n l).
Proof.
  revert l. induction n as [|n IH]; intros l Hs; cbn; [constructor|].
  destruct Hs as [|x l Hs Hhd]; [constructor|].
  constructor; [now apply IH|].
  destruct Hhd; destruct n; cbn; now constructor.
Qed.

Lemma firstn_Forall {A} (P : A -> Prop) n l :
  Forall P l -> Forall P (firstn n l).
Proof.
  revert l. induction n as [|n IH]; intros l H; cbn; [constructor|].
  destruct H; constructor; auto.
Qed.

(** Sortedness carries over along a list of related elements. *)
Lemma sorted_transfer {A B} (RA : A -> A -> Prop) (RB : B -> B -> Prop)
  (rel : A -> B -> Prop) la lb :
  (forall a a' b b', rel a b -> rel a' b' -> RA a a' -> RB b b') ->
  Forall2 rel la lb -> Sorted RA la -> Sorted RB lb.
Proof.
  intros Hstep H2. induction H2 as [|a b la lb Hab H2 IH]; intros Hs.
  - constructor.
  - inversion Hs as [|? ? Hs' Hhd]; subst.
    constructor; [now apply IH|].
    destruct H2 as [|a' b' la lb Hab' H2]; constructor.
    inversion Hhd; subst. eapply Hstep; eassumption.
Qed.

(** ** C8: the listing is sorted, most recent first *)

Lemma durable_list_ok_inv env w l w' :
  durable_list env w = (Ok l, w') ->
  exists m w1,
    db w = Some m
    /\ mapM load_report (Mongo.find_sort_desc "saved_at" 100 m) env w1
       = (Ok l, w').
Proof.
  unfold durable_list. intros H.
  apply bind_ok_inv in H. destruct H as (m & w1 & Hm & H).
  apply bind_ok_inv in H. destruct H as ([] & w2 & _ & H).
  exists m, w2. split; [|exact H].
  unfold db_reports in Hm. destruct (db w); inversion Hm. reflexivity.
Qed.

Lemma iso_stamped_string_key doc :
  iso_stamped doc = true -> string_key "saved_at" doc.
Proof.
  intros H. destruct (iso_stamped_inv doc H) as (t & Hget & _).
  exists (isoformat t). unfold Mongo.sort_key. now rewrite Hget.
Qed.

Lemma Forall2_with_Forall {A B} (P : A -> Prop) (R : A -> B -> Prop) la lb :
  Forall P la -> Forall2 R la lb -> Forall2 (fun a b => P a /\ R a b) la lb.
Proof.
  intros HP H2. induction H2; inversion HP; subst; constructor; auto.
Qed.

(** Stamped documents in descending key order load to reports in
    descending [saved_at] order. *)
Lemma loaded_newer_first env a a' b b' :
  (iso_stamped a = true /\ exists w1 w2, load_report a env w1 = (Ok b, w2)) ->
  (iso_stamped a' = true
   /\ exists w1 w2, load_report a' env w1 = (Ok b', w2)) ->
  key_desc "saved_at" a a' -> newer_first b b'.
Proof.
  intros [Ha (w1 & w2 & Hb)] [Ha' (w1' & w2' & Hb')] Hdesc.
  destruct (iso_stamped_inv a Ha) as (t & Hget & Hparse & Hv).
  destruct (iso_stamped_inv a' Ha') as (t' & Hget' & Hparse' & Hv').
  pose proof (load_report_saved_at _ _ _ _ _ _ Hget Hparse Hb) as E.
  pose proof (load_report_saved_at _ _ _ _ _ _ Hget' Hparse' Hb') as E'.
  subst t t'.
  unfold key_desc, Mongo.sort_key in Hdesc. rewrite Hget, Hget' in Hdesc.
  cbn in Hdesc. rewrite isoformat_compare in Hdesc by assumption.
  unfold newer_first, dt_leb.
  rewrite (dt_compare_antisym (SavedReport.saved_at b)
             (SavedReport.saved_at b')).
  now destruct (dt_compare (SavedReport.saved_at b) (SavedReport.saved_at b')).
Qed.

Lemma durable_list_sorted env w l w' :
  stamped w = true ->
  durable_list env w = (Ok l, w') ->
  Sorted newer_first l
  /\ forall m, db w = Some m ->
       List.length l = Nat.min 100 (List.length (Mongo.reports m)).
Proof.
  intros Hst H. apply durable_list_ok_inv in H.
  destruct H as (m & w1 & Hm & H).
  unfold stamped in Hst. rewrite Hm in Hst.
  rewrite forallb_forall in Hst. apply Forall_forall in Hst.
  pose proof (mapM_ok_inv _ _ _ _ _ _ H) as H2.
  unfold Mongo.find_sort_desc in *. split.
  - eapply sorted_transfer.
    + intros a a' b b'. apply loaded_newer_first.
    + apply Forall2_with_Forall; [|exact H2].
      apply firstn_Forall, sort_desc_Forall, Hst.
    + apply firstn_sorted, sort_desc_sorted.
      eapply Forall_impl; [|exact Hst].
      intros doc. apply iso_stamped_string_key.
  - intros m' Hm'. assert (m' = m) by congruence. subst m'.
    rewrite <- (Forall2_length H2).
    now rewrite length_firstn, sort_desc_length.
Qed.

(** In a state whose stored documents carry an ISO timestamp, whoever wrote
    them, every listing is in descending [saved_at] order. *)
Lemma get_reports_sorted_stamped :
  forall env w,
    stamped w = true ->
    exists l w',
      get_reports env w = (Ok l, w')
      /\ status_of (fst (get_reports env w)) = 200
      /\ Sorted newer_first l
      /\ (memory_sourced env w -> Permutation l (MEMORY_REPORTS w))
      /\ (durable_sourced env w ->
          List.length l <= 100
          /\ forall m, db w = Some m ->
               List.length l = Nat.min 100 (List.length (Mongo.reports m))).
Proof.
  intros env w Hst. rewrite get_reports_run.
  destruct (USE_MONGODB w && is_some (db w)) eqn:Hsel.
  - destruct (durable_list env w) as [[l|e] w'] eqn:Hd.
    + destruct (durable_list_sorted env w l w' Hst Hd) as [Hsorted Hlen].
      exists l, w'.
      split; [reflexivity|]. split; [reflexivity|].
      split; [exact Hsorted|]. split.
      * intros [Hoff|[e He]]; [congruence|].
        rewrite Hd in He. discriminate.
      * intros _. split; [|exact Hlen].
        destruct (db w) as [m|] eqn:Hm; [|now rewrite andb_false_r in Hsel].
        rewrite (Hlen m eq_refl). apply Nat.le_min_l.
    + exists (sorted_by_saved_at_desc (MEMORY_REPORTS w)), w'.
      split; [reflexivity|]. split; [reflexivity|].
      split; [apply sorted_by_saved_at_desc_sorted|]. split.
      * intros _. apply sorted_by_saved_at_desc_perm.
      * intros [_ [l Hl]]. rewrite Hd in Hl. discriminate.
  - exists (sorted_by_saved_at_desc (MEMORY_REPORTS w)), w.
    split; [reflexivity|]. split; [reflexivity|].
    split; [apply sorted_by_saved_at_desc_sorted|]. split.
    + intros _. apply sorted_by_saved_at_desc_perm.
    + intros [Hsel' _]. congruence.
Qed.

(** ** POST /compare-reports: fetching and grouping *)











(** ** C5: comparison *)


(** ** The stamp invariant is kept by the handlers that write *)

Lemma mongo_save_run env w s :
  mongo_save s env w
  = match db w with
    | None => (Raise (AttributeError "NoneType" "reports"), w)
    | Some m =>
        let w1 := mk_world (USE_MONGODB w) (db w) (MEMORY_REPORTS w)
                    (llm_calls w) (uuid_draws w) (clock_reads w)
                    (S (db_ops w)) in
        match db_fault env (db_ops w) with
        | Some e => (Raise e, w1)
        | None =>
            (Ok tt,
             set_db
               (Mongo.insert_one
                  [("id", PStr (SavedReport.id s));
                   ("report_data",
                    PDict
                      (dict_set "created_at"
                         (PStr (isoformat
                                  (AnalyzedReport.created_at
                                     (SavedReport.report_data s))))
                         (AnalyzedReport_model_dump
                            (SavedReport.report_data s))));
                   ("saved_at", PStr (isoformat (SavedReport.saved_at s)))]
                  m) w1)
        end
    end.
Proof.
  unfold mongo_save, bind, lift, db_reports, db_await, modify. cbn.
  destruct (db w) as [m|] eqn:Hm; [|reflexivity].
  rewrite <- Hm.
  now destruct (db_fault env (db_ops w)).
Qed.

Lemma insert_one_stamped doc m :
  iso_stamped doc = true ->
  forallb iso_stamped (Mongo.reports m) = true ->
  forallb iso_stamped (Mongo.reports (Mongo.insert_one doc m)) = true.
Proof.
  intros Hdoc Hm. unfold Mongo.insert_one. cbn [Mongo.reports].
  rewrite forallb_app, Hm. cbn. rewrite andb_true_r.
  destruct (dict_get "_id" doc) eqn:E; [exact Hdoc|].
  unfold iso_stamped in *.
  now rewrite dict_get_set_other by discriminate.
Qed.

(** [save_report] keeps every stored document stamped, the clock giving
    valid datetimes. *)
Lemma save_report_stamped env w report :
  valid_datetime (utcnow env (clock_reads w)) = true ->
  stamped w = true ->
  stamped (snd (save_report report env w)) = true.
Proof.
  intros Hv Hst. rewrite save_report_run. cbv zeta.
  destruct (USE_MONGODB w && is_some (db w)); [|exact Hst].
  rewrite mongo_save_run. unfold stamped in *. cbn [db after_init].
  destruct (db w) as [m|] eqn:Hm.
  - destruct (db_fault env _); cbn; rewrite ?Hm; [exact Hst|].
    rewrite forallb_app, Hst. unfold iso_stamped. cbn.
    rewrite fromisoformat_isoformat by assumption.
    now rewrite String.eqb_refl.
  - cbn. now rewrite Hm.
Qed.

Lemma remove_first_forallb (P f : pydict -> bool) l :
  forallb P l = true -> forallb P (fst (Mongo.remove_first f l)) = true.
Proof.
  induction l as [|d l IH]; cbn; [reflexivity|].
  rewrite andb_true_iff. intros [Hd Hl].
  destruct (f d); [exact Hl|].
  destruct (Mongo.remove_first f l) as [r n]. cbn in *.
  now rewrite Hd, IH.
Qed.

Lemma delete_report_stamped env w report_id :
  stamped w = true ->
  stamped (snd (delete_report report_id env w)) = true.
Proof.
  intros Hst. unfold delete_report, http_guard, try_except.
  unfold bind, get_world, db_reports, db_await, modify, not_found, raise, ret.
  destruct (USE_MONGODB w).
  - unfold stamped in *. destruct (db w) as [m|] eqn:Hm.
    + destruct (db_fault env (db_ops w)) as [e|];
        [destruct e; cbn; now rewrite Hm|].
      unfold Mongo.delete_one.
      pose proof (remove_first_forallb iso_stamped
                    (Mongo.matches_id report_id) _ Hst) as Hrm.
      destruct (Mongo.remove_first _ (Mongo.reports m)) as [r n].
      cbn [fst] in Hrm.
      destruct (n =? 0)%nat; cbn; exact Hrm.
    + cbn. now rewrite Hm.
  - destruct (memory_pop report_id (MEMORY_REPORTS w)); cbn; exact Hst.
Qed.

Lemma startup_stamped url : stamped (startup url (Ok (Mongo.mk [] 0))) = true.
Proof.
  destruct url as [url|]; [|reflexivity]. cbn.
  now destruct (url =? "")%string.
Qed.

(** ** Handlers that only read the stored collections *)

Lemma preserves_try_except {A} (body : M A) handler :
  preserves body -> (forall e, preserves (handler e)) ->
  preserves (try_except body handler).
Proof.
  intros Hb Hh env w. unfold try_except. specialize (Hb env w).
  destruct (body env w) as [[a|e] w1]; cbn in *; [assumption|].
  eapply same_store_trans; [eassumption|apply Hh].
Qed.

Lemma preserves_http_guard {A} (body : M A) :
  preserves body -> preserves (http_guard body).
Proof.
  intros Hb. apply preserves_try_except; [assumption|].
  intros []; apply preserves_raise.
Qed.

Lemma preserves_guard_500 {A} (body : M A) :
  preserves body -> preserves (guard_500 body).
Proof.
  intros Hb. apply preserves_try_except; [assumption|].
  intros e. apply preserves_raise.
Qed.

Lemma preserves_attempt {A} (body : M A) :
  preserves body -> preserves (attempt body).
Proof.
  intros Hb env w. unfold attempt. specialize (Hb env w).
  now destruct (body env w).
Qed.

Lemma preserves_send_message c : preserves (send_message c).
Proof. intros env w. now unfold same_store. Qed.

Lemma preserves_ask : preserves ask.
Proof. intros env w. apply same_store_refl. Qed.

Lemma preserves_get_world : preserves get_world.
Proof. intros env w. apply same_store_refl. Qed.

#[local] Hint Resolve preserves_send_message preserves_ask
  preserves_get_world preserves_durable_list : store.

Ltac preserve_handler :=
  repeat first
    [ solve [auto with store]
    | apply preserves_http_guard
    | apply preserves_guard_500
    | apply preserves_try_except; [|intros ?]
    | apply preserves_attempt
    | apply preserves_mapM; intros ?
    | apply preserves_foldM; intros ? ?
    | apply preserves_bind; [|intros ?]
    | match goal with
      | |- preserves (match ?x with _ => _ end) => destruct x
      | |- preserves (if ?x then _ else _) => destruct x
      end ].

Lemma preserves_analyze_medical_report image language :
  preserves (analyze_medical_report image language).
Proof. unfold analyze_medical_report. preserve_handler. Qed.

#[local] Hint Resolve preserves_analyze_medical_report : store.

Lemma preserves_analyze_report request : preserves (analyze_report request).
Proof. unfold analyze_report, parameter_of. preserve_handler. Qed.

Lemma preserves_get_reports : preserves get_reports.
Proof. unfold get_reports, memory_sorted. preserve_handler. Qed.

Lemma preserves_get_report report_id : preserves (get_report report_id).
Proof. unfold get_report, not_found. preserve_handler. Qed.

Lemma preserves_compare_reports request :
  preserves (compare_reports request).
Proof.
  unfold compare_reports, fetch_report, add_report, add_param.
  preserve_handler.
Qed.

Lemma same_store_stamped w w' :
  same_store w w' -> stamped w = true -> stamped w' = true.
Proof. intros (_ & Hdb & _). unfold stamped. now rewrite Hdb. Qed.

(** Every request keeps the stored documents stamped, the clock giving
    valid datetimes. *)
Lemma handle_stamped env q w :
  (forall n, valid_datetime (utcnow env n) = true) ->
  stamped w = true -> stamped (handle q env w) = true.
Proof.
  intros Hclock Hst. destruct q; cbn [handle].
  - eapply same_store_stamped; [apply preserves_analyze_report|assumption].
  - now apply save_report_stamped.
  - eapply same_store_stamped; [apply preserves_get_reports|assumption].
  - eapply same_store_stamped; [apply preserves_get_report|assumption].
  - now apply delete_report_stamped.
  - eapply same_store_stamped; [apply preserves_compare_reports|assumption].
Qed.

Lemma reachable_stamped env w0 w :
  (forall n, valid_datetime (utcnow env n) = true) ->
  stamped w0 = true -> reachable env w0 w -> stamped w = true.
Proof.
  intros Hclock Hst Hreach. induction Hreach as [|w q Hreach IH];
    [assumption|]. now apply handle_stamped.
Qed.

(** From a start with an empty collection, every listing of every
    reachable state is in descending [saved_at] order. *)
Corollary reachable_listing_sorted env url w :
  (forall n, valid_datetime (utcnow env n) = true) ->
  reachable env (startup url (Ok (Mongo.mk [] 0))) w ->
  exists l w', get_reports env w = (Ok l, w') /\ Sorted newer_first l.
Proof.
  intros Hclock Hreach.
  assert (Hst : stamped w = true).
  { eapply reachable_stamped; [exact Hclock|apply startup_stamped|exact Hreach]. }
  rewrite get_reports_run.
  destruct (USE_MONGODB w && is_some (db w)).
  - destruct (durable_list env w) as [[l|e] w'] eqn:Hd.
    + exists l, w'. split; [reflexivity|].
      now apply (durable_list_sorted env w l w' Hst Hd).
    + eexists _, _. split; [reflexivity|].
      apply sorted_by_saved_at_desc_sorted.
  - eexists _, _. split; [reflexivity|].
    apply sorted_by_saved_at_desc_sorted.
Qed.

(** * The theorems at work on sample requests *)

Lemma analyze_report_empty_image_witness :
  ReportAnalysisRequest.image_base64 empty_request = ""
  /\ analyze_report empty_request (sample_env "{}") memory_world
     = (Raise (HTTPException 400 "No image provided"), memory_world)
  /\ llm_calls (snd (analyze_report empty_request (sample_env "{}")
                       memory_world)) = [].
Proof.
  split; [reflexivity|].
  destruct (analyze_report_empty_image (sample_env "{}") memory_world
              empty_request eq_refl) as (H1 & _ & H3).
  split; [exact H1|exact H3].
Defined.


Lemma compare_reports_without_db_witness :
  (db memory_two = None
   /\ 2 <= List.length (CompareReportsRequest.report_ids sample_compare))
  /\ List.length (MEMORY_REPORTS memory_two) = 2
  /\ status_of (fst (compare_reports sample_compare (sample_env "{}")
                       memory_two)) = 500.
Proof.
  assert (Hlen : 2 <= List.length
                        (CompareReportsRequest.report_ids sample_compare))
    by (cbn; lia).
  split; [split; [reflexivity|exact Hlen]|].
  split; [reflexivity|].
  exact (proj2 (compare_reports_without_db (sample_env "{}") memory_two
                  sample_compare eq_refl Hlen)).
Defined.

Lemma save_report_falls_back_to_memory_witness :
  (USE_MONGODB mongo_world = true
   /\ db mongo_world <> None
   /\ db_fault outage_env (db_ops mongo_world) = Some outage)
  /\ fst (save_report (blood_report "14.5" "normal") outage_env mongo_world)
     = Ok (new_saved_report outage_env mongo_world
             (blood_report "14.5" "normal"))
  /\ exists l,
       fst (get_reports outage_env
              (snd (save_report (blood_report "14.5" "normal") outage_env
                      mongo_world))) = Ok l
       /\ In (new_saved_report outage_env mongo_world
                (blood_report "14.5" "normal")) l.
Proof.
  assert (Hdb : db mongo_world <> None) by discriminate.
  split; [split; [reflexivity|split; [exact Hdb|reflexivity]]|].
  pose proof (save_report_falls_back_to_memory outage_env mongo_world
                (blood_report "14.5" "normal") outage eq_refl Hdb eq_refl)
    as H.
  cbv zeta in H. destruct H as (H1 & _ & H3 & _ & H5).
  split; [exact H1|]. apply H5.
  - rewrite H3. apply in_or_app. right. left. reflexivity.
  - right. exists outage. vm_compute. reflexivity.
Defined.

Lemma delete_report_twice_witness :
  (stored_count "uuid-0" mongo_one = 1
   /\ (USE_MONGODB mongo_one = true ->
       db_fault (sample_env "{}") (db_ops mongo_one) = None
       /\ db_fault (sample_env "{}") (S (db_ops mongo_one)) = None))
  /\ fst (delete_report "uuid-0" (sample_env "{}") mongo_one)
     = Ok deleted_message
  /\ stored_count "uuid-0"
       (snd (delete_report "uuid-0" (sample_env "{}") mongo_one)) = 0
  /\ fst (delete_report "uuid-0" (sample_env "{}")
            (snd (delete_report "uuid-0" (sample_env "{}") mongo_one)))
     = Raise (HTTPException 404 "Report not found").
Proof.
  assert (Hf : USE_MONGODB mongo_one = true ->
               db_fault (sample_env "{}") (db_ops mongo_one) = None
               /\ db_fault (sample_env "{}") (S (db_ops mongo_one)) = None)
    by (intros _; split; reflexivity).
  assert (Hone : stored_count "uuid-0" mongo_one = 1)
    by (vm_compute; reflexivity).
  split; [split; assumption|].
  pose proof (delete_report_twice (sample_env "{}") mongo_one "uuid-0"
                Hone Hf) as H.
  cbv zeta in H. destruct H as (H1 & _ & H3 & H4 & _).
  repeat split; assumption.
Defined.

Lemma analyze_report_image_reference_witness :
  exists r w',
    analyze_report sample_request (sample_env "{}") memory_world = (Ok r, w')
    /\ String.length (ReportAnalysisRequest.image_base64 sample_request) = 120
    /\ AnalyzedReport.image_base64 r
       = Some "iVBORw0KGgoAAAANSUhEUgAAAAEAAAABCAYAAAAfFcSJAAAADUlEQVR42mP8/5+hHgAHggJ/PchI7wAAAABJRU5ErkJggg==iVBO...".
Proof.
  destruct (analyze_report sample_request (sample_env "{}") memory_world)
    as [[r|e] w'] eqn:E.
  - exists r, w'. split; [reflexivity|]. split; [reflexivity|].
    pose proof (analyze_report_image_reference _ _ _ _ _ E) as H.
    cbv zeta in H. destruct H as (H1 & _). rewrite H1. reflexivity.
  - vm_compute in E. discriminate E.
Defined.

Lemma clean_response_fenced_block_witness :
  (PyStr.startswith (PyStr.strip sample_body) fence = false
   /\ PyStr.endswith (PyStr.strip sample_body) fence = false)
  /\ clean_response (fenced_json sample_body) = "{}"
  /\ parse_response (sample_env "") (fenced_json sample_body)
     = parse_response (sample_env "") sample_body
  /\ parse_response (sample_env "") (fenced sample_body)
     = parse_response (sample_env "") sample_body.
Proof.
  split; [split; reflexivity|].
  destruct (clean_response_fenced_block (sample_env "") sample_body
              eq_refl eq_refl) as (_ & H2 & H3 & H4).
  split; [rewrite H2; reflexivity|].
  split; [exact H3|]. exact (proj2 (H4 eq_refl)).
Defined.


(** * Worked examples *)

Example clean_plain : clean_response ("  {}" ++ nl)%string = "{}".
Proof. reflexivity. Qed.

Example clean_json_fence :
  clean_response ("```json" ++ nl ++ "{}" ++ nl ++ "```")%string = "{}".
Proof. reflexivity. Qed.

Example clean_bare_fence :
  clean_response ("```" ++ nl ++ "{}" ++ nl ++ "```" ++ nl)%string = "{}".
Proof. reflexivity. Qed.

(** Another tag than "json" stays in the text. *)
Example clean_python_tag :
  clean_response ("```python" ++ nl ++ "{}```")%string
  = ("python" ++ nl ++ "{}")%string.
Proof. reflexivity. Qed.

(** Save, then list, in memory: one entry, with the title of the report. *)
Example save_then_list :
  let w := snd (save_report (blood_report "14.5" "normal") (sample_env "{}")
                  memory_world) in
  match fst (get_reports (sample_env "{}") w) with
  | Ok [s] =>
      AnalyzedReport.title (SavedReport.report_data s)
      = "Complete Blood Count Report"
  | _ => False
  end.
Proof. vm_compute. reflexivity. Qed.

(** A report that fell back to memory is not listed once the database
    answers again, and cannot be deleted through the database. *)
Example fallback_not_reconciled :
  let w := snd (save_report (blood_report "14.5" "normal") flaky_env
                  mongo_world) in
  List.length (MEMORY_REPORTS w) = 1
  /\ fst (get_reports flaky_env w) = Ok []
  /\ fst (delete_report "uuid-0" flaky_env w)
     = Raise (HTTPException 404 "Report not found").
Proof. vm_compute. repeat split. Qed.

(** An image of at most 100 characters is kept whole, before the marker. *)
Example short_image_reference :
  match fst (analyze_report short_request (sample_env "{}") memory_world) with
  | Ok r => AnalyzedReport.image_base64 r = Some "aGVsbG8=..."
  | Raise _ => False
  end.
Proof. vm_compute. reflexivity. Qed.

(** A field of another type than the schema's is not defaulted: the
    validation error becomes a 500. *)
Example numeric_value_rejected :
  status_of (fst (analyze_report sample_request numeric_env memory_world))
  = 500.
Proof. vm_compute. reflexivity. Qed.

(** The two listings of [mongo_two] and [memory_two] agree on the order. *)
Example listings_agree :
  match fst (get_reports (sample_env "{}") mongo_two),
        fst (get_reports (sample_env "{}") memory_two) with
  | Ok l1, Ok l2 => map SavedReport.id l1 = map SavedReport.id l2
  | _, _ => False
  end.
Proof. vm_compute. reflexivity. Qed.

(** The timeline follows the order of the request, not the dates. *)
Example compare_keeps_request_order :
  match fst (compare_reports reversed_compare (sample_env "{}") mongo_two) with
  | Ok cmp =>
      map TrendEntry.value
        (trend_lookup (PStr "Hemoglobin") (Comparison.parameter_trends cmp))
      = [PStr "11.0"; PStr "14.5"]
  | Raise _ => False
  end.
Proof. vm_compute. reflexivity. Qed.

(** * Further properties of the handlers *)

(** ** Which errors a handler can raise *)

Section Codes.

Variable env : Env.
Variable codes : list nat.

Lemma codes_ret {A} (a : A) : http_codes env codes (ret a).
Proof. intros w. exact I. Qed.

Lemma codes_raise_http {A} c d :
  In c codes -> http_codes env codes (@raise A (HTTPException c d)).
Proof. intros H w. exact H. Qed.

Lemma codes_raise_py {A} cls msg :
  http_codes env codes (@raise A (PyError cls msg)).
Proof. intros w. exact I. Qed.

Lemma codes_lift {A} (r : Result A) :
  no_http r -> http_codes env codes (lift r).
Proof. intros H w. cbn. now destruct r as [a|[]]. Qed.

Lemma codes_bind {A B} (m : M A) (k : A -> M B) :
  http_codes env codes m -> (forall a, http_codes env codes (k a)) ->
  http_codes env codes (bind m k).
Proof.
  intros Hm Hk w. unfold bind. specialize (Hm w).
  destruct (m env w) as [[a|e] w1]; cbn in *; [apply Hk|exact Hm].
Qed.

Lemma codes_try_except {A} (body : M A) handler :
  (forall e, http_codes env codes (handler e)) ->
  http_codes env codes (try_except body handler).
Proof.
  intros Hh w. unfold try_except.
  destruct (body env w) as [[a|e] w1]; cbn; [exact I|apply Hh].
Qed.

Lemma codes_attempt {A} (body : M A) : http_codes env codes (attempt body).
Proof. intros w. unfold attempt. now destruct (body env w). Qed.

Lemma codes_mapM {A B} (f : A -> M B) l :
  (forall a, http_codes env codes (f a)) -> http_codes env codes (mapM f l).
Proof.
  intros Hf. induction l as [|x l IH]; cbn; [apply codes_ret|].
  apply codes_bind; [apply Hf|]. intros y.
  apply codes_bind; [apply IH|]. intros ys. apply codes_ret.
Qed.

Lemma codes_foldM {A B} (f : B -> A -> M B) l :
  (forall b a, http_codes env codes (f b a)) ->
  forall acc, http_codes env codes (foldM f l acc).
Proof.
  intros Hf. induction l as [|x l IH]; intros acc; cbn; [apply codes_ret|].
  apply codes_bind; [apply Hf|]. intros b. apply IH.
Qed.

Lemma codes_get_world : http_codes env codes get_world.
Proof. intros w. exact I. Qed.

Lemma codes_ask : http_codes env codes ask.
Proof. intros w. exact I. Qed.

Lemma codes_modify f : http_codes env codes (modify f).
Proof. intros w. exact I. Qed.

Lemma codes_draw_uuid4 : http_codes env codes draw_uuid4.
Proof. intros w. exact I. Qed.

Lemma codes_read_utcnow : http_codes env codes read_utcnow.
Proof. intros w. exact I. Qed.

Lemma codes_db_reports : http_codes env codes db_reports.
Proof. intros w. unfold db_reports. now destruct (db w). Qed.

Lemma codes_db_await : driver_errors env -> http_codes env codes db_await.
Proof.
  intros Hd w. unfold db_await.
  destruct (db_fault env (db_ops w)) as [[c d| |]|] eqn:E; cbn; auto.
  now destruct (Hd _ _ _ E).
Qed.

End Codes.

Lemma no_http_py_get v k d : no_http (py_get v k d).
Proof. now destruct v. Qed.

Lemma no_http_py_iter v : no_http (py_iter v).
Proof. now destruct v. Qed.

Lemma no_http_validate_str m f v : no_http (validate_str m f v).
Proof. now destruct v. Qed.

Lemma no_http_validate_opt_str m f v : no_http (validate_opt_str m f v).
Proof. now destruct v. Qed.

Lemma no_http_validate_list_str m f v : no_http (validate_list_str m f v).
Proof. destruct v; cbn; auto. now destruct (all_str l). Qed.

Lemma no_http_validate_opt_list_str m f v :
  no_http (validate_opt_list_str m f v).
Proof.
  unfold validate_opt_list_str.
  pose proof (no_http_validate_list_str m f v) as H.
  destruct v; cbn in *; auto.
  now destruct (all_str l).
Qed.

Lemma no_http_validate_datetime m f v : no_http (validate_datetime m f v).
Proof. destruct v; cbn; auto. now destruct (fromisoformat s). Qed.

Create HintDb codes.

#[local] Hint Resolve codes_ret codes_raise_py codes_get_world codes_ask
  codes_modify codes_draw_uuid4 codes_read_utcnow codes_db_reports
  codes_db_await codes_attempt no_http_py_get no_http_py_iter
  no_http_validate_str no_http_validate_opt_str no_http_validate_list_str
  no_http_validate_opt_list_str no_http_validate_datetime : codes.

Ltac codes_step :=
  first
    [ solve [auto with codes]
    | apply codes_raise_http; cbn; tauto
    | apply codes_lift; solve [auto with codes]
    | apply codes_try_except; intros ?
    | apply codes_mapM; intros ?
    | apply codes_foldM; intros ? ?
    | apply codes_bind; [|intros ?]
    | match goal with
      | |- http_codes _ _ (match ?x with _ => _ end) => destruct x
      | |- http_codes _ _ (if ?x then _ else _) => destruct x
      | |- http_codes _ _ (let '(_, _) := ?x in _) => destruct x
      end ].

Ltac codes := repeat codes_step.

Lemma answers_http_guard {A} env codes (body : M A) :
  In 500 codes -> http_codes env codes body ->
  answers env codes (http_guard body).
Proof.
  intros H500 Hb w. unfold http_guard, try_except. specialize (Hb w).
  destruct (body env w) as [[a|[c d|m|cls m]] w1]; cbn in *; auto.
Qed.

Lemma codes_analyze_medical_report env image language :
  http_codes env [400; 500] (analyze_medical_report image language).
Proof. unfold analyze_medical_report. codes. Qed.

#[local] Hint Resolve codes_analyze_medical_report : codes.

Lemma codes_HealthParameter_init env cs a b c d e f g :
  http_codes env cs (HealthParameter_init a b c d e f g).
Proof. unfold HealthParameter_init. codes. Qed.

Lemma codes_AnalyzedReport_init env cs a b c d e f g h i j k :
  http_codes env cs (AnalyzedReport_init a b c d e f g h i j k).
Proof. unfold AnalyzedReport_init. codes. Qed.

#[local] Hint Resolve codes_HealthParameter_init codes_AnalyzedReport_init
  : codes.

Lemma codes_load_report env cs r : http_codes env cs (load_report r).
Proof.
  unfold load_report, SavedReport_validate, AnalyzedReport_validate,
    HealthParameter_validate, required, parse_iso, ValidationError.
  codes.
Qed.

#[local] Hint Resolve codes_load_report : codes.

(** ** X1: the status codes of the endpoints that can fail *)

Lemma answers_analyze_report env request :
  answers env [400; 500] (analyze_report request).
Proof.
  unfold analyze_report. apply answers_http_guard; [cbn; tauto|].
  unfold parameter_of. codes.
Qed.

Lemma answers_get_report env report_id :
  driver_errors env -> answers env [404; 500] (get_report report_id).
Proof.
  intros Hd. unfold get_report. apply answers_http_guard; [cbn; tauto|].
  unfold not_found. codes.
Qed.

Lemma answers_delete_report env report_id :
  driver_errors env -> answers env [404; 500] (delete_report report_id).
Proof.
  intros Hd. unfold delete_report. apply answers_http_guard; [cbn; tauto|].
  unfold not_found. codes.
Qed.

Lemma answers_compare_reports env request :
  driver_errors env -> answers env [400; 404; 500] (compare_reports request).
Proof.
  intros Hd. unfold compare_reports. apply answers_http_guard; [cbn; tauto|].
  unfold fetch_report, add_report, add_param. codes.
Qed.

(** X1.  Whatever the provider, the parser and the database do (the driver
    raising errors of its own kind), an endpoint returns or raises an
    [HTTPException]: no other exception leaves a handler.  The codes are 400
    or 500 for the analysis, 404 or 500 for reading and deleting one report,
    400, 404 or 500 for the comparison. *)
Theorem handlers_answer :
  forall env,
    driver_errors env ->
    (forall request, answers env [400; 500] (analyze_report request))
    /\ (forall report_id, answers env [404; 500] (get_report report_id))
    /\ (forall report_id, answers env [404; 500] (delete_report report_id))
    /\ (forall request,
          answers env [400; 404; 500] (compare_reports request)).
Proof.
  intros env Hd. repeat split; intros x.
  - apply answers_analyze_report.
  - now apply answers_get_report.
  - now apply answers_delete_report.
  - now apply answers_compare_reports.
Qed.

Lemma outage_env_driver_errors : driver_errors outage_env.
Proof. intros n c d. discriminate. Qed.

Lemma handlers_answer_witness :
  driver_errors outage_env
  /\ status_of (fst (get_report "uuid-0" outage_env mongo_world)) = 500
  /\ answers outage_env [404; 500] (delete_report "uuid-0").
Proof.
  split; [exact outage_env_driver_errors|].
  split; [reflexivity|].
  exact (proj1 (proj2 (proj2
           (handlers_answer outage_env outage_env_driver_errors))) "uuid-0").
Defined.

(** ** X2: saving always succeeds and stores the entity once *)

(** X2.  [save_report] answers 200 with the entity it built in every state.
    When the database is selected and its round trip answers, the
    collection gains one document that carries the entity's identifier and
    the in-memory list is unchanged; in every other case the in-memory list
    gains the entity and the database is unchanged.  The entity is never
    stored twice. *)
Theorem save_report_stores_once :
  forall env w report,
    let saved := new_saved_report env w report in
    let w' := snd (save_report report env w) in
    fst (save_report report env w) = Ok saved
    /\ (forall m,
          USE_MONGODB w = true -> db w = Some m ->
          db_fault env (db_ops w) = None ->
          MEMORY_REPORTS w' = MEMORY_REPORTS w
          /\ exists doc,
               db w' = Some (Mongo.insert_one doc m)
               /\ dict_get "id" doc = Some (PStr (SavedReport.id saved))
               /\ dict_get "saved_at" doc
                  = Some (PStr (isoformat (SavedReport.saved_at saved))))
    /\ (USE_MONGODB w && is_some (db w) = false
        \/ db_fault env (db_ops w) <> None ->
        db w' = db w /\ MEMORY_REPORTS w' = MEMORY_REPORTS w ++ [saved]).
Proof.
  intros env w report saved w'. subst w'.
  rewrite save_report_run. cbv zeta. fold saved.
  rewrite mongo_save_run. cbn [db after_init db_ops].
  destruct (USE_MONGODB w) eqn:Hu; cbn [andb].
  - destruct (db w) as [m|] eqn:Hm; cbn [is_some].
    + destruct (db_fault env (db_ops w)) as [e|] eqn:Hf; cbn.
      * split; [reflexivity|]. split; [discriminate|].
        intros _. now rewrite ?Hm.
      * split; [reflexivity|]. split.
        -- intros m' _ Em _. inversion Em; subst m'.
           split; [reflexivity|]. eexists. split; [reflexivity|].
           split; reflexivity.
        -- intros [H|H]; [discriminate|congruence].
    + cbn. split; [reflexivity|]. split; [discriminate|].
      intros _. now rewrite ?Hm.
  - cbn. split; [reflexivity|]. split; [discriminate|]. now intros _.
Qed.

(** ** X3: listing never fails *)

(** X3.  [get_reports] answers 200 in every state and leaves the stored
    collections as they are; when the database is not selected, or its read
    raises (the server is down, a stored document cannot be read back), the
    answer is the in-memory list in descending [saved_at] order. *)
Theorem get_reports_never_fails :
  forall env w,
    exists l,
      fst (get_reports env w) = Ok l
      /\ same_store w (snd (get_reports env w))
      /\ (memory_sourced env w ->
          l = sorted_by_saved_at_desc (MEMORY_REPORTS w)).
Proof.
  intros env w. pose proof (preserves_get_reports env w) as Hst.
  rewrite get_reports_run in *.
  destruct (USE_MONGODB w && is_some (db w)) eqn:Hsel.
  - destruct (durable_list env w) as [[l|e] w'] eqn:Hd; cbn in *.
    + exists l. repeat split; try apply Hst.
      intros [H|[e He]]; [congruence|]. rewrite Hd in He. discriminate.
    + eexists. repeat split; apply Hst.
  - eexists. repeat split.
Qed.

(** ** X4: what is saved is read back *)

Lemma HealthParameter_validate_dump p env w :
  HealthParameter_validate (HealthParameter_model_dump p) env w = (Ok p, w).
Proof. now destruct p as [? ? ? ? ? ? []]. Qed.

Lemma mapM_validate_dump ps env w :
  mapM HealthParameter_validate (map HealthParameter_model_dump ps) env w
  = (Ok ps, w).
Proof.
  induction ps as [|p ps IH]; [reflexivity|].
  cbn [map mapM]. unfold bind.
  now rewrite HealthParameter_validate_dump, IH.
Qed.

(** [load_report] undoes [stored_doc], whatever [_id] the database gave. *)
Lemma load_report_stored_doc s oid env w :
  valid_saved s = true ->
  load_report (dict_set "_id" (PObjectId oid) (stored_doc s)) env w
  = (Ok s, w).
Proof.
  unfold valid_saved. rewrite andb_true_iff. intros [Hs Hc].
  destruct s as [id [rid rt ti su hs ps ht hht os ca img] sa]. cbn in Hs, Hc.
  unfold load_report, stored_doc. cbn.
  unfold parse_iso, bind, ret, lift.
  rewrite (fromisoformat_isoformat sa Hs). cbn.
  rewrite (fromisoformat_isoformat ca Hc). cbn.
  unfold SavedReport_validate, AnalyzedReport_validate, required, bind, ret,
    lift. cbn.
  rewrite mapM_validate_dump.
  unfold AnalyzedReport_init, bind, ret, lift. cbn.
  rewrite all_str_map.
  destruct hs, hht as [l|], img; cbn; rewrite ?all_str_map; reflexivity.
Qed.

Lemma find_app_last {A} (f : A -> bool) l x :
  List.length (filter f l) = 0 -> f x = true -> find f (l ++ [x]) = Some x.
Proof.
  intros Hl Hx. induction l as [|y l IH]; cbn in *; [now rewrite Hx|].
  destruct (f y); [discriminate|]. now apply IH.
Qed.

(** The state after a save that reached the database. *)
Lemma save_report_durable_run env w report m :
  USE_MONGODB w = true -> db w = Some m ->
  db_fault env (db_ops w) = None ->
  save_report report env w
  = (Ok (new_saved_report env w report),
     mk_world true
       (Some (Mongo.insert_one
                (stored_doc (new_saved_report env w report)) m))
       (MEMORY_REPORTS w) (llm_calls w)
       (S (uuid_draws w)) (S (clock_reads w)) (S (db_ops w))).
Proof.
  intros Hu Hm Hf. rewrite save_report_run. cbv zeta.
  rewrite Hu, Hm. cbn [andb is_some]. rewrite mongo_save_run.
  cbn [db after_init db_ops]. rewrite Hm, Hf.
  unfold set_db, stored_doc, after_init. cbn [USE_MONGODB MEMORY_REPORTS
    llm_calls uuid_draws clock_reads db_ops]. now rewrite ?Hu.
Qed.

Lemma save_report_memory_run env w report :
  USE_MONGODB w && is_some (db w) = false ->
  save_report report env w
  = (Ok (new_saved_report env w report),
     set_memory (MEMORY_REPORTS w ++ [new_saved_report env w report])
       (after_init w)).
Proof. intros H. rewrite save_report_run. cbv zeta. now rewrite H. Qed.

Lemma get_report_durable_found env w m report_id doc s w' :
  USE_MONGODB w = true -> db w = Some m ->
  db_fault env (db_ops w) = None ->
  Mongo.find_one report_id m = Some doc ->
  py_truthy (PDict doc) = true ->
  load_report doc env
    (mk_world (USE_MONGODB w) (db w) (MEMORY_REPORTS w) (llm_calls w)
       (uuid_draws w) (clock_reads w) (S (db_ops w))) = (Ok s, w') ->
  get_report report_id env w = (Ok s, w').
Proof.
  intros Hu Hm Hf Hfind Htruthy Hload.
  unfold get_report. apply http_guard_ok.
  unfold bind, get_world, db_reports. rewrite Hu, Hm.
  rewrite db_await_ok by assumption. now rewrite Hfind, Htruthy.
Qed.

Lemma get_report_durable_missing env w m report_id :
  USE_MONGODB w = true -> db w = Some m ->
  db_fault env (db_ops w) = None ->
  Mongo.find_one report_id m = None ->
  fst (get_report report_id env w)
  = Raise (HTTPException 404 "Report not found").
Proof.
  intros Hu Hm Hf Hfind.
  unfold get_report, http_guard, try_except.
  unfold bind, get_world, db_reports. rewrite Hu, Hm.
  rewrite db_await_ok by assumption. now rewrite Hfind.
Qed.

Lemma get_report_memory_run env w report_id :
  USE_MONGODB w = false ->
  get_report report_id env w
  = (match find (fun r => (SavedReport.id r =? report_id)%string)
                (MEMORY_REPORTS w) with
     | Some s => Ok s
     | None => Raise (HTTPException 404 "Report not found")
     end, w).
Proof.
  intros Hu. unfold get_report, http_guard, try_except.
  unfold bind, get_world. rewrite Hu.
  now destruct (find _ (MEMORY_REPORTS w)).
Qed.

(** X4.  A report that was saved is read back by its identifier: from
    memory as the entity itself, from the database as the entity rebuilt
    from its document, equal to the one saved (the timestamps go out as ISO
    text and come back through [fromisoformat]).  The identifier is new to
    the collection, both timestamps are valid datetimes and, in database
    mode, the two round trips answer. *)
Theorem save_then_get_report :
  forall env w report,
    let saved := new_saved_report env w report in
    stored_count (SavedReport.id saved) w = 0 ->
    valid_saved saved = true ->
    (USE_MONGODB w = true ->
     db w <> None
     /\ db_fault env (db_ops w) = None
     /\ db_fault env (S (db_ops w)) = None) ->
    fst (get_report (SavedReport.id saved) env
           (snd (save_report report env w))) = Ok saved.
Proof.
  intros env w report saved Hnew Hvalid Hdb.
  unfold stored_count in Hnew.
  destruct (USE_MONGODB w) eqn:Hu.
  - destruct Hdb as (Hsome & Hf1 & Hf2); [reflexivity|].
    destruct (db w) as [m|] eqn:Hm; [clear Hsome|congruence].
    rewrite (save_report_durable_run env w report m Hu Hm Hf1).
    fold saved. cbn [snd].
    erewrite get_report_durable_found; [reflexivity|..].
    + reflexivity.
    + reflexivity.
    + exact Hf2.
    + unfold Mongo.find_one, Mongo.insert_one. cbn [Mongo.reports].
      apply (find_app_last _ _ _ Hnew).
      unfold Mongo.matches_id. cbn. apply String.eqb_refl.
    + reflexivity.
    + cbn [dict_get stored_doc String.eqb Ascii.eqb Bool.eqb].
      apply (load_report_stored_doc saved _ env _ Hvalid).
  - rewrite save_report_memory_run by now rewrite Hu.
    fold saved. cbn [snd].
    rewrite get_report_memory_run by exact Hu.
    cbn [MEMORY_REPORTS set_memory after_init fst].
    rewrite (find_app_last _ _ _ Hnew); [reflexivity|].
    apply String.eqb_refl.
Qed.

Lemma save_then_get_report_witness :
  (stored_count
     (SavedReport.id (new_saved_report (sample_env "{}") mongo_world
                        (blood_report "14.5" "normal"))) mongo_world = 0
   /\ valid_saved (new_saved_report (sample_env "{}") mongo_world
                     (blood_report "14.5" "normal")) = true
   /\ (USE_MONGODB mongo_world = true ->
       db mongo_world <> None
       /\ db_fault (sample_env "{}") (db_ops mongo_world) = None
       /\ db_fault (sample_env "{}") (S (db_ops mongo_world)) = None))
  /\ fst (get_report "uuid-0" (sample_env "{}") mongo_one)
     = Ok (new_saved_report (sample_env "{}") mongo_world
             (blood_report "14.5" "normal")).
Proof.
  assert (Hdb : USE_MONGODB mongo_world = true ->
                db mongo_world <> None
                /\ db_fault (sample_env "{}") (db_ops mongo_world) = None
                /\ db_fault (sample_env "{}") (S (db_ops mongo_world)) = None).
  { intros _. split; [discriminate|split; reflexivity]. }
  split; [split; [reflexivity|split; [reflexivity|exact Hdb]]|].
  exact (save_then_get_report (sample_env "{}") mongo_world
           (blood_report "14.5" "normal") eq_refl eq_refl Hdb).
Defined.

(** ** X5: reading and deleting one report have no fallback *)

(** X5.  With the database selected and its round trip raising [e],
    [get_report] and [delete_report] answer 500 with [str(e)] as detail and
    change nothing, whether or not [MEMORY_REPORTS] holds the report: the
    in-memory list is consulted only when the database is not selected. *)
Theorem get_and_delete_have_no_fallback :
  forall env w report_id e,
    USE_MONGODB w = true ->
    db w <> None ->
    db_fault env (db_ops w) = Some e ->
    (forall c d, e <> HTTPException c d) ->
    fst (get_report report_id env w) = Raise (HTTPException 500 (str_exn e))
    /\ fst (delete_report report_id env w)
       = Raise (HTTPException 500 (str_exn e))
    /\ same_store w (snd (get_report report_id env w))
    /\ same_store w (snd (delete_report report_id env w)).
Proof.
  intros env w report_id e Hu Hdb Hf He.
  destruct (db w) as [m|] eqn:Hm; [clear Hdb|congruence].
  unfold get_report, delete_report, http_guard, try_except.
  unfold bind, get_world, db_reports, db_await. rewrite Hu, Hm, Hf.
  unfold same_store.
  destruct e as [c d| |]; [now destruct (He c d)| |]; cbn; rewrite Hm;
    repeat split.
Qed.

Lemma get_and_delete_have_no_fallback_witness :
  (USE_MONGODB mongo_world = true
   /\ db mongo_world <> None
   /\ db_fault outage_env (db_ops mongo_world) = Some outage
   /\ forall c d, outage <> HTTPException c d)
  /\ fst (get_report "uuid-0" outage_env mongo_world)
     = Raise (HTTPException 500 "No servers found").
Proof.
  assert (Hdb : db mongo_world <> None) by discriminate.
  assert (He : forall c d, outage <> HTTPException c d) by discriminate.
  split; [split; [reflexivity|split; [exact Hdb|split; [reflexivity|exact He]]]|].
  exact (proj1 (get_and_delete_have_no_fallback outage_env mongo_world
                  "uuid-0" outage eq_refl Hdb eq_refl He)).
Defined.

(** ** X6: what a delete removes *)

Lemma memory_pop_split report_id l l' :
  memory_pop report_id l = Some l' ->
  exists l1 r l2,
    l = l1 ++ r :: l2 /\ l' = l1 ++ l2
    /\ SavedReport.id r = report_id
    /\ Forall (fun x => SavedReport.id x <> report_id) l1.
Proof.
  revert l'. induction l as [|x l IH]; cbn; intros l' H; [discriminate|].
  destruct (String.eqb_spec (SavedReport.id x) report_id) as [E|N].
  - inversion H; subst l'. exists [], x, l. repeat split; auto.
  - destruct (memory_pop report_id l) as [r'|]; [|discriminate].
    inversion H; subst l'.
    destruct (IH r' eq_refl) as (l1 & r & l2 & -> & -> & Hid & Hall).
    exists (x :: l1), r, l2. repeat split; auto.
Qed.

Lemma remove_first_split f l l' :
  Mongo.remove_first f l = (l', 1) ->
  exists l1 d l2,
    l = l1 ++ d :: l2 /\ l' = l1 ++ l2 /\ f d = true
    /\ Forall (fun x => f x = false) l1.
Proof.
  revert l'. induction l as [|x l IH]; cbn; intros l' H; [discriminate|].
  destruct (f x) eqn:E.
  - inversion H; subst l'. exists [], x, l. repeat split; auto.
  - destruct (Mongo.remove_first f l) as [r n]. inversion H; subst l' n.
    destruct (IH r eq_refl) as (l1 & d & l2 & -> & -> & Hd & Hall).
    exists (x :: l1), d, l2. repeat split; auto.
Qed.

Lemma remove_first_count f l :
  snd (Mongo.remove_first f l) = 0 \/ snd (Mongo.remove_first f l) = 1.
Proof.
  induction l as [|x l IH]; cbn; [now left|].
  destruct (f x); [now right|].
  now destruct (Mongo.remove_first f l).
Qed.

(** X6.  A delete that answers 200 removes exactly one report, the first
    one of the consulted collection that carries the identifier; the
    reports before and after it stay, in their order, and the other
    collection is not touched. *)
Theorem delete_report_removes_first :
  forall env w report_id,
    fst (delete_report report_id env w) = Ok deleted_message ->
    let w' := snd (delete_report report_id env w) in
    (USE_MONGODB w = false ->
     db w' = db w
     /\ exists l1 r l2,
          MEMORY_REPORTS w = l1 ++ r :: l2
          /\ MEMORY_REPORTS w' = l1 ++ l2
          /\ SavedReport.id r = report_id
          /\ Forall (fun x => SavedReport.id x <> report_id) l1)
    /\ (USE_MONGODB w = true ->
        MEMORY_REPORTS w' = MEMORY_REPORTS w
        /\ exists m l1 d l2,
             db w = Some m
             /\ Mongo.reports m = l1 ++ d :: l2
             /\ db w' = Some (Mongo.mk (l1 ++ l2) (Mongo.next_oid m))
             /\ Mongo.matches_id report_id d = true
             /\ Forall (fun x => Mongo.matches_id report_id x = false) l1).
Proof.
  intros env w report_id. unfold delete_report, http_guard, try_except.
  unfold bind, get_world, db_reports, db_await, modify, not_found, raise, ret.
  destruct (USE_MONGODB w) eqn:Hu.
  - destruct (db w) as [m|] eqn:Hm; [|cbn; discriminate].
    destruct (db_fault env (db_ops w)) as [e|];
      [destruct e; cbn; discriminate|].
    unfold Mongo.delete_one.
    destruct (Mongo.remove_first _ (Mongo.reports m)) as [r n] eqn:Hrm.
    pose proof (remove_first_count (Mongo.matches_id report_id)
                  (Mongo.reports m)) as Hn.
    rewrite Hrm in Hn. cbn in Hn.
    destruct Hn as [-> | ->]; cbn; [discriminate|].
    intros _. split; [discriminate|]. intros _. split; [reflexivity|].
    destruct (remove_first_split _ _ _ Hrm) as (l1 & d & l2 & E & -> & Hd & Hall).
    exists m, l1, d, l2. rewrite ?Hm. repeat split; assumption.
  - destruct (memory_pop report_id (MEMORY_REPORTS w)) as [l'|] eqn:Hpop;
      cbn; [|discriminate].
    intros _. split; [|discriminate]. intros _. split; [reflexivity|].
    destruct (memory_pop_split _ _ _ Hpop) as (l1 & r & l2 & E & -> & Hid & Hall).
    exists l1, r, l2. repeat split; assumption.
Qed.

Lemma delete_report_removes_first_witness :
  fst (delete_report "uuid-0" (sample_env "{}") memory_two)
    = Ok deleted_message
  /\ map SavedReport.id (MEMORY_REPORTS memory_two) = ["uuid-0"; "uuid-1"]
  /\ exists l1 r l2,
       MEMORY_REPORTS memory_two = l1 ++ r :: l2
       /\ MEMORY_REPORTS (snd (delete_report "uuid-0" (sample_env "{}")
                                 memory_two)) = l1 ++ l2
       /\ SavedReport.id r = "uuid-0".
Proof.
  assert (H : fst (delete_report "uuid-0" (sample_env "{}") memory_two)
              = Ok deleted_message) by reflexivity.
  split; [exact H|]. split; [reflexivity|].
  pose proof (delete_report_removes_first (sample_env "{}") memory_two
                "uuid-0" H) as Hx.
  cbv zeta in Hx. destruct Hx as [Hmem _].
  destruct (Hmem eq_refl) as (_ & l1 & r & l2 & E1 & E2 & E3 & _).
  exists l1, r, l2. repeat split; assumption.
Defined.

(** ** X7, X8: analysis when the provider cannot be used *)

(** X7.  Without a usable key ([EMERGENT_LLM_KEY] unset or empty) an
    analysis of a non-empty image answers 500 "LLM API key not configured"
    and the whole state is as before: no session identifier is drawn and
    no request goes to the provider. *)
Theorem analyze_report_without_key :
  forall env w request,
    key_configured env = false ->
    ReportAnalysisRequest.image_base64 request <> "" ->
    analyze_report request env w
    = (Raise (HTTPException 500 "LLM API key not configured"), w).
Proof.
  intros env w request Hkey Himg. apply String.eqb_neq in Himg.
  rewrite analyze_report_unfold. unfold http_guard, try_except.
  rewrite Himg. unfold bind.
  now rewrite analyze_medical_report_no_key.
Qed.

Lemma analyze_report_without_key_witness :
  (key_configured keyless_env = false
   /\ ReportAnalysisRequest.image_base64 sample_request <> "")
  /\ analyze_report sample_request
       keyless_env memory_world
     = (Raise (HTTPException 500 "LLM API key not configured"), memory_world).
Proof.
  assert (Himg : ReportAnalysisRequest.image_base64 sample_request <> "")
    by discriminate.
  split; [split; [reflexivity|exact Himg]|].
  exact (analyze_report_without_key keyless_env memory_world sample_request
           eq_refl Himg).
Defined.

(** X8.  When the provider call raises [e] (anything but a JSON decoding
    error), the analysis answers 500 with detail "Error analyzing report: "
    followed by [str(e)]: the inner handler's HTTPException passes the outer
    one unchanged.  Exactly one request went out and nothing was stored. *)
Theorem analyze_report_provider_error :
  forall env w request e,
    ReportAnalysisRequest.image_base64 request <> "" ->
    key_configured env = true ->
    llm_reply env (outbound_call env w request) = Raise e ->
    (forall msg, e <> JSONDecodeError msg) ->
    fst (analyze_report request env w)
    = Raise (HTTPException 500 ("Error analyzing report: " ++ str_exn e))
    /\ llm_calls (snd (analyze_report request env w))
       = llm_calls w ++ [outbound_call env w request]
    /\ same_store w (snd (analyze_report request env w)).
Proof.
  intros env w request e Himg Hkey Hreply He. apply String.eqb_neq in Himg.
  rewrite analyze_report_unfold. unfold http_guard, try_except.
  rewrite Himg. unfold bind.
  rewrite analyze_medical_report_run by assumption. rewrite Hreply.
  destruct e as [c d|msg|cls msg]; [|now destruct (He msg)|];
    cbn; repeat split.
Qed.

Lemma analyze_report_provider_error_witness :
  (ReportAnalysisRequest.image_base64 sample_request <> ""
   /\ key_configured rate_limited_env = true
   /\ llm_reply rate_limited_env
        (outbound_call rate_limited_env memory_world sample_request)
      = Raise rate_limit
   /\ forall msg, rate_limit <> JSONDecodeError msg)
  /\ fst (analyze_report sample_request rate_limited_env memory_world)
     = Raise (HTTPException 500 "Error analyzing report: quota exceeded").
Proof.
  assert (Himg : ReportAnalysisRequest.image_base64 sample_request <> "")
    by discriminate.
  assert (He : forall msg, rate_limit <> JSONDecodeError msg) by discriminate.
  split; [split; [exact Himg|split; [reflexivity|split; [reflexivity|exact He]]]|].
  exact (proj1 (analyze_report_provider_error rate_limited_env memory_world
                  sample_request rate_limit Himg eq_refl eq_refl He)).
Defined.

(** ** X9: where a successful analysis comes from *)

Lemma AnalyzedReport_init_world
  rt ti su hs ps ht hht os img env w r w' :
  AnalyzedReport_init None rt ti su hs ps ht hht os None img env w
    = (Ok r, w') ->
  w' = after_init w.
Proof.
  unfold AnalyzedReport_init, bind, lift, draw_uuid4, read_utcnow, ret.
  destruct (validate_str _ _ rt); [|discriminate].
  destruct (validate_str _ _ ti); [|discriminate].
  destruct (validate_str _ _ su); [|discriminate].
  destruct (validate_opt_str _ _ hs); [|discriminate].
  destruct (validate_list_str _ _ ht); [|discriminate].
  destruct (validate_opt_list_str _ _ hht); [|discriminate].
  destruct (validate_str _ _ os); [|discriminate].
  destruct (validate_opt_str _ _ img); [|discriminate].
  intros H. now inversion H.
Qed.

Lemma build_report_world request analysis env w r w' :
  build_report request analysis env w = (Ok r, w') ->
  w' = after_init w
  /\ AnalyzedReport.id r = uuid4 env (uuid_draws w)
  /\ AnalyzedReport.created_at r = utcnow env (clock_reads w).
Proof.
  unfold build_report. intros H.
  apply bind_ok_inv in H. destruct H as (ps & w1 & Hps & H).
  apply lift_ok_inv in Hps. destruct Hps as [Hps ->].
  apply bind_ok_inv in H. destruct H as (items & w1 & Hit & H).
  apply lift_ok_inv in Hit. destruct Hit as [Hit ->].
  apply bind_ok_inv in H. destruct H as (params & w1 & Hpar & H).
  apply mapM_parameter_of_ok_inv in Hpar. destruct Hpar as [Hpar ->].
  destruct analysis; try (cbn in Hps; discriminate).
  unfold bind at 1 2 3 4 5 6 7 in H. unfold lift, py_get in H.
  split; [exact (AnalyzedReport_init_world _ _ _ _ _ _ _ _ _ _ _ _ _ H)|].
  apply AnalyzedReport_init_ok_inv in H.
  destruct H as (_ & _ & _ & _ & _ & _ & _ & _ & _ & Hid & Hat & _).
  now split.
Qed.

(** X9.  Every 200 of [analyze_report] has one origin: the image was not
    empty, the key was configured, exactly one request went to the provider
    (model "gpt-4.1-mini", the image as its only attachment), its completion
    parsed, once cleaned, to an object, and the report is that object with
    the defaults filled in, one parameter per element of its parameter
    list.  The report's identifier is the draw after the session
    identifier's, so the two differ whenever the generator does not repeat
    itself, and [created_at] is the clock reading of the request. *)
Theorem analyze_report_ok_origin :
  forall env w request r w',
    analyze_report request env w = (Ok r, w') ->
    let call := outbound_call env w request in
    ReportAnalysisRequest.image_base64 request <> ""
    /\ key_configured env = true
    /\ (exists response d items,
          llm_reply env call = Ok response
          /\ json_loads env (clean_response response) = Some (PDict d)
          /\ report_filled d r
          /\ py_iter (get_default "parameters" (PList []) d) = Ok items
          /\ List.length (AnalyzedReport.parameters r) = List.length items)
    /\ llm_calls w' = llm_calls w ++ [call]
    /\ AnalyzedReport.id r = uuid4 env (S (uuid_draws w))
    /\ AnalyzedReport.created_at r = utcnow env (clock_reads w)
    /\ same_store w w'.
Proof.
  intros env w request r w' H call.
  assert (Himg : ReportAnalysisRequest.image_base64 request <> "").
  { intros E. rewrite analyze_report_unfold in H.
    apply http_guard_ok_inv in H. rewrite E in H. discriminate. }
  split; [exact Himg|].
  apply analyze_report_ok_inv in H.
  destruct H as (analysis & w1 & Hllm & Hbuild).
  destruct (key_configured env) eqn:Hkey;
    [|rewrite analyze_medical_report_no_key in Hllm by assumption;
      discriminate].
  split; [reflexivity|].
  rewrite analyze_medical_report_run in Hllm by assumption.
  fold call in Hllm.
  destruct (llm_reply env call) as [response|e] eqn:Hreply;
    [|destruct e; discriminate].
  destruct (json_loads env (clean_response response)) as [v|] eqn:Hparse;
    [|discriminate].
  inversion Hllm; subst v w1; clear Hllm.
  pose proof (build_report_world _ _ _ _ _ _ Hbuild) as (Hw & Hid & Hat).
  apply build_report_ok_inv in Hbuild.
  destruct Hbuild as (d & -> & Hfilled & _ & _).
  split; [|subst w'; repeat split; assumption].
  pose proof Hfilled as Hf.
  destruct Hf as (_ & _ & _ & _ & _ & _ & _ & items & Hitems & Hall).
  exists response, d, items.
  split; [reflexivity || assumption|].
  split; [reflexivity || assumption|].
  split; [exact Hfilled|]. split; [exact Hitems|].
  symmetry. exact (Forall2_length Hall).
Qed.

Lemma analyze_report_ok_origin_witness :
  fst (analyze_report sample_request (sample_env "{}") memory_world)
    = Ok (AnalyzedReport.mk "uuid-1" "blood_test" "Medical Report"
            "Report analyzed successfully" None [] [] None "moderate"
            (sample_time 0) (Some (image_reference sample_image)))
  /\ llm_calls (snd (analyze_report sample_request (sample_env "{}")
                       memory_world))
     = [outbound_call (sample_env "{}") memory_world sample_request].
Proof.
  split; [reflexivity|].
  exact (proj1 (proj2 (proj2 (proj2
    (analyze_report_ok_origin (sample_env "{}") memory_world sample_request
       _ _ (surjective_pairing _)))))).
Defined.

(** ** X10: the requests that only read *)

Lemma preserves_root : preserves root.
Proof. unfold root. preserve_handler. Qed.

Lemma preserves_health_check : preserves health_check.
Proof. unfold health_check. preserve_handler. Qed.

(** X10.  Six of the eight endpoints never write: after [root],
    [health_check], [analyze_report], [get_reports], [get_report] and
    [compare_reports], whatever they answer and whatever fails on the way,
    [USE_MONGODB], the database and [MEMORY_REPORTS] are what they were.
    Only [save_report] and [delete_report] change what is stored. *)
Theorem read_only_endpoints :
  forall env w,
    same_store w (snd (root env w))
    /\ same_store w (snd (health_check env w))
    /\ (forall request, same_store w (snd (analyze_report request env w)))
    /\ same_store w (snd (get_reports env w))
    /\ (forall report_id, same_store w (snd (get_report report_id env w)))
    /\ (forall request, same_store w (snd (compare_reports request env w))).
Proof.
  intros env w.
  split; [apply preserves_root|].
  split; [apply preserves_health_check|].
  split; [intros request; apply preserves_analyze_report|].
  split; [apply preserves_get_reports|].
  split; [intros report_id; apply preserves_get_report|].
  intros request. apply preserves_compare_reports.
Qed.

(** ** X11: the storage mode is chosen once *)

Lemma same_store_same_mode w w' : same_store w w' -> same_mode w w'.
Proof. intros (Hu & Hd & _). split; [exact Hu|now rewrite Hd]. Qed.

Lemma save_report_same_mode report env w :
  same_mode w (snd (save_report report env w)).
Proof.
  rewrite save_report_run. cbv zeta. rewrite mongo_save_run.
  cbn [db after_init db_ops].
  destruct (USE_MONGODB w) eqn:Hu; cbn [andb]; [|now split].
  destruct (db w) as [m|] eqn:Hm; cbn [is_some]; [|split; cbn; now rewrite ?Hm].
  destruct (db_fault env (db_ops w)); split; cbn; now rewrite ?Hm.
Qed.

Lemma delete_report_same_mode report_id env w :
  same_mode w (snd (delete_report report_id env w)).
Proof.
  unfold delete_report, http_guard, try_except.
  unfold bind, get_world, db_reports, db_await, modify, not_found, raise, ret.
  destruct (USE_MONGODB w) eqn:Hu.
  - destruct (db w) as [m|] eqn:Hm; [|split; cbn; now rewrite ?Hm].
    destruct (db_fault env (db_ops w)) as [e|];
      [destruct e; split; cbn; now rewrite ?Hm|].
    destruct (Mongo.delete_one report_id m) as [m' n].
    destruct (n =? 0)%nat; split; cbn; now rewrite ?Hm.
  - destruct (memory_pop report_id (MEMORY_REPORTS w)); split; cbn;
      now rewrite ?Hu.
Qed.

Lemma handle_same_mode q env w : same_mode w (handle q env w).
Proof.
  destruct q; cbn [handle].
  - apply same_store_same_mode, preserves_analyze_report.
  - apply save_report_same_mode.
  - apply same_store_same_mode, preserves_get_reports.
  - apply same_store_same_mode, preserves_get_report.
  - apply delete_report_same_mode.
  - apply same_store_same_mode, preserves_compare_reports.
Qed.

Lemma startup_mode url server :
  USE_MONGODB (startup url server) = database_configured url server
  /\ is_some (db (startup url server)) = database_configured url server.
Proof.
  unfold startup, database_configured.
  destruct url as [u|]; [|now split].
  destruct (u =? "")%string; [now destruct server|].
  now destruct server.
Qed.

Lemma reachable_same_mode env w0 w :
  reachable env w0 w -> same_mode w0 w.
Proof.
  induction 1 as [|w q _ [IHu IHd]]; [now split|].
  destruct (handle_same_mode q env w) as [Eu Ed].
  split; congruence.
Qed.

(** X11.  The storage mode is fixed at import.  In every state that a
    sequence of requests reaches from start-up, [USE_MONGODB] is set exactly
    when [MONGO_URL] was non-empty and the client could be built, and [db]
    is a handle exactly then: no request, and no database failure, moves
    the server from one mode to the other. *)
Theorem storage_mode_is_fixed :
  forall env MONGO_URL server w,
    reachable env (startup MONGO_URL server) w ->
    USE_MONGODB w = database_configured MONGO_URL server
    /\ is_some (db w) = USE_MONGODB w.
Proof.
  intros env url server w H.
  destruct (startup_mode url server) as [Hu Hd].
  destruct (reachable_same_mode _ _ _ H) as [Eu Ed].
  rewrite Ed, Eu, Hd, Hu. now split.
Qed.

Lemma storage_mode_is_fixed_witness :
  reachable outage_env mongo_world
    (handle (DeleteReport "uuid-0") outage_env
       (handle (SaveReport (blood_report "14.5" "normal")) outage_env
          mongo_world))
  /\ USE_MONGODB
       (handle (DeleteReport "uuid-0") outage_env
          (handle (SaveReport (blood_report "14.5" "normal")) outage_env
             mongo_world))
     = true.
Proof.
  assert (H : reachable outage_env mongo_world
                (handle (DeleteReport "uuid-0") outage_env
                   (handle (SaveReport (blood_report "14.5" "normal"))
                      outage_env mongo_world)))
    by (do 2 apply reach_step; apply reach_start).
  split; [exact H|].
  exact (proj1 (storage_mode_is_fixed outage_env
                  (Some "mongodb://localhost:27017") (Ok (Mongo.mk [] 0))
                  _ H)).
Defined.

(** ** X12: what the root endpoint reports *)

(** X12.  [root] answers 200 with the API's name, version "1.0" and
    [mongodb_connected], and changes nothing.  In every state reached from
    start-up the flag is the configuration decided at import ([MONGO_URL]
    non-empty and the client built): it does not follow the database going
    down or coming back, which only [health_check] probes. *)
Theorem root_reports_configuration :
  forall env MONGO_URL server w,
    reachable env (startup MONGO_URL server) w ->
    root env w
    = (Ok (PDict [("message", PStr "Medical Report Scanner API");
                  ("version", PStr "1.0");
                  ("mongodb_connected",
                   PBool (database_configured MONGO_URL server))]), w).
Proof.
  intros env url server w H.
  destruct (startup_mode url server) as [Hu _].
  destruct (reachable_same_mode _ _ _ H) as [Eu _].
  unfold root, bind, get_world, ret. now rewrite Eu, Hu.
Qed.

Lemma root_reports_configuration_witness :
  reachable outage_env mongo_world
    (handle (SaveReport (blood_report "14.5" "normal")) outage_env
       mongo_world)
  /\ fst (root outage_env
            (handle (SaveReport (blood_report "14.5" "normal")) outage_env
               mongo_world))
     = Ok (PDict [("message", PStr "Medical Report Scanner API");
                  ("version", PStr "1.0");
                  ("mongodb_connected", PBool true)]).
Proof.
  assert (H : reachable outage_env mongo_world
                (handle (SaveReport (blood_report "14.5" "normal"))
                   outage_env mongo_world))
    by (apply reach_step; apply reach_start).
  split; [exact H|].
  exact (f_equal fst
           (root_reports_configuration outage_env
              (Some "mongodb://localhost:27017") (Ok (Mongo.mk [] 0)) _ H)).
Defined.

(** ** X13: the health probe *)

(** X13.  [health_check] always answers 200 with status "healthy" and
    changes nothing that is stored.  It reports storage "mongodb" (and
    mongodb "connected") exactly when the database is selected, [db] is a
    handle and the ping answers; a ping that raises [e] is reported as
    mongodb "error: " followed by [str(e)], with storage "memory" and the
    status still "healthy"; without a selected database it reports
    "disconnected". *)
Theorem health_check_reports :
  forall env w,
    let selected := USE_MONGODB w && is_some (db w) in
    exists d,
      fst (health_check env w) = Ok (PDict d)
      /\ dict_get "status" d = Some (PStr "healthy")
      /\ (selected = true -> db_fault env (db_ops w) = None ->
          dict_get "storage" d = Some (PStr "mongodb")
          /\ dict_get "mongodb" d = Some (PStr "connected"))
      /\ (forall e, selected = true -> db_fault env (db_ops w) = Some e ->
          dict_get "storage" d = Some (PStr "memory")
          /\ dict_get "mongodb" d = Some (PStr ("error: " ++ str_exn e)))
      /\ (selected = false ->
          dict_get "storage" d = Some (PStr "memory")
          /\ dict_get "mongodb" d = Some (PStr "disconnected"))
      /\ same_store w (snd (health_check env w)).
Proof.
  intros env w selected. subst selected.
  pose proof (preserves_health_check env w) as Hst. revert Hst.
  unfold health_check, try_except, bind, get_world, db_await, ret.
  destruct (USE_MONGODB w && is_some (db w)).
  - destruct (db_fault env (db_ops w)) as [e|]; intros Hst; eexists;
      (split; [reflexivity|]); (split; [reflexivity|]).
    + split; [discriminate|]. split; [|split; [discriminate|exact Hst]].
      intros e' _ E. inversion E; subst e'. split; reflexivity.
    + split; [intros _ _; split; reflexivity|].
      split; [discriminate|]. split; [discriminate|exact Hst].
  - intros Hst. eexists. split; [reflexivity|]. split; [reflexivity|].
    split; [discriminate|]. split; [discriminate|].
    split; [intros _; split; reflexivity|exact Hst].
Qed.

(** ** X14, X15: which identifiers a lookup resolves *)

Lemma find_none_count {A} (f : A -> bool) l :
  find f l = None <-> List.length (filter f l) = 0.
Proof.
  induction l as [|x l IH]; cbn; [tauto|].
  destruct (f x); cbn; [split; discriminate|exact IH].
Qed.

Lemma matches_id_truthy report_id doc :
  Mongo.matches_id report_id doc = true -> py_truthy (PDict doc) = true.
Proof. destruct doc; [discriminate|reflexivity]. Qed.

Lemma get_report_absent env w report_id :
  stored_count report_id w = 0 ->
  (USE_MONGODB w = true -> db w <> None /\ db_fault env (db_ops w) = None) ->
  fst (get_report report_id env w)
  = Raise (HTTPException 404 "Report not found").
Proof.
  unfold stored_count. intros Hc Hdb.
  destruct (USE_MONGODB w) eqn:Hu.
  - destruct Hdb as [Hsome Hf]; [reflexivity|].
    destruct (db w) as [m|] eqn:Hm; [|congruence].
    apply (get_report_durable_missing env w m); auto.
    now apply find_none_count.
  - rewrite get_report_memory_run by exact Hu.
    apply find_none_count in Hc. now rewrite Hc.
Qed.

(** X14.  With the consulted collection readable (memory mode, or the
    database answering the lookup), [get_report] answers 404 "Report not
    found" exactly when no stored report carries the identifier: a stored
    report is answered with 200, or with 500 when its document cannot be
    read back, never with 404. *)
Theorem get_report_not_found_iff :
  forall env w report_id,
    (USE_MONGODB w = true -> db w <> None /\ db_fault env (db_ops w) = None) ->
    fst (get_report report_id env w)
      = Raise (HTTPException 404 "Report not found")
    <-> stored_count report_id w = 0.
Proof.
  intros env w report_id Hdb.
  split; [|intros Hc; now apply get_report_absent].
  unfold stored_count.
  destruct (USE_MONGODB w) eqn:Hu.
  - destruct Hdb as [Hsome Hf]; [reflexivity|].
    destruct (db w) as [m|] eqn:Hm; [|congruence].
    destruct (Mongo.find_one report_id m) as [doc|] eqn:Hfind;
      [|intros _; now apply find_none_count].
    pose proof (find_some _ _ Hfind) as [_ Hmatch].
    unfold get_report, http_guard, try_except.
    unfold bind, get_world, db_reports. rewrite Hu, Hm.
    rewrite db_await_ok by assumption. rewrite Hfind.
    rewrite (matches_id_truthy _ _ Hmatch).
    match goal with
    | |- context [load_report doc env ?w1] =>
        pose proof (codes_load_report env [] doc w1) as Hcodes;
        destruct (load_report doc env w1) as [[s|[c d|msg|cls msg]] w2]
    end; cbn in *; [discriminate|contradiction|discriminate|discriminate].
  - rewrite get_report_memory_run by exact Hu.
    destruct (find _ (MEMORY_REPORTS w)) eqn:Hfind; [discriminate|].
    intros _. now apply find_none_count.
Qed.

Lemma get_report_not_found_iff_witness :
  (USE_MONGODB mongo_one = true ->
   db mongo_one <> None
   /\ db_fault (sample_env "{}") (db_ops mongo_one) = None)
  /\ stored_count "uuid-7" mongo_one = 0
  /\ fst (get_report "uuid-7" (sample_env "{}") mongo_one)
     = Raise (HTTPException 404 "Report not found").
Proof.
  assert (Hdb : USE_MONGODB mongo_one = true ->
                db mongo_one <> None
                /\ db_fault (sample_env "{}") (db_ops mongo_one) = None).
  { intros _. split; [discriminate|reflexivity]. }
  split; [exact Hdb|]. split; [reflexivity|].
  exact (proj2 (get_report_not_found_iff (sample_env "{}") mongo_one
                  "uuid-7" Hdb) eq_refl).
Defined.

(** X15.  A deleted report can no longer be read: when exactly one stored
    report carries the identifier and the database, if selected, answers,
    the delete answers 200 and a lookup of the identifier right after it
    answers 404. *)
Theorem delete_then_get_report :
  forall env w report_id,
    stored_count report_id w = 1 ->
    (USE_MONGODB w = true ->
     db_fault env (db_ops w) = None
     /\ db_fault env (S (db_ops w)) = None) ->
    fst (delete_report report_id env w) = Ok deleted_message
    /\ fst (get_report report_id env (snd (delete_report report_id env w)))
       = Raise (HTTPException 404 "Report not found").
Proof.
  intros env w report_id Hc Hdb.
  assert (Hne : stored_count report_id w <> 0) by (rewrite Hc; discriminate).
  assert (Hf : USE_MONGODB w = true -> db_fault env (db_ops w) = None)
    by (intros Hu; now apply Hdb).
  destruct (delete_report_present env w report_id Hne Hf)
    as (w' & Hdel & Hcount & Hu' & Hops).
  pose proof (delete_report_same_mode report_id env w) as [_ Hsome].
  rewrite Hdel in *. cbn [fst snd] in *.
  split; [reflexivity|].
  apply get_report_absent; [rewrite Hc in Hcount; now inversion Hcount|].
  rewrite Hu'. intros Hu. rewrite Hops, Hu.
  split; [|now apply Hdb].
  unfold stored_count in Hc. rewrite Hu in Hc.
  destruct (db w); [|discriminate].
  now destruct (db w').
Qed.

Lemma delete_then_get_report_witness :
  (stored_count "uuid-0" mongo_one = 1
   /\ (USE_MONGODB mongo_one = true ->
       db_fault (sample_env "{}") (db_ops mongo_one) = None
       /\ db_fault (sample_env "{}") (S (db_ops mongo_one)) = None))
  /\ fst (get_report "uuid-0" (sample_env "{}")
            (snd (delete_report "uuid-0" (sample_env "{}") mongo_one)))
     = Raise (HTTPException 404 "Report not found").
Proof.
  assert (Hdb : USE_MONGODB mongo_one = true ->
                db_fault (sample_env "{}") (db_ops mongo_one) = None
                /\ db_fault (sample_env "{}") (S (db_ops mongo_one)) = None).
  { intros _. split; reflexivity. }
  split; [split; [reflexivity|exact Hdb]|].
  exact (proj2 (delete_then_get_report (sample_env "{}") mongo_one "uuid-0"
                  eq_refl Hdb)).
Defined.

(** ** X16: a new report heads the listing *)

Lemma sorted_newest_last x l :
  Forall (fun y => dt_ltb (SavedReport.saved_at y) (SavedReport.saved_at x)
                   = true) l ->
  sorted_by_saved_at_desc (l ++ [x]) = x :: sorted_by_saved_at_desc l.
Proof.
  unfold sorted_by_saved_at_desc. induction 1 as [|y l Hy Hl IH];
    [reflexivity|].
  cbn [app fold_right]. rewrite IH. cbn [insert_by_saved_at].
  now rewrite Hy.
Qed.

(** X16.  In memory mode, a report saved at a clock reading later than
    every stored [saved_at] heads the next listing, and the rest of that
    listing is the listing from before the save. *)
Theorem saved_report_listed_first :
  forall env w report,
    USE_MONGODB w && is_some (db w) = false ->
    Forall (fun y => dt_ltb (SavedReport.saved_at y)
                            (utcnow env (clock_reads w)) = true)
           (MEMORY_REPORTS w) ->
    exists listing,
      fst (get_reports env w) = Ok listing
      /\ fst (get_reports env (snd (save_report report env w)))
         = Ok (new_saved_report env w report :: listing).
Proof.
  intros env w report Hsel Hnew.
  exists (sorted_by_saved_at_desc (MEMORY_REPORTS w)).
  split; [rewrite get_reports_run; now rewrite Hsel|].
  rewrite save_report_memory_run by exact Hsel. cbn [snd].
  rewrite get_reports_run.
  cbn [USE_MONGODB db MEMORY_REPORTS set_memory after_init].
  rewrite Hsel. cbn [fst].
  now rewrite sorted_newest_last.
Qed.

Lemma saved_report_listed_first_witness :
  (USE_MONGODB memory_two && is_some (db memory_two) = false
   /\ Forall (fun y => dt_ltb (SavedReport.saved_at y)
                              (utcnow (sample_env "{}")
                                 (clock_reads memory_two)) = true)
             (MEMORY_REPORTS memory_two))
  /\ exists listing,
       fst (get_reports (sample_env "{}") memory_two) = Ok listing
       /\ fst (get_reports (sample_env "{}")
                 (snd (save_report (blood_report "14.5" "normal")
                         (sample_env "{}") memory_two)))
          = Ok (new_saved_report (sample_env "{}") memory_two
                  (blood_report "14.5" "normal") :: listing).
Proof.
  assert (Hnew : Forall (fun y => dt_ltb (SavedReport.saved_at y)
                                    (utcnow (sample_env "{}")
                                       (clock_reads memory_two)) = true)
                   (MEMORY_REPORTS memory_two)).
  { repeat constructor. }
  split; [split; [reflexivity|exact Hnew]|].
  exact (saved_report_listed_first (sample_env "{}") memory_two
           (blood_report "14.5" "normal") eq_refl Hnew).
Defined.

(** ** X17: what reaches the provider *)

(** X17.  With a configured key, [analyze_medical_report] makes exactly one
    call, and the request that [send_message] builds for it names the model
    "gpt-4.1-mini" (not the wrapper's default), carries the system message
    and one user message whose content is the text part with the language
    preference followed by one image part, the submitted encoding as a
    JPEG data URL, and asks for at most 4096 tokens.  The key goes to the
    client; the session identifier is in no part of the request. *)
Theorem analysis_request_payload :
  forall env w request key,
    EMERGENT_LLM_KEY env = Some key -> key <> "" ->
    let image := ReportAnalysisRequest.image_base64 request in
    let language := ReportAnalysisRequest.language request in
    exists c,
      llm_calls (snd (analyze_medical_report image language env w))
        = llm_calls w ++ [c]
      /\ Chat.api_key (chat_of key c) = key
      /\ Chat.completion_request (chat_of key c) (message_of c)
         = analysis_payload (system_message env) language image.
Proof.
  intros env w request key Hkey Hne image language.
  assert (Hconf : key_configured env = true).
  { unfold key_configured. rewrite Hkey.
    apply String.eqb_neq in Hne. now rewrite Hne. }
  exists (outbound_call env w request). subst image language.
  rewrite (analyze_medical_report_run env w request Hconf).
  split; [reflexivity|]. split; reflexivity.
Qed.

Lemma analysis_request_payload_witness :
  (EMERGENT_LLM_KEY (sample_env "{}") = Some "sk-test" /\ "sk-test" <> "")
  /\ exists c,
       llm_calls (snd (analyze_medical_report sample_image "english"
                         (sample_env "{}") memory_world))
         = llm_calls memory_world ++ [c]
       /\ Chat.api_key (chat_of "sk-test" c) = "sk-test"
       /\ Chat.completion_request (chat_of "sk-test" c) (message_of c)
          = analysis_payload (system_message (sample_env "{}")) "english"
              sample_image.
Proof.
  assert (Hne : "sk-test" <> "") by discriminate.
  split; [split; [reflexivity|exact Hne]|].
  exact (analysis_request_payload (sample_env "{}") memory_world
           sample_request "sk-test" eq_refl Hne).
Defined.

(** ** X18: the cleaned text is a trimmed piece of the completion *)

Lemma append_assoc_str a b c : ((a ++ b) ++ c = a ++ b ++ c)%string.
Proof. induction a as [|x a IH]; cbn; [reflexivity|now rewrite IH]. Qed.

Lemma append_nil_r s : (s ++ "")%string = s.
Proof. induction s as [|x s IH]; cbn; [reflexivity|now rewrite IH]. Qed.

Lemma piece_refl s : piece s s.
Proof. exists ""%string, ""%string. cbn. now rewrite append_nil_r. Qed.

Lemma piece_trans a b c : piece a b -> piece b c -> piece a c.
Proof.
  intros (p1 & q1 & ->) (p2 & q2 & ->).
  exists (p2 ++ p1)%string, (q1 ++ q2)%string.
  now rewrite !append_assoc_str.
Qed.

Lemma piece_suffix p s : piece s (p ++ s).
Proof. exists p, ""%string. now rewrite append_nil_r. Qed.

Lemma piece_prefix s q : piece s (s ++ q).
Proof. now exists ""%string, q. Qed.

Lemma lstrip_piece s : piece (PyStr.lstrip s) s.
Proof.
  induction s as [|c s IH]; cbn; [apply piece_refl|].
  destruct (PyStr.isspace c); [|apply piece_refl].
  apply (piece_trans _ _ _ IH). apply (piece_suffix (String c "")).
Qed.

Lemma rstrip_prefix s : exists q, s = (PyStr.rstrip s ++ q)%string.
Proof.
  induction s as [|c s IH]; cbn; [now exists ""%string|].
  destruct IH as [q Hq].
  destruct (PyStr.rstrip s) as [|x r] eqn:E.
  - destruct (PyStr.isspace c).
    + now exists (String c s).
    + exists s. reflexivity.
  - exists q. cbn [append]. f_equal. exact Hq.
Qed.

Lemma rstrip_piece s : piece (PyStr.rstrip s) s.
Proof.
  destruct (rstrip_prefix s) as [q Hq]. rewrite Hq at 2. apply piece_prefix.
Qed.

Lemma strip_piece s : piece (PyStr.strip s) s.
Proof.
  unfold PyStr.strip.
  exact (piece_trans _ _ _ (rstrip_piece _) (lstrip_piece s)).
Qed.

Lemma slice_from_piece n s : piece (PyStr.slice_from n s) s.
Proof.
  revert s. induction n as [|n IH]; intros s; [destruct s; apply piece_refl|].
  destruct s as [|c s]; [apply piece_refl|]. cbn.
  apply (piece_trans _ _ _ (IH s)). apply (piece_suffix (String c "")).
Qed.

Lemma slice_to_piece n s : piece (PyStr.slice_to n s) s.
Proof.
  assert (H : exists q, s = (PyStr.slice_to n s ++ q)%string).
  { unfold PyStr.slice_to. revert n.
    induction s as [|c s IH]; intros [|n]; cbn;
      try (eexists; reflexivity).
    destruct (IH n) as [q Hq]. exists q. now rewrite <- Hq. }
  destruct H as [q Hq]. rewrite Hq at 2. apply piece_prefix.
Qed.

Lemma piece_length a s : piece a s -> String.length a <= String.length s.
Proof. intros (p & q & ->). rewrite !append_length. lia. Qed.

(** X18.  Whatever the completion, the text handed to [json.loads] is a
    contiguous piece of it (cleaning only cuts at the two ends: no
    character is changed, added or removed inside), and it has no blank at
    either end. *)
Theorem clean_response_trimmed_piece :
  forall response,
    piece (clean_response response) response
    /\ PyStr.strip (clean_response response) = clean_response response
    /\ String.length (clean_response response) <= String.length response.
Proof.
  intros response.
  assert (Hp : piece (clean_response response) response).
  { unfold clean_response. cbv zeta.
    apply (piece_trans _ _ _ (strip_piece _)).
    eapply piece_trans; [|apply (strip_piece response)].
    set (s0 := PyStr.strip response).
    set (s1 := if PyStr.startswith s0 fence_json
               then PyStr.slice_from 7 s0 else s0).
    set (s2 := if PyStr.startswith s1 fence
               then PyStr.slice_from 3 s1 else s1).
    assert (H1 : piece s1 s0).
    { subst s1. destruct (PyStr.startswith s0 fence_json);
        [apply slice_from_piece|apply piece_refl]. }
    assert (H2 : piece s2 s1).
    { subst s2. destruct (PyStr.startswith s1 fence);
        [apply slice_from_piece|apply piece_refl]. }
    apply (fun H => piece_trans _ _ _ H (piece_trans _ _ _ H2 H1)).
    destruct (PyStr.endswith s2 fence);
      [apply slice_to_piece|apply piece_refl]. }
  split; [exact Hp|]. split; [|exact (piece_length _ _ Hp)].
  unfold clean_response. cbv zeta. apply strip_idem.
Qed.

(** ** X19: identifiers are unique *)

Section Draws.

Lemma grows_ret {A} (a : A) : draws_grow (ret a).
Proof. intros env w. cbn. lia. Qed.

Lemma grows_raise {A} e : draws_grow (@raise A e).
Proof. intros env w. cbn. lia. Qed.

Lemma grows_lift {A} (r : Result A) : draws_grow (lift r).
Proof. intros env w. cbn. lia. Qed.

Lemma grows_ask : draws_grow ask.
Proof. intros env w. cbn. lia. Qed.

Lemma grows_get_world : draws_grow get_world.
Proof. intros env w. cbn. lia. Qed.

Lemma grows_draw_uuid4 : draws_grow draw_uuid4.
Proof. intros env w. cbn. lia. Qed.

Lemma grows_read_utcnow : draws_grow read_utcnow.
Proof. intros env w. cbn. lia. Qed.

Lemma grows_send_message c : draws_grow (send_message c).
Proof. intros env w. cbn. lia. Qed.

Lemma grows_db_reports : draws_grow db_reports.
Proof. intros env w. unfold db_reports. destruct (db w); cbn; lia. Qed.

Lemma grows_db_await : draws_grow db_await.
Proof.
  intros env w. unfold db_await.
  destruct (db_fault env (db_ops w)); cbn; lia.
Qed.

Lemma grows_bind {A B} (m : M A) (k : A -> M B) :
  draws_grow m -> (forall a, draws_grow (k a)) -> draws_grow (bind m k).
Proof.
  intros Hm Hk env w. unfold bind. specialize (Hm env w).
  destruct (m env w) as [[a|e] w1]; cbn [snd] in *; [|assumption].
  specialize (Hk a env w1). lia.
Qed.

Lemma grows_try_except {A} (body : M A) handler :
  draws_grow body -> (forall e, draws_grow (handler e)) ->
  draws_grow (try_except body handler).
Proof.
  intros Hb Hh env w. unfold try_except. specialize (Hb env w).
  destruct (body env w) as [[a|e] w1]; cbn [snd] in *; [assumption|].
  specialize (Hh e env w1). lia.
Qed.

Lemma grows_http_guard {A} (body : M A) :
  draws_grow body -> draws_grow (http_guard body).
Proof.
  intros Hb. apply grows_try_except; [assumption|].
  intros []; apply grows_raise.
Qed.

Lemma grows_guard_500 {A} (body : M A) :
  draws_grow body -> draws_grow (guard_500 body).
Proof.
  intros Hb. apply grows_try_except; [assumption|].
  intros e. apply grows_raise.
Qed.

Lemma grows_attempt {A} (body : M A) :
  draws_grow body -> draws_grow (attempt body).
Proof.
  intros Hb env w. unfold attempt. specialize (Hb env w).
  now destruct (body env w).
Qed.

Lemma grows_mapM {A B} (f : A -> M B) l :
  (forall a, draws_grow (f a)) -> draws_grow (mapM f l).
Proof.
  intros Hf. induction l as [|x l IH]; cbn [mapM].
  - apply grows_ret.
  - apply grows_bind; [apply Hf|]. intros y.
    apply grows_bind; [apply IH|]. intros ys. apply grows_ret.
Qed.

Lemma grows_foldM {A B} (f : B -> A -> M B) l :
  (forall b a, draws_grow (f b a)) -> forall acc, draws_grow (foldM f l acc).
Proof.
  intros Hf. induction l as [|x l IH]; intros acc; cbn [foldM].
  - apply grows_ret.
  - apply grows_bind; [apply Hf|]. intros b. apply IH.
Qed.

End Draws.

Create HintDb draws.

#[local] Hint Resolve grows_ret grows_raise grows_lift grows_ask
  grows_get_world grows_draw_uuid4 grows_read_utcnow grows_send_message
  grows_db_reports grows_db_await : draws.

Ltac grow :=
  repeat first
    [ solve [auto with draws]
    | apply grows_http_guard
    | apply grows_guard_500
    | apply grows_try_except; [|intros ?]
    | apply grows_attempt
    | apply grows_mapM; intros ?
    | apply grows_foldM; intros ? ?
    | apply grows_bind; [|intros ?]
    | match goal with
      | |- draws_grow (match ?x with _ => _ end) => destruct x
      | |- draws_grow (if ?x then _ else _) => destruct x
      end ].

Lemma grows_load_report r : draws_grow (load_report r).
Proof.
  unfold load_report, SavedReport_validate, AnalyzedReport_validate,
    HealthParameter_validate, HealthParameter_init, required, parse_iso.
  grow.
Qed.

#[local] Hint Resolve grows_load_report : draws.

Lemma grows_analyze_report request : draws_grow (analyze_report request).
Proof.
  unfold analyze_report, analyze_medical_report, parameter_of,
    AnalyzedReport_init, HealthParameter_init.
  grow.
Qed.

Lemma grows_get_reports : draws_grow get_reports.
Proof. unfold get_reports, memory_sorted, durable_list. grow. Qed.

Lemma grows_get_report report_id : draws_grow (get_report report_id).
Proof. unfold get_report, not_found. grow. Qed.

Lemma grows_compare_reports request : draws_grow (compare_reports request).
Proof.
  unfold compare_reports, fetch_report, add_report, add_param. grow.
Qed.

Lemma drawn_mono env w w' s :
  uuid_draws w <= uuid_draws w' -> drawn env w s -> drawn env w' s.
Proof. intros Hle (n & Hn & ->). exists n. split; [lia|reflexivity]. Qed.

Lemma doc_drawn_mono env w w' d :
  uuid_draws w <= uuid_draws w' -> doc_drawn env w d -> doc_drawn env w' d.
Proof.
  intros Hle (s & Hs & Hd). exists s. split; [exact Hs|].
  now apply (drawn_mono env w).
Qed.

Lemma fresh_not_drawn env w :
  never_repeats env -> ~ drawn env w (uuid4 env (uuid_draws w)).
Proof. intros Hinj (n & Hn & E). apply Hinj in E. lia. Qed.

Lemma ids_unique_read env w w' :
  same_store w w' -> uuid_draws w <= uuid_draws w' ->
  ids_unique env w -> ids_unique env w'.
Proof.
  intros (_ & Hd & Hm) Hle (N & F & D). unfold ids_unique.
  rewrite Hm, Hd. split; [exact N|]. split.
  - eapply Forall_impl; [|exact F]. intros r. now apply drawn_mono.
  - intros m Em. destruct (D m Em) as [N' F']. split; [exact N'|].
    eapply Forall_impl; [|exact F']. intros d. now apply doc_drawn_mono.
Qed.

Lemma NoDup_map_snoc {A B} (g : A -> B) l x :
  NoDup (map g l) -> ~ In (g x) (map g l) -> NoDup (map g (l ++ [x])).
Proof.
  intros N Hx. rewrite map_app. apply NoDup_app; [exact N| |].
  - cbn. constructor; [easy|constructor].
  - intros a Ha [<-|[]]. now apply Hx.
Qed.

Lemma memory_append_unique env w s w' :
  never_repeats env ->
  SavedReport.id s = uuid4 env (uuid_draws w) ->
  uuid_draws w' = S (uuid_draws w) ->
  MEMORY_REPORTS w' = MEMORY_REPORTS w ++ [s] ->
  db w' = db w ->
  ids_unique env w -> ids_unique env w'.
Proof.
  intros Hinj Hid Hdraws Hmem Hdb (N & F & D). unfold ids_unique.
  rewrite Hmem, Hdb.
  assert (Hle : uuid_draws w <= uuid_draws w') by lia.
  split; [|split].
  - apply NoDup_map_snoc; [exact N|]. intros Hin.
    apply in_map_iff in Hin. destruct Hin as (r & Er & Hr).
    rewrite Forall_forall in F. specialize (F r Hr).
    rewrite Er, Hid in F. now apply (fresh_not_drawn env w).
  - apply Forall_app. split.
    + eapply Forall_impl; [|exact F]. intros r. now apply drawn_mono.
    + constructor; [|constructor]. exists (uuid_draws w).
      split; [lia|exact Hid].
  - intros m Em. destruct (D m Em) as [N' F']. split; [exact N'|].
    eapply Forall_impl; [|exact F']. intros d. now apply doc_drawn_mono.
Qed.

Lemma insert_one_unique env w s m w' :
  never_repeats env ->
  SavedReport.id s = uuid4 env (uuid_draws w) ->
  uuid_draws w' = S (uuid_draws w) ->
  MEMORY_REPORTS w' = MEMORY_REPORTS w ->
  db w = Some m ->
  db w' = Some (Mongo.insert_one (stored_doc s) m) ->
  ids_unique env w -> ids_unique env w'.
Proof.
  intros Hinj Hid Hdraws Hmem Hdb Hdb' (N & F & D). unfold ids_unique.
  rewrite Hmem, Hdb'.
  assert (Hle : uuid_draws w <= uuid_draws w') by lia.
  destruct (D m Hdb) as [N' F'].
  split; [exact N|]. split.
  - eapply Forall_impl; [|exact F]. intros r. now apply drawn_mono.
  - intros m' Em'. inversion Em'; subst m'; clear Em'.
    unfold Mongo.insert_one. cbn [Mongo.reports].
    change (dict_get "_id" (stored_doc s)) with (@None pyval). cbv iota.
    split.
    + apply NoDup_map_snoc; [exact N'|]. intros Hin.
      apply in_map_iff in Hin. destruct Hin as (d & Ed & Hd).
      rewrite Forall_forall in F'. destruct (F' d Hd) as (x & Ex & Hx).
      rewrite Ex in Ed. cbn in Ed. inversion Ed; subst x.
      rewrite Hid in Hx. now apply (fresh_not_drawn env w).
    + apply Forall_app. split.
      * eapply Forall_impl; [|exact F']. intros d. now apply doc_drawn_mono.
      * constructor; [|constructor]. exists (SavedReport.id s).
        split; [reflexivity|]. exists (uuid_draws w).
        split; [lia|exact Hid].
Qed.

Lemma save_report_ids_unique env w report :
  never_repeats env ->
  ids_unique env w -> ids_unique env (snd (save_report report env w)).
Proof.
  intros Hinj H. rewrite save_report_run. cbv zeta.
  rewrite mongo_save_run. cbn [db after_init db_ops].
  destruct (USE_MONGODB w && is_some (db w)).
  - destruct (db w) as [m|] eqn:Hm.
    + destruct (db_fault env (db_ops w)); cbn [snd].
      * apply (memory_append_unique env w (new_saved_report env w report));
          [exact Hinj|reflexivity|reflexivity|reflexivity
          |cbn; now rewrite ?Hm|exact H].
      * apply (insert_one_unique env w (new_saved_report env w report) m);
          [exact Hinj|reflexivity|reflexivity|reflexivity|exact Hm
          |reflexivity|exact H].
    + cbn [snd].
      apply (memory_append_unique env w (new_saved_report env w report));
        [exact Hinj|reflexivity|reflexivity|reflexivity
        |cbn; now rewrite ?Hm|exact H].
  - cbn [snd].
    apply (memory_append_unique env w (new_saved_report env w report));
      [exact Hinj|reflexivity|reflexivity|reflexivity|reflexivity|exact H].
Qed.

Lemma remove_first_zero f l r :
  Mongo.remove_first f l = (r, 0) -> r = l.
Proof.
  revert r. induction l as [|d l IH]; cbn; intros r H; [now inversion H|].
  destruct (f d); [discriminate|].
  destruct (Mongo.remove_first f l) as [r' n]. inversion H; subst.
  now rewrite (IH r' eq_refl).
Qed.

Lemma delete_report_ids_unique env w report_id :
  ids_unique env w -> ids_unique env (snd (delete_report report_id env w)).
Proof.
  intros H.
  unfold delete_report, http_guard, try_except.
  unfold bind, get_world, db_reports, db_await, modify, not_found, raise, ret.
  destruct (USE_MONGODB w) eqn:Hu.
  - destruct (db w) as [m|] eqn:Hm; [|cbn; exact H].
    destruct (db_fault env (db_ops w)) as [e|].
    { apply (ids_unique_read env w); [| |exact H];
        destruct e; cbn; unfold same_store; cbn; rewrite ?Hm; auto. }
    unfold Mongo.delete_one.
    destruct (Mongo.remove_first _ (Mongo.reports m)) as [r n] eqn:Hrm.
    assert (Hgoal : ids_unique env
              (set_db (Mongo.mk r (Mongo.next_oid m))
                 (mk_world (USE_MONGODB w) (Some m) (MEMORY_REPORTS w)
                    (llm_calls w) (uuid_draws w) (clock_reads w)
                    (S (db_ops w))))).
    { destruct H as (N & F & D). destruct (D m Hm) as [N' F'].
      unfold ids_unique, set_db. cbn [MEMORY_REPORTS db uuid_draws].
      split; [exact N|]. split; [exact F|].
      intros m' Em'. inversion Em'; subst m'; clear Em'.
      cbn [Mongo.reports].
      pose proof (remove_first_count (Mongo.matches_id report_id)
                    (Mongo.reports m)) as Hn.
      rewrite Hrm in Hn. cbn [snd] in Hn. destruct Hn as [-> | ->].
      - apply remove_first_zero in Hrm. subst r. now split.
      - destruct (remove_first_split _ _ _ Hrm)
          as (l1 & d & l2 & E & -> & _ & _).
        rewrite E in N', F'. rewrite map_app in N'. cbn [map] in N'.
        apply NoDup_remove_1 in N'. rewrite <- map_app in N'.
        split; [exact N'|].
        apply Forall_app in F'. destruct F' as [F1 F2].
        inversion F2; subst. apply Forall_app. now split. }
    rewrite ?Hm. destruct (n =? 0)%nat; cbn [snd]; exact Hgoal.
  - destruct (memory_pop report_id (MEMORY_REPORTS w)) as [l'|] eqn:Hpop;
      cbn [snd]; [|exact H].
    destruct (memory_pop_split _ _ _ Hpop) as (l1 & r & l2 & E & -> & _ & _).
    destruct H as (N & F & D). unfold ids_unique, set_memory.
    cbn [MEMORY_REPORTS db uuid_draws].
    rewrite E in N, F. rewrite map_app in N. cbn [map] in N.
    apply NoDup_remove_1 in N. rewrite <- map_app in N.
    split; [exact N|]. split; [|exact D].
    apply Forall_app in F. destruct F as [F1 F2].
    inversion F2; subst. apply Forall_app. now split.
Qed.

Lemma handle_ids_unique env q w :
  never_repeats env -> ids_unique env w -> ids_unique env (handle q env w).
Proof.
  intros Hinj H. destruct q; cbn [handle].
  - apply (ids_unique_read env w); [apply preserves_analyze_report
                                   |apply grows_analyze_report|exact H].
  - now apply save_report_ids_unique.
  - apply (ids_unique_read env w); [apply preserves_get_reports
                                   |apply grows_get_reports|exact H].
  - apply (ids_unique_read env w); [apply preserves_get_report
                                   |apply grows_get_report|exact H].
  - now apply delete_report_ids_unique.
  - apply (ids_unique_read env w); [apply preserves_compare_reports
                                   |apply grows_compare_reports|exact H].
Qed.

Lemma count_le_1 {A B} (p : A -> bool) (g : A -> B) l :
  NoDup (map g l) ->
  (forall x y, In x l -> In y l -> p x = true -> p y = true -> g x = g y) ->
  List.length (filter p l) <= 1.
Proof.
  induction l as [|x l IH]; cbn [map filter]; intros N Hp; [cbn; lia|].
  inversion N as [|a l' Hx N']; subst.
  assert (IH' : List.length (filter p l) <= 1).
  { apply IH; [exact N'|]. intros a b Ha Hb. apply Hp; now right. }
  destruct (p x) eqn:Ex; [|exact IH'].
  destruct (filter p l) as [|y t] eqn:Ef; [cbn; lia|].
  exfalso. apply Hx.
  assert (Hy : In y (filter p l)) by (rewrite Ef; now left).
  apply filter_In in Hy. destruct Hy as [Hy Py].
  rewrite (Hp x y); [now apply in_map|now left|now right|exact Ex|exact Py].
Qed.

Lemma ids_unique_counts env w report_id :
  ids_unique env w ->
  stored_count report_id w <= 1 /\ memory_count report_id w <= 1.
Proof.
  intros (N & F & D).
  assert (Hmem : memory_count report_id w <= 1).
  { unfold memory_count. apply (count_le_1 _ SavedReport.id); [exact N|].
    intros x y _ _ Hx Hy.
    apply String.eqb_eq in Hx, Hy. congruence. }
  split; [|exact Hmem].
  unfold stored_count. destruct (USE_MONGODB w); [|exact Hmem].
  destruct (db w) as [m|] eqn:Hm; [|lia].
  destruct (D m eq_refl) as [N' F'].
  apply (count_le_1 _ (dict_get "id")); [exact N'|].
  rewrite Forall_forall in F'.
  intros x y Hx Hy Px Py.
  destruct (F' x Hx) as (sx & Ex & _). destruct (F' y Hy) as (sy & Ey & _).
  unfold Mongo.matches_id in Px, Py. rewrite Ex in Px. rewrite Ey in Py.
  apply String.eqb_eq in Px, Py. congruence.
Qed.

(** X19.  When [uuid.uuid4] never repeats itself and the collection is
    empty at start-up, no sequence of requests brings two stored reports
    with the same identifier into one collection: in every reachable state
    at most one report of the consulted collection, and at most one report
    of [MEMORY_REPORTS], answers to a given identifier. *)
Theorem identifiers_unique :
  forall env MONGO_URL server w report_id,
    never_repeats env ->
    (forall m, server = Ok m -> Mongo.reports m = []) ->
    reachable env (startup MONGO_URL server) w ->
    stored_count report_id w <= 1 /\ memory_count report_id w <= 1.
Proof.
  intros env url server w report_id Hinj Hempty Hreach.
  apply (ids_unique_counts env). induction Hreach as [|w q _ IH].
  - unfold startup, ids_unique.
    assert (H0 : ids_unique env (mk_world false None [] [] 0 0 0)).
    { split; [constructor|]. split; [constructor|]. discriminate. }
    destruct url as [u|]; [|exact H0].
    destruct (u =? "")%string; [exact H0|].
    destruct server as [m|e]; [|exact H0].
    split; [constructor|]. split; [constructor|].
    intros m' Em'. inversion Em'; subst m'. cbn [db].
    rewrite (Hempty m eq_refl). split; constructor.
  - now apply handle_ids_unique.
Qed.

Lemma sample_uuid_never_repeats reply : never_repeats (sample_env reply).
Proof.
  intros i j H. cbn [uuid4 sample_env] in H. unfold sample_uuid in H.
  cbn [append] in H. inversion H as [E].
  assert (Eu : Some (Nat.to_uint i) = Some (Nat.to_uint j)).
  { rewrite <- !NilEmpty.usu. now rewrite E. }
  inversion Eu as [Eu'].
  rewrite <- (DecimalNat.Unsigned.of_to i), <- (DecimalNat.Unsigned.of_to j).
  now rewrite Eu'.
Qed.

Lemma identifiers_unique_witness :
  (never_repeats (sample_env "{}")
   /\ (forall m, Ok (Mongo.mk [] 0) = Ok m -> Mongo.reports m = [])
   /\ reachable (sample_env "{}") mongo_world
        (handle (SaveReport (blood_report "14.5" "normal")) (sample_env "{}")
           (handle (SaveReport (blood_report "13.1" "normal"))
              (sample_env "{}") mongo_world)))
  /\ stored_count "uuid-0"
       (handle (SaveReport (blood_report "14.5" "normal")) (sample_env "{}")
          (handle (SaveReport (blood_report "13.1" "normal"))
             (sample_env "{}") mongo_world)) <= 1.
Proof.
  assert (Hempty : forall m, Ok (Mongo.mk [] 0) = Ok m -> Mongo.reports m = []).
  { intros m E. now inversion E. }
  assert (Hreach : reachable (sample_env "{}") mongo_world
            (handle (SaveReport (blood_report "14.5" "normal"))
               (sample_env "{}")
               (handle (SaveReport (blood_report "13.1" "normal"))
                  (sample_env "{}") mongo_world)))
    by (do 2 apply reach_step; apply reach_start).
  split; [split; [apply sample_uuid_never_repeats|split;
                  [exact Hempty|exact Hreach]]|].
  exact (proj1 (identifiers_unique (sample_env "{}")
                  (Some "mongodb://localhost:27017") (Ok (Mongo.mk [] 0))
                  _ "uuid-0" (sample_uuid_never_repeats "{}")
                  Hempty Hreach)).
Defined.

(** ** X20: a report saved during an outage *)

Lemma save_report_fallback_run env w report m e :
  USE_MONGODB w = true -> db w = Some m ->
  db_fault env (db_ops w) = Some e ->
  save_report report env w
  = (Ok (new_saved_report env w report),
     mk_world true (Some m)
       (MEMORY_REPORTS w ++ [new_saved_report env w report])
       (llm_calls w) (S (uuid_draws w)) (S (clock_reads w)) (S (db_ops w))).
Proof.
  intros Hu Hm Hf. rewrite save_report_run. cbv zeta.
  rewrite mongo_save_run. cbn [db after_init db_ops].
  rewrite Hu, Hm, Hf. cbn. now rewrite ?Hu.
Qed.

Lemma durable_absent_never_ok env w m report_id :
  USE_MONGODB w = true -> db w = Some m ->
  stored_count report_id w = 0 ->
  (forall r, fst (get_report report_id env w) <> Ok r)
  /\ (forall v, fst (delete_report report_id env w) <> Ok v).
Proof.
  intros Hu Hm Hc.
  destruct (db_fault env (db_ops w)) as [e|] eqn:Hf.
  - unfold get_report, delete_report, http_guard, try_except.
    unfold bind, get_world, db_reports, db_await. rewrite Hu, Hm, Hf.
    split; intros r; destruct e; cbn; discriminate.
  - assert (Hdb : USE_MONGODB w = true ->
                  db w <> None /\ db_fault env (db_ops w) = None).
    { intros _. split; [congruence|exact Hf]. }
    split; intros r.
    + rewrite (get_report_absent env w report_id Hc Hdb). discriminate.
    + rewrite (delete_report_absent env w report_id Hc Hdb). discriminate.
Qed.

(** X20.  A report that [save_report] put into [MEMORY_REPORTS] because
    the insert raised stays out of reach of the two endpoints that address
    it by identifier: with the database selected, neither [get_report] nor
    [delete_report] answers 200 for it right after the save, whether the
    database has come back (404) or not (an error), although the save
    answered 200 and the entity is in memory. *)
Theorem fallback_save_out_of_reach :
  forall env w report e,
    USE_MONGODB w = true ->
    db w <> None ->
    db_fault env (db_ops w) = Some e ->
    let saved := new_saved_report env w report in
    let w' := snd (save_report report env w) in
    stored_count (SavedReport.id saved) w = 0 ->
    fst (save_report report env w) = Ok saved
    /\ In saved (MEMORY_REPORTS w')
    /\ (forall r, fst (get_report (SavedReport.id saved) env w') <> Ok r)
    /\ (forall v, fst (delete_report (SavedReport.id saved) env w') <> Ok v).
Proof.
  intros env w report e Hu Hdb Hf saved w' Hc. subst w'.
  destruct (db w) as [m|] eqn:Hm; [clear Hdb|congruence].
  rewrite (save_report_fallback_run env w report m e Hu Hm Hf).
  fold saved. cbn [fst snd].
  split; [reflexivity|]. split.
  - cbn [MEMORY_REPORTS]. apply in_or_app. right. now left.
  - apply (durable_absent_never_ok env _ m); [reflexivity|reflexivity|].
    unfold stored_count in *. cbn [USE_MONGODB db]. now rewrite Hu, Hm in Hc.
Qed.

Lemma fallback_save_out_of_reach_witness :
  (USE_MONGODB mongo_world = true
   /\ db mongo_world <> None
   /\ db_fault flaky_env (db_ops mongo_world) = Some outage
   /\ stored_count
        (SavedReport.id (new_saved_report flaky_env mongo_world
                           (blood_report "14.5" "normal"))) mongo_world = 0)
  /\ fst (save_report (blood_report "14.5" "normal") flaky_env mongo_world)
     = Ok (new_saved_report flaky_env mongo_world
             (blood_report "14.5" "normal"))
  /\ fst (get_report "uuid-0" flaky_env
            (snd (save_report (blood_report "14.5" "normal") flaky_env
                    mongo_world)))
     = Raise (HTTPException 404 "Report not found").
Proof.
  assert (Hdb : db mongo_world <> None) by discriminate.
  split; [split; [reflexivity|split; [exact Hdb|split; reflexivity]]|].
  split; [|reflexivity].
  exact (proj1 (fallback_save_out_of_reach flaky_env mongo_world
                  (blood_report "14.5" "normal") outage eq_refl Hdb eq_refl
                  eq_refl)).
Defined.

(** * Amended claims *)

(** ** C3: defaults for absent fields *)





(** ** C8: the listing and the documents of [save_report] *)













(** *** The states that requests lead to *)

Lemma written_same_db w w' saved :
  db w' = db w -> written w saved -> written w' saved.
Proof. unfold written. now intros ->. Qed.

Lemma remove_first_Forall2 {B} (R : pydict -> B -> Prop) f l saved :
  Forall2 R l saved ->
  exists saved', Forall2 R (fst (Mongo.remove_first f l)) saved'.
Proof.
  induction 1 as [|x y l saved Hxy H IH]; cbn [Mongo.remove_first].
  - exists []. constructor.
  - destruct (f x); [now exists saved|].
    destruct IH as (saved' & IH).
    destruct (Mongo.remove_first f l) as [r n]. cbn [fst] in *.
    exists (y :: saved'). now constructor.
Qed.

Lemma save_report_written env w report saved :
  valid_datetime (utcnow env (clock_reads w)) = true ->
  valid_datetime (AnalyzedReport.created_at report) = true ->
  written w saved ->
  exists saved', written (snd (save_report report env w)) saved'.
Proof.
  intros Hclock Hcreated Hw. rewrite save_report_run. cbv zeta.
  rewrite mongo_save_run. cbn [db after_init db_ops].
  destruct (USE_MONGODB w && is_some (db w)).
  - destruct (db w) as [m|] eqn:Hm.
    + destruct (db_fault env (db_ops w)); cbn [snd].
      * exists saved. apply (written_same_db w); [cbn; now rewrite ?Hm|].
        exact Hw.
      * exists (saved ++ [new_saved_report env w report]).
        unfold written in *. rewrite Hm in Hw. cbn [db set_db].
        unfold Mongo.insert_one. cbn [Mongo.reports].
        apply Forall2_app; [exact Hw|].
        constructor; [|constructor]. split.
        -- unfold valid_saved, new_saved_report. cbn.
           now rewrite Hclock, Hcreated.
        -- now exists (Mongo.next_oid m).
    + cbn [snd]. exists saved.
      apply (written_same_db w); [cbn; now rewrite ?Hm|exact Hw].
  - cbn [snd]. exists saved. apply (written_same_db w); [reflexivity|exact Hw].
Qed.

Lemma delete_report_written env w report_id saved :
  written w saved ->
  exists saved', written (snd (delete_report report_id env w)) saved'.
Proof.
  intros Hw.
  unfold delete_report, http_guard, try_except.
  unfold bind, get_world, db_reports, db_await, modify, not_found, raise, ret.
  destruct (USE_MONGODB w).
  - destruct (db w) as [m|] eqn:Hm;
      [|exists saved; cbn [snd]; exact Hw].
    destruct (db_fault env (db_ops w)) as [e|].
    { exists saved. apply (written_same_db w); [|exact Hw].
      destruct e; cbn; now rewrite ?Hm. }
    unfold written in Hw. rewrite Hm in Hw.
    destruct (remove_first_Forall2 written_doc
                (Mongo.matches_id report_id) _ _ Hw) as (saved' & H').
    exists saved'. unfold Mongo.delete_one.
    destruct (Mongo.remove_first _ (Mongo.reports m)) as [r n].
    cbn [fst] in H'. destruct (n =? 0)%nat; cbn; exact H'.
  - exists saved.
    destruct (memory_pop report_id (MEMORY_REPORTS w)); cbn [snd];
      (apply (written_same_db w); [reflexivity|exact Hw]).
Qed.

Lemma written_same_store w w' saved :
  same_store w w' -> written w saved -> written w' saved.
Proof. intros (_ & Hd & _). now apply written_same_db. Qed.

Lemma handle_written env q w saved :
  valid_datetime (utcnow env (clock_reads w)) = true ->
  valid_request q = true ->
  written w saved ->
  exists saved', written (handle q env w) saved'.
Proof.
  intros Hclock Hq Hw. destruct q; cbn [handle].
  - exists saved. apply (written_same_store w _ saved); [|exact Hw].
    apply preserves_analyze_report.
  - now apply (save_report_written env w r saved).
  - exists saved. apply (written_same_store w _ saved); [|exact Hw].
    apply preserves_get_reports.
  - exists saved. apply (written_same_store w _ saved); [|exact Hw].
    apply preserves_get_report.
  - now apply (delete_report_written env w report_id saved).
  - exists saved. apply (written_same_store w _ saved); [|exact Hw].
    apply preserves_compare_reports.
Qed.

(** From an empty collection, under a clock that reads real datetimes,
    every state that requests lead to holds the documents of
    [save_report] and no other. *)
Lemma served_written env MONGO_URL w :
  (forall n, valid_datetime (utcnow env n) = true) ->
  served env (startup MONGO_URL (Ok (Mongo.mk [] 0))) w ->
  exists saved, written w saved.
Proof.
  intros Hclock H. induction H as [|w q _ (saved & IH) Hq].
  - exists []. unfold written, startup.
    destruct MONGO_URL as [u|]; [|reflexivity].
    destruct (u =? "")%string; [reflexivity|]. cbn. constructor.
  - apply (handle_written env q w saved); auto.
Qed.
